(** * CRX container decoder of [crx_utils.py]

    A shallow embedding of [ChromeWebStoreURLBuilder.crx_to_zip] and of the
    helpers it calls ([_parse_crx2_header], [_parse_crx3_header],
    [_find_zip_in_data], [_find_zip_offset]), followed by the properties of
    the decoder.

    Modelling conventions.
    - A Python [bytes] object is a [list Byte.byte]; lengths, offsets and
      header fields are unbounded Python integers, hence [Z].
    - The method prints, writes the output file and raises; this is a small
      monad producing the list of effects performed and either a value or a
      raised exception.
    - What the method does not decide itself is an environment [env]:
      what [zipfile] makes of a file with given content (it lists the
      archive, raises [BadZipFile], or raises something else), whether
      [open(name, 'wb')] succeeds, and how many nested calls the
      interpreter's stack has room for, with what the call beyond that room
      does.  Every exception raised by the environment inside the [try]
      block is caught by [except Exception] like the method's own.
    - An environment lets the program open the files it names by itself:
      ["extension.zip"], and [<id>.crx] and [<id>.zip] for an extension ID.
      Names supplied by the caller may fail to open.
    - [crx_to_zip] calls itself on a nested container.  The body is written
      once, over the function used for the recursive call, and tied by a
      fuel counter next to the room left on the stack; the theorems show
      that the fuel handed out at top level is never exhausted.
    - The float formatting of the size line (lines 199-200) is kept as one
      effect.

    The second part covers the code around the decoder:
    [_detect_platform_info], the option dictionary of [__init__] and
    [to_cws_url] of [crx_utils.py], and [download_and_convert] of
    [chrome_extension_downloader.py].  The network fetch [_download_crx]
    and the float formatting [_format_size] are arguments of the model of
    [download_and_convert]; the working directory is a map from names to
    contents, names being compared as they are written. *)

From Stdlib Require Import ZArith List String Ascii Bool Lia DecimalString.
From Stdlib.Strings Require Byte.
Import ListNotations.
Local Open Scope Z_scope.

Definition bytes := list Byte.byte.

(** ** Exceptions, results and effects *)

(** The exceptions of the code itself, and [EnvError] for any other
    exception, raised by [open], by [zipfile] or by the interpreter; such
    an exception matters through its [str()] only. *)
Inductive exn : Type :=
| ValueError (msg : string)
| IndexError (msg : string)
| StructError (msg : string)
| EnvError (msg : string).

(** [str(e)] of an exception built from one message. *)
Definition str_exn (e : exn) : string :=
  match e with
  | ValueError m => m
  | IndexError m => m
  | StructError m => m
  | EnvError m => m
  end.

Inductive result (A : Type) : Type :=
| Return (a : A)
| Raise (e : exn)
| OutOfFuel.
Arguments Return {A} a.
Arguments Raise {A} e.
Arguments OutOfFuel {A}.

(** [SizeReport name] stands for lines 199-200: the size of file [name] is
    looked up and printed through [_format_size]. *)
Inductive effect : Type :=
| Print (line : string)
| FileWrite (name : string) (data : bytes)
| SizeReport (name : string).

(** A computation: the effects it performed, in order, and how it ended. *)
Definition M (A : Type) : Type := (list effect * result A)%type.

Definition ret {A} (a : A) : M A := ([], Return a).

Definition bind {A B} (m : M A) (k : A -> M B) : M B :=
  match m with
  | (out, Return a) => let r := k a in (out ++ fst r, snd r)
  | (out, Raise e) => (out, Raise e)
  | (out, OutOfFuel) => (out, OutOfFuel)
  end.

Definition raise {A} (e : exn) : M A := ([], Raise e).
Definition lift {A} (r : result A) : M A := ([], r).
Definition print (line : string) : M unit := ([Print line], Return tt).

(** [for line in lines: print(line)] *)
Fixpoint print_all (lines : list string) : M unit :=
  match lines with
  | [] => ([], Return tt)
  | line :: rest => bind (print line) (fun _ => print_all rest)
  end.

(** [try: m  except Exception as e: h e] *)
Definition try_except {A} (m : M A) (h : exn -> M A) : M A :=
  match m with
  | (out, Raise e) => let r := h e in (out ++ fst r, snd r)
  | other => other
  end.

Declare Scope py_scope.
Delimit Scope py_scope with py.
Notation "x <- m ;; k" := (bind m (fun x => k))
  (at level 61, m at next level, right associativity) : py_scope.
Notation "m ;; k" := (bind m (fun _ => k))
  (at level 61, right associativity) : py_scope.
Local Open Scope py_scope.

(** ** The Python primitives the decoder uses *)

Module Py.

Definition len (b : bytes) : Z := Z.of_nat (List.length b).

Fixpoint bytes_eqb (a b : bytes) : bool :=
  match a, b with
  | [], [] => true
  | x :: a', y :: b' => Byte.eqb x y && bytes_eqb a' b'
  | _, _ => false
  end.

(** [b[:n]] for a literal [n >= 0]. *)
Definition slice_to (b : bytes) (n : Z) : bytes := firstn (Z.to_nat n) b.

(** [b[i:]]; a negative index counts from the end. *)
Definition slice_from (b : bytes) (i : Z) : bytes :=
  if i <? 0 then skipn (Z.to_nat (len b + i)) b else skipn (Z.to_nat i) b.

(** [b[i:j]] for literals [0 <= i <= j]. *)
Definition slice (b : bytes) (i j : Z) : bytes :=
  firstn (Z.to_nat (j - i)) (skipn (Z.to_nat i) b).

(** [b[i]] for [i >= 0]. *)
Definition index (b : bytes) (i : Z) : result Z :=
  match nth_error b (Z.to_nat i) with
  | Some x => Return (Z.of_N (Byte.to_N x))
  | None => Raise (IndexError "index out of range")
  end.

Definition startswith (b sub : bytes) : bool :=
  bytes_eqb (firstn (List.length sub) b) sub.

Fixpoint find_from (sub b : bytes) (i : Z) : Z :=
  if startswith b sub then i
  else match b with
       | [] => -1
       | _ :: t => find_from sub t (i + 1)
       end.

(** [b.find(sub)]: the lowest index at which [sub] occurs, or [-1]. *)
Definition find (b sub : bytes) : Z := find_from sub b 0.

(** [struct.unpack('<I', b)[0]] *)
Definition unpack_le_u32 (b : bytes) : result Z :=
  match b with
  | [b0; b1; b2; b3] =>
      Return (Z.of_N (Byte.to_N b0)
              + 256 * Z.of_N (Byte.to_N b1)
              + 65536 * Z.of_N (Byte.to_N b2)
              + 16777216 * Z.of_N (Byte.to_N b3))
  | _ => Raise (StructError "unpack requires a buffer of 4 bytes")
  end.

(** [str(n)] of an integer, as an f-string renders it. *)
Definition fmt (n : Z) : string := NilZero.string_of_int (Z.to_int n).

End Py.

(** ** Constants *)

(** [b'PK\x03\x04'], [b'PK\x05\x06'], [b'PK\x07\x08'] and [b'Cr24']. *)
Definition PK34 : bytes := [Byte.x50; Byte.x4b; Byte.x03; Byte.x04].
Definition PK56 : bytes := [Byte.x50; Byte.x4b; Byte.x05; Byte.x06].
Definition PK78 : bytes := [Byte.x50; Byte.x4b; Byte.x07; Byte.x08].
Definition Cr24 : bytes := [Byte.x43; Byte.x72; Byte.x32; Byte.x34].

Definition zip_signatures : list bytes := [PK34; PK56; PK78].

Definition nested_line : string := "Found nested CRX, extracting inner ZIP...".
Definition wrap_prefix : string := "Error converting CRX to ZIP: ".

(** ** The helpers *)

(** The [for sig in zip_signatures] loop of [_find_zip_in_data]. *)
Fixpoint find_zip_loop (sigs : list bytes) (data : bytes) : M (option bytes) :=
  match sigs with
  | [] => ret None
  | sig :: rest =>
      let pos := Py.find data sig in
      if negb (pos =? -1) then
        print ("Found ZIP signature at position " ++ Py.fmt pos) ;;
        ret (Some (Py.slice_from data pos))
      else find_zip_loop rest data
  end.

Definition _find_zip_in_data (data : bytes) : M (option bytes) :=
  find_zip_loop zip_signatures data.

(** [if zip_data:] is false on [None] and on the empty byte string. *)
Definition _find_zip_offset (crx_data : bytes) : M Z :=
  zip_data <- _find_zip_in_data crx_data ;;
  match zip_data with
  | Some ((_ :: _) as d) => ret (Py.len crx_data - Py.len d)
  | _ => raise (ValueError "No ZIP signature found in CRX file")
  end.

Definition _parse_crx2_header (crx_data : bytes) : M Z :=
  if Py.len crx_data <? 16 then raise (ValueError "CRX2 file too small")
  else
    pubkey_length <- lift (Py.unpack_le_u32 (Py.slice crx_data 8 12)) ;;
    sig_length <- lift (Py.unpack_le_u32 (Py.slice crx_data 12 16)) ;;
    print ("CRX2 - Public key length: " ++ Py.fmt pubkey_length) ;;
    print ("CRX2 - Signature length: " ++ Py.fmt sig_length) ;;
    if (10000 <? pubkey_length) || (10000 <? sig_length) then
      print "Warning: Unusual key/signature lengths, searching for ZIP signature..." ;;
      _find_zip_offset crx_data
    else ret (16 + pubkey_length + sig_length).

Definition _parse_crx3_header (crx_data : bytes) : M Z :=
  if Py.len crx_data <? 12 then raise (ValueError "CRX3 file too small")
  else
    header_length <- lift (Py.unpack_le_u32 (Py.slice crx_data 8 12)) ;;
    print ("CRX3 - Header length: " ++ Py.fmt header_length) ;;
    if 10000 <? header_length then
      print "Warning: Unusual header length, searching for ZIP signature..." ;;
      _find_zip_offset crx_data
    else ret (12 + header_length).


(** ** [crx_to_zip] *)

(** [if not output_filename: output_filename = "extension.zip"] *)
Definition default_filename (output_filename : option string) : string :=
  match output_filename with
  | None => "extension.zip"
  | Some EmptyString => "extension.zip"
  | Some name => name
  end.

Definition is_nested_line (e : effect) : bool :=
  match e with
  | Print line => String.eqb line nested_line
  | _ => false
  end.

(** How many times the run announced a nested container, that is, how
    many recursive calls it made. *)
Definition nested_count (out : list effect) : nat :=
  List.length (filter is_nested_line out).

(** *** Extension identifiers *)

Definition newline : string := String (ascii_of_nat 10) EmptyString.

Definition in_a_to_p (c : ascii) : bool :=
  ((97 <=? nat_of_ascii c) && (nat_of_ascii c <=? 112))%nat.

(** Consume exactly [n] characters of the class [[a-p]]. *)
Fixpoint match_a_to_p (n : nat) (s : string) : option string :=
  match n with
  | O => Some s
  | S n' =>
      match s with
      | String c rest => if in_a_to_p c then match_a_to_p n' rest else None
      | EmptyString => None
      end
  end.

(** [re.match(r'^[a-p]{32}$', s)] finds a match; [$] matches at the end of
    the string and also just before a newline that ends the string. *)
Definition re_match_extension_id (s : string) : bool :=
  match match_a_to_p 32 s with
  | Some rest => String.eqb rest "" || String.eqb rest newline
  | None => false
  end.

(** *** The environment *)

(** What [zipfile.ZipFile(name, 'r')] and [namelist()] make of a file:
    the archive opens and lists its members, or [zipfile.BadZipFile] is
    raised, or another exception is raised, [msg] being its [str()]. *)
Inductive zip_check : Type :=
| ZipOpens (file_list : list string)
| BadZipFile
| ZipRaises (msg : string).

(** - [zipfile_namelist z]: the outcome of the [zipfile] check on a file
      that holds [z].
    - [open_wb name]: [None] when [open(name, 'wb')] and the write
      succeed, [Some msg] when [open] raises an exception with [str()]
      [msg].
    - [stack_room]: the number of nested calls of [crx_to_zip] the
      interpreter runs before its recursion limit interferes.
    - [stack_overflow data name]: what the nested call beyond that room
      does when called on [data] and [name]: its effects and the
      exception it ends with; it never returns.  A call announces a nested
      container only behind a header of twelve bytes or more.
    - The files the program names by itself can be opened. *)
Record env : Type := {
  zipfile_namelist : bytes -> zip_check;
  open_wb : string -> option string;
  stack_room : nat;
  stack_overflow : bytes -> option string -> list effect * exn;
  open_default : open_wb "extension.zip" = None;
  open_crx : forall id, re_match_extension_id id = true ->
                        open_wb (id ++ ".crx") = None;
  open_zip : forall id, re_match_extension_id id = true ->
                        open_wb (id ++ ".zip") = None;
  overflow_announced :
    forall data name,
      12 * Z.of_nat (nested_count (fst (stack_overflow data name))) <= Py.len data
}.

Section Environment.

Variable W : env.

(** [with open(name, 'wb') as f: f.write(data)] *)
Definition write_file (name : string) (data : bytes) : M unit :=
  match open_wb W name with
  | None => ([FileWrite name data], Return tt)
  | Some msg => ([], Raise (EnvError msg))
  end.

(** Lines 186-200 of the source, run on the file [output_filename] that
    holds [zip_data]: the [zipfile] check, in which only [BadZipFile] is
    caught, and the size report. *)
Definition zip_report (output_filename : string) (zip_data : bytes) : M unit :=
  (match zipfile_namelist W zip_data with
   | ZipOpens file_list =>
       print ("Successfully converted to ZIP with "
                ++ Py.fmt (Z.of_nat (List.length file_list)) ++ " files") ;;
       print "Files in extension:" ;;
       print_all (map (fun file_name => "  - " ++ file_name)%string
                      (firstn 10 file_list)) ;;
       if 10 <? Z.of_nat (List.length file_list) then
         print ("  ... and " ++ Py.fmt (Z.of_nat (List.length file_list) - 10)
                  ++ " more files")
       else ret tt
   | BadZipFile =>
       print "Warning: Created file doesn't appear to be a valid ZIP file"
   | ZipRaises msg => raise (EnvError msg)
   end) ;;
  ([SizeReport output_filename], Return tt).

(** The body of the method; [self] stands for the recursive call
    [self.crx_to_zip]. *)
Definition crx_to_zip_body
    (self : bytes -> option string -> M string)
    (crx_data : bytes) (output_filename : option string) : M string :=
  let output_filename := default_filename output_filename in
  try_except
    (if (4 <=? Py.len crx_data) && Py.bytes_eqb (Py.slice_to crx_data 4) PK34 then
       print "Input is already a ZIP file" ;;
       write_file output_filename crx_data ;;
       ret output_filename
     else if (Py.len crx_data <? 8) || negb (Py.bytes_eqb (Py.slice_to crx_data 4) Cr24) then
       zip_data <- _find_zip_in_data crx_data ;;
       match zip_data with
       | Some ((_ :: _) as d) =>
           write_file output_filename d ;;
           ret output_filename
       | _ => raise (ValueError "Invalid CRX file: Does not start with Cr24")
       end
     else
       version <- lift (Py.index crx_data 4) ;;
       if negb ((version =? 2) || (version =? 3)) then
         raise (ValueError ("Unexpected CRX format version: " ++ Py.fmt version))
       else
         print ("CRX Version: " ++ Py.fmt version) ;;
         zip_start_offset <-
           (if version =? 2 then _parse_crx2_header crx_data
            else _parse_crx3_header crx_data) ;;
         if Py.len crx_data <=? zip_start_offset then
           raise (ValueError "CRX file appears to be corrupted")
         else
           let zip_data := Py.slice_from crx_data zip_start_offset in
           if (version =? 3) && (4 <=? Py.len zip_data)
              && Py.bytes_eqb (Py.slice_to zip_data 4) Cr24 then
             print nested_line ;;
             self zip_data (Some output_filename)
           else
             write_file output_filename zip_data ;;
             zip_report output_filename zip_data ;;
             ret output_filename)
    (fun e => raise (ValueError (wrap_prefix ++ str_exn e))).

(** The nested call for which the stack has no room left. *)
Definition stack_exhausted (crx_data : bytes) (output_filename : option string)
  : M string :=
  (fst (stack_overflow W crx_data output_filename),
   Raise (snd (stack_overflow W crx_data output_filename))).

(** The method with [room] nested calls left on the stack. *)
Fixpoint crx_to_zip_rec (fuel room : nat) : bytes -> option string -> M string :=
  match fuel with
  | O => fun _ _ => ([], OutOfFuel)
  | S fuel' =>
      crx_to_zip_body
        (match room with
         | O => stack_exhausted
         | S room' => crx_to_zip_rec fuel' room'
         end)
  end.

Definition crx_to_zip_fuel (fuel : nat) : bytes -> option string -> M string :=
  crx_to_zip_rec fuel (stack_room W).

(** Every nested call consumes at least the 12 bytes of a header, so the
    length of the buffer is more fuel than a run can use. *)
Definition crx_to_zip (crx_data : bytes) (output_filename : option string) : M string :=
  crx_to_zip_fuel (S (List.length crx_data)) crx_data output_filename.

(** The same with another room than the one of the top-level call, and the
    nested call made when [room] calls are left. *)
Definition crx_to_zip_at (room : nat) (crx_data : bytes)
    (output_filename : option string) : M string :=
  crx_to_zip_rec (S (List.length crx_data)) room crx_data output_filename.

Definition nested_call (room : nat) : bytes -> option string -> M string :=
  match room with
  | O => stack_exhausted
  | S room' => crx_to_zip_at room'
  end.

(** ** The decoder as a function on bytes *)

(** The content of file [name] after the effects [out], if it was written. *)
Fixpoint file_content (name : string) (out : list effect) : option bytes :=
  match out with
  | [] => None
  | FileWrite n d :: rest =>
      match file_content name rest with
      | Some later => Some later
      | None => if String.eqb n name then Some d else None
      end
  | _ :: rest => file_content name rest
  end.

(** What a finished call leaves behind for its caller: the content of the
    file whose name it returned, or nothing when it raised. *)
Definition decoded (m : M string) : option bytes :=
  match m with
  | (out, Return name) => file_content name out
  | _ => None
  end.

(** [decode raw = Some z]: [crx_to_zip(raw)] returns normally and the file
    it names holds [z].  [None]: the call raised. *)
Definition decode (raw : bytes) : option bytes := decoded (crx_to_zip raw None).

(** ** Notions used by the statements *)

(** [z] begins with the four bytes [sig]. *)
Definition begins_with (sig z : bytes) : Prop := firstn (List.length sig) z = sig.

Definition begins_with_zip_signature (z : bytes) : Prop :=
  begins_with PK34 z \/ begins_with PK56 z \/ begins_with PK78 z.

(** [sig] occurs in [data] at position [p]. *)
Definition occurs_at (sig data : bytes) (p : nat) : Prop :=
  begins_with sig (skipn p data).

Definition occurs (sig data : bytes) : Prop := exists p, occurs_at sig data p.

(** [p] is the position of the earliest occurrence of [sig] in [data]. *)
Definition first_occurrence (sig data : bytes) (p : nat) : Prop :=
  occurs_at sig data p /\ forall q, (q < p)%nat -> ~ occurs_at sig data q.

(** [z] is what remains of [raw] after dropping some leading bytes. *)
Definition is_suffix (z raw : bytes) : Prop := exists dropped, raw = (dropped ++ z)%list.

(** The position the scan settles on: signatures are tried in the order of
    [zip_signatures], and the first one that occurs anywhere decides. *)
Definition scan_selects (data : bytes) (k : nat) : Prop :=
  first_occurrence PK34 data k
  \/ (~ occurs PK34 data /\ first_occurrence PK56 data k)
  \/ (~ occurs PK34 data /\ ~ occurs PK56 data /\ first_occurrence PK78 data k).

Definition found_line (k : nat) : string :=
  "Found ZIP signature at position " ++ Py.fmt (Z.of_nat k).

(** The signature-scan fallback runs on [raw]: either step 2 finds no usable
    magic, or a version 2 or 3 header carries a length above the ceiling. *)
Definition scan_fallback_runs (raw : bytes) : Prop :=
  (~ begins_with PK34 raw /\ (Py.len raw < 8 \/ ~ begins_with Cr24 raw))
  \/ (begins_with Cr24 raw /\ 8 <= Py.len raw
      /\ Py.index raw 4 = Return 2 /\ 16 <= Py.len raw
      /\ exists K S, Py.unpack_le_u32 (Py.slice raw 8 12) = Return K
                     /\ Py.unpack_le_u32 (Py.slice raw 12 16) = Return S
                     /\ (10000 < K \/ 10000 < S))
  \/ (begins_with Cr24 raw /\ 8 <= Py.len raw
      /\ Py.index raw 4 = Return 3 /\ 12 <= Py.len raw
      /\ exists H, Py.unpack_le_u32 (Py.slice raw 8 12) = Return H /\ 10000 < H).

(** The header of container [c] is trusted (magic, a version of 2 or 3,
    enough bytes, every length field within the ceiling) and puts the
    payload at offset [off]. *)
Definition header_offset (c : bytes) (off : Z) : Prop :=
  begins_with Cr24 c /\ 8 <= Py.len c
  /\ ((Py.index c 4 = Return 2 /\ 16 <= Py.len c
       /\ exists K S, Py.unpack_le_u32 (Py.slice c 8 12) = Return K
                      /\ Py.unpack_le_u32 (Py.slice c 12 16) = Return S
                      /\ K <= 10000 /\ S <= 10000 /\ off = 16 + K + S)
      \/ (Py.index c 4 = Return 3 /\ 12 <= Py.len c
          /\ exists H, Py.unpack_le_u32 (Py.slice c 8 12) = Return H
                       /\ H <= 10000 /\ off = 12 + H)).

(** [z] is the payload that the trusted header of [raw], or of a container
    nested in [raw], places at its computed offset. *)
Definition header_sliced (raw z : bytes) : Prop :=
  exists c off, is_suffix c raw /\ header_offset c off
                /\ 0 <= off < Py.len c /\ z = Py.slice_from c off.

(** The payload a successful layer writes without recursing. *)
Definition terminal_payload (raw z : bytes) : Prop :=
  (begins_with PK34 raw /\ z = raw)
  \/ (exists k, scan_selects raw k /\ z = skipn k raw)
  \/ (exists off, header_offset raw off /\ 0 <= off < Py.len raw
                  /\ z = Py.slice_from raw off).

(** The messages that the code raises itself, before any wrapping. *)
Definition base_message (m : string) : Prop :=
  m = "Invalid CRX file: Does not start with Cr24"%string
  \/ (exists v, m = ("Unexpected CRX format version: " ++ Py.fmt v)%string)
  \/ m = "CRX2 file too small"%string
  \/ m = "CRX3 file too small"%string
  \/ m = "CRX file appears to be corrupted"%string
  \/ m = "No ZIP signature found in CRX file"%string.


(** [base] behind [n] copies of the prefix added by the [except] clause. *)
Fixpoint wrapped (n : nat) (base : string) : string :=
  match n with
  | O => base
  | S n' => wrap_prefix ++ wrapped n' base
  end.

Definition is_write (e : effect) : bool :=
  match e with
  | FileWrite _ _ => true
  | _ => false
  end.

(** The file writes among the effects of a run, in order. *)
Definition writes (out : list effect) : list effect := filter is_write out.

(** The [zipfile] check of a file that holds [z] ends without an exception
    or with [BadZipFile], the one exception the source catches there. *)
Definition zip_check_passes (z : bytes) : Prop :=
  forall msg, zipfile_namelist W z <> ZipRaises msg.

(** The messages of the exceptions that [open] and [zipfile] raise. *)
Definition library_message (m : string) : Prop :=
  (exists name, open_wb W name = Some m)
  \/ (exists z, zipfile_namelist W z = ZipRaises m).

(** The buffer reaches the version dispatch: eight bytes or more, the
    first four being the magic.  Only then is the file checked with
    [zipfile] after it is written. *)
Definition has_magic (raw : bytes) : bool :=
  (8 <=? Py.len raw) && Py.bytes_eqb (Py.slice_to raw 4) Cr24.

(** What the caller of a nested call makes of its outcome: the effects
    [pre] of the outer layer come first, and an exception is wrapped once
    more by the outer [except] clause. *)
Definition after_nested (pre : list effect) (m : M string) : M string :=
  (pre ++ fst m,
   match snd m with
   | Raise e => Raise (ValueError (wrap_prefix ++ str_exn e))
   | r => r
   end).

(** The last steps of a layer that has settled on the payload [z]: the
    write, the [zipfile] check and size report when [checked], and the
    return of the file name. *)
Definition finish (checked : bool) (name : string) (z : bytes) : M string :=
  write_file name z ;;
  (if checked then zip_report name z else ret tt) ;;
  ret name.

(** The lines of the [zipfile] check on a file that holds [z]. *)
Definition zip_lines (z : bytes) : list string :=
  match zipfile_namelist W z with
  | ZipOpens file_list =>
      ("Successfully converted to ZIP with "
         ++ Py.fmt (Z.of_nat (List.length file_list)) ++ " files")%string
      :: "Files in extension:"%string
      :: (map (fun file_name => "  - " ++ file_name)%string (firstn 10 file_list)
            ++ (if 10 <? Z.of_nat (List.length file_list) then
                  [("  ... and " ++ Py.fmt (Z.of_nat (List.length file_list) - 10)
                      ++ " more files")%string]
                else []))%list
  | BadZipFile => ["Warning: Created file doesn't appear to be a valid ZIP file"%string]
  | ZipRaises _ => []
  end.

(** The effects that follow the write when the last steps succeed. *)
Definition report (checked : bool) (name : string) (z : bytes) : list effect :=
  if checked then (map Print (zip_lines z) ++ [SizeReport name])%list else [].

(** A layer that does not recurse and settles on the payload [z]: whatever
    the file name and the recursive call, it prints, then finishes with
    [z]. *)
Definition layer_writes (raw z : bytes) : Prop :=
  forall output_filename, exists pre,
    (forall self, crx_to_zip_body self raw output_filename
                  = after_nested pre
                      (finish (has_magic raw) (default_filename output_filename) z))
    /\ writes pre = [] /\ nested_count pre = 0%nat.

(** A layer that rejects its input: it raises [ValueError] with [base]
    wrapped once, and has written nothing. *)
Definition layer_raises (raw : bytes) (base : string) : Prop :=
  forall output_filename, exists out,
    (forall self, crx_to_zip_body self raw output_filename
                  = (out, Raise (ValueError (wrap_prefix ++ base))))
    /\ writes out = [] /\ nested_count out = 0%nat.

(** A layer that recurses on the payload behind a header of length [H]. *)
Definition layer_recurses (raw : bytes) (H : Z) : Prop :=
  forall self output_filename,
    crx_to_zip_body self raw output_filename
    = after_nested
        [Print ("CRX Version: " ++ Py.fmt 3);
         Print ("CRX3 - Header length: " ++ Py.fmt H);
         Print nested_line]
        (self (Py.slice_from raw (12 + H)) (Some (default_filename output_filename))).

(** How a failure reads with room for [room] nested calls: an error raised
    by the code or by a library after [d] announcements carries [d + 1]
    prefixes; the error of the call that found no room on the stack
    carries one prefix for each of the [room + 1] calls above it. *)
Definition raised_at (room : nat) (out : list effect) (e : exn) : Prop :=
  exists base,
    ((base_message base \/ library_message base)
     /\ e = ValueError (wrapped (nested_count out + 1) base)
     /\ (nested_count out <= room)%nat)
    \/ ((exists data name, base = str_exn (snd (stack_overflow W data name)))
        /\ e = ValueError (wrapped (room + 1) base)
        /\ (room < nested_count out)%nat).

(** ** Sample inputs *)

Definition byte_of_Z (z : Z) : Byte.byte :=
  match Byte.of_N (Z.to_N (z mod 256)) with
  | Some b => b
  | None => Byte.x00
  end.

(** [struct.pack('<I', n)] *)
Definition le32 (n : Z) : bytes :=
  [byte_of_Z n; byte_of_Z (n / 256); byte_of_Z (n / 65536); byte_of_Z (n / 16777216)].

(** A CRX3 file: magic, version 3, header length, header, payload. *)
Definition crx3_container (header payload : bytes) : bytes :=
  Cr24 ++ [Byte.x03; Byte.x00; Byte.x00; Byte.x00] ++ le32 (Py.len header)
       ++ header ++ payload.

(** CRX3 in CRX3: one layer per header, outermost first, around [inner]. *)
Fixpoint nested_crx3 (headers : list bytes) (inner : bytes) : bytes :=
  match headers with
  | [] => inner
  | h :: hs => crx3_container h (nested_crx3 hs inner)
  end.

(** A minimal ZIP: the local-file signature and a few bytes. *)
Definition tiny_zip : bytes := PK34 ++ [Byte.x14; Byte.x00; Byte.x00; Byte.x00].

(** [Cr24 03 00 00 00 05 00 00 00], five header bytes, then a ZIP. *)
Definition sample_crx3 : bytes :=
  Cr24 ++ [Byte.x03; Byte.x00; Byte.x00; Byte.x00; Byte.x05; Byte.x00; Byte.x00; Byte.x00]
       ++ [Byte.xaa; Byte.xbb; Byte.xcc; Byte.xdd; Byte.xee]
       ++ PK34 ++ [Byte.x14; Byte.x00].

(** A version 2 container with a 2-byte key and a 3-byte signature. *)
Definition sample_crx2 : bytes :=
  Cr24 ++ [Byte.x02; Byte.x00; Byte.x00; Byte.x00;
           Byte.x02; Byte.x00; Byte.x00; Byte.x00;
           Byte.x03; Byte.x00; Byte.x00; Byte.x00]
       ++ [Byte.x11; Byte.x22] ++ [Byte.x33; Byte.x44; Byte.x55]
       ++ PK34 ++ [Byte.x14; Byte.x00].

(** A version 2 container, empty key and signature, whose payload is the
    single byte [A]. *)
Definition crx2_plain_payload : bytes :=
  Cr24 ++ [Byte.x02; Byte.x00; Byte.x00; Byte.x00;
           Byte.x00; Byte.x00; Byte.x00; Byte.x00;
           Byte.x00; Byte.x00; Byte.x00; Byte.x00]
       ++ [Byte.x41].

(** An end-of-central-directory signature followed by a local-file one. *)
Definition eocd_then_local : bytes := PK56 ++ PK34.

(** A version 2 container, empty key and signature, around [eocd_then_local]. *)
Definition crx2_eocd_then_local : bytes :=
  Cr24 ++ [Byte.x02; Byte.x00; Byte.x00; Byte.x00;
           Byte.x00; Byte.x00; Byte.x00; Byte.x00;
           Byte.x00; Byte.x00; Byte.x00; Byte.x00]
       ++ eocd_then_local.

(** Two empty-header CRX3 layers and nothing inside. *)
Definition crx3_in_crx3_empty : bytes :=
  Cr24 ++ [Byte.x03; Byte.x00; Byte.x00; Byte.x00; Byte.x00; Byte.x00; Byte.x00; Byte.x00]
  ++ Cr24 ++ [Byte.x03; Byte.x00; Byte.x00; Byte.x00; Byte.x00; Byte.x00; Byte.x00; Byte.x00].


(** A CRX2 file: magic, version 2, both lengths, key, signature, payload. *)
Definition crx2_container (key sig payload : bytes) : bytes :=
  Cr24 ++ [Byte.x02; Byte.x00; Byte.x00; Byte.x00]
       ++ le32 (Py.len key) ++ le32 (Py.len sig)
       ++ key ++ sig ++ payload.

(** A ZIP archive with one unnamed member, whose local header, central
    directory entry and end record are complete, and which asks for
    version 9.9 of the format to extract it: [zipfile] raises
    [NotImplementedError('zip file version 9.9')] on it. *)
Definition zip_needing_version_99 : bytes :=
  (PK34 ++ [Byte.x63; Byte.x00] ++ repeat Byte.x00 24)
  ++ ([Byte.x50; Byte.x4b; Byte.x01; Byte.x02; Byte.x14; Byte.x00; Byte.x63; Byte.x00]
        ++ repeat Byte.x00 38)
  ++ (PK56 ++ [Byte.x00; Byte.x00; Byte.x00; Byte.x00; Byte.x01; Byte.x00; Byte.x01; Byte.x00;
               Byte.x2e; Byte.x00; Byte.x00; Byte.x00; Byte.x1e; Byte.x00; Byte.x00; Byte.x00;
               Byte.x00; Byte.x00]).

(** The archive without members: an end record and nothing else. *)
Definition empty_zip : bytes := PK56 ++ repeat Byte.x00 18.

(** That archive behind an empty CRX3 header, and behind an empty CRX2 key
    and signature. *)
Definition crx3_needing_version_99 : bytes := crx3_container [] zip_needing_version_99.

(** The environment of the examples.  [zipfile] lists the empty archive,
    raises [NotImplementedError] on [zip_needing_version_99], and raises
    [BadZipFile] on every other file: the other payloads used below have no
    end-of-central-directory record.  Every name can be opened but ["/"],
    which is a directory.  The stack has room for 990 nested calls. *)
Definition sample_zipfile (z : bytes) : zip_check :=
  if Py.bytes_eqb z zip_needing_version_99 then ZipRaises "zip file version 9.9"
  else if Py.bytes_eqb z empty_zip then ZipOpens []
  else BadZipFile.

Definition sample_open (name : string) : option string :=
  if String.eqb name "/" then Some "[Errno 21] Is a directory: '/'"%string else None.

Definition sample_overflow (data : bytes) (name : option string) : list effect * exn :=
  ([], EnvError "maximum recursion depth exceeded").

Definition sample_open_suffix (c1 c2 : ascii) (suffix : string) :
  forall id, re_match_extension_id id = true ->
             sample_open (id ++ String c1 (String c2 suffix)) = None.
Proof.
  intros id _. unfold sample_open.
  destruct id as [|c id]; simpl.
  - destruct (Ascii.eqb c1 "/"); reflexivity.
  - destruct (Ascii.eqb c "/"); [|reflexivity]. destruct id; reflexivity.
Qed.

Definition sample_overflow_announced (data : bytes) (name : option string) :
  12 * Z.of_nat (nested_count (fst (sample_overflow data name))) <= Py.len data.
Proof. unfold Py.len. simpl. lia. Qed.

Definition sample_env : env :=
  {| zipfile_namelist := sample_zipfile;
     open_wb := sample_open;
     stack_room := 990;
     stack_overflow := sample_overflow;
     open_default := eq_refl;
     open_crx := sample_open_suffix "." "c" "rx";
     open_zip := sample_open_suffix "." "z" "ip";
     overflow_announced := sample_overflow_announced |}.

(** ** The URL builder of [crx_utils.py] *)

(** Exceptions of the code around the decoder: those of the decoder, and
    the two a dictionary read followed by [str + value] can raise. *)
Inductive exception : Type :=
| Builtin (e : exn)
| KeyError (key : string)
| TypeError.

(** How such code ends; [NoFuel] only passes on [OutOfFuel] of the decoder. *)
Inductive outcome (A : Type) : Type :=
| Ok (a : A)
| Err (e : exception)
| NoFuel.
#[global] Arguments Ok {A} a.
#[global] Arguments Err {A} e.
#[global] Arguments NoFuel {A}.

(** Values held by the option dictionaries: [None] or a [str]. *)
Inductive pyval : Type :=
| PyNone
| PyStr (s : string).

(** A [dict] with string keys; the first binding of a key is the live one. *)
Definition dict : Type := list (string * pyval).

Fixpoint dict_get (key : string) (d : dict) : option pyval :=
  match d with
  | [] => None
  | (k, v) :: rest => if String.eqb k key then Some v else dict_get key rest
  end.

(** [d[key] = v] *)
Definition dict_set (key : string) (v : pyval) (d : dict) : dict := (key, v) :: d.

(** [d.update(kwargs)] for keyword arguments holding strings. *)
Definition dict_update (d : dict) (kwargs : list (string * string)) : dict :=
  fold_left (fun acc kv => dict_set (fst kv) (PyStr (snd kv)) acc) kwargs d.


(** [str.lower()], on the UTF-8 bytes of the string: ASCII capitals are
    lowered and every other byte is kept.  Python also rewrites non-ASCII
    characters, two of them into text with an ASCII letter (U+0130 into [i]
    followed by U+0307, U+212A into [k]); neither can complete one of the
    words that the result is compared with below. *)
Definition lower_ascii (c : ascii) : ascii :=
  let n := nat_of_ascii c in
  if ((65 <=? n) && (n <=? 90))%nat then ascii_of_nat (n + 32) else c.

Fixpoint lower (s : string) : string :=
  match s with
  | EmptyString => EmptyString
  | String c rest => String (lower_ascii c) (lower rest)
  end.

(** [sub in s] *)
Fixpoint contains (sub s : string) : bool :=
  if String.prefix sub s then true
  else match s with
       | EmptyString => false
       | String _ rest => contains sub rest
       end.

(** [_detect_platform_info], over the values of [platform.system()] and
    [platform.machine()]. *)
Definition _detect_platform_info (platform_system platform_machine : string) : dict :=
  let system := lower platform_system in
  let machine := lower platform_machine in
  let os_name :=
    if String.eqb system "darwin" then "mac"%string
    else if String.eqb system "windows" then "win"%string
    else if String.eqb system "linux" then "linux"%string
    else "linux"%string in
  let arch :=
    if contains "arm" machine then "arm"%string
    else if contains "64" machine || contains "amd64" machine || contains "x86_64" machine
         then "x86-64"%string
    else "x86-32"%string in
  [("os"%string, PyStr os_name); ("arch"%string, PyStr arch);
   ("nacl_arch"%string, PyStr arch)].

Definition _get_chrome_version : string := "9999.0.9999.0".

Definition _is_chrome_not_chromium : bool := false.

(** [self.default_options] as [__init__] builds it; a missing key of
    [platform_info] would be a [KeyError]. *)
Definition default_options (platform_info : dict) : outcome dict :=
  match dict_get "os" platform_info, dict_get "arch" platform_info,
        dict_get "nacl_arch" platform_info with
  | Some os, Some arch, Some nacl =>
      Ok [("os"%string, os); ("arch"%string, arch); ("nacl_arch"%string, nacl);
          ("prodversion"%string, PyStr _get_chrome_version); ("xid"%string, PyNone)]
  | None, _, _ => Err (KeyError "os")
  | _, None, _ => Err (KeyError "arch")
  | _, _, None => Err (KeyError "nacl_arch")
  end.

(** [url += literal + options[key]] *)
Definition add_option (url literal : string) (options : dict) (key : string)
  : outcome string :=
  match dict_get key options with
  | None => Err (KeyError key)
  | Some PyNone => Err TypeError
  | Some (PyStr v) => Ok (url ++ literal ++ v)%string
  end.

Definition and_then {A B} (m : outcome A) (k : A -> outcome B) : outcome B :=
  match m with
  | Ok a => k a
  | Err e => Err e
  | NoFuel => NoFuel
  end.

Definition to_cws_url (default_options : dict) (extension_id : string)
    (kwargs : list (string * string)) : outcome string :=
  if negb (re_match_extension_id extension_id) then
    Err (Builtin (ValueError ("Invalid extension ID format: " ++ extension_id)))
  else
    let options := dict_update default_options kwargs in
    let options := dict_set "xid" (PyStr extension_id) options in
    let product_id :=
      if _is_chrome_not_chromium then "chromecrx"%string else "chromiumcrx"%string in
    let url := "https://clients2.google.com/service/update2/crx?response=redirect"%string in
    and_then (add_option url "&os=" options "os") (fun url =>
    and_then (add_option url "&arch=" options "arch") (fun url =>
    and_then (add_option url "&os_arch=" options "arch") (fun url =>
    and_then (add_option url "&nacl_arch=" options "nacl_arch") (fun url =>
    let url := (url ++ "&prod=" ++ product_id)%string in
    let url := (url ++ "&prodchannel=unknown")%string in
    and_then (add_option url "&prodversion=" options "prodversion") (fun url =>
    let url := (url ++ "&acceptformat=crx2,crx3")%string in
    and_then (add_option url "&x=id%3D" options "xid") (fun url =>
    let url := (url ++ "%26uc")%string in
    Ok url)))))).

(** ** [download_and_convert] of [chrome_extension_downloader.py] *)

(** The files of the working directory: a name has a content or none. *)
Definition filesystem : Type := string -> option bytes.

Definition fs_write (name : string) (data : bytes) (fs : filesystem) : filesystem :=
  fun n => if String.eqb n name then Some data else fs n.

Definition fs_remove (name : string) (fs : filesystem) : filesystem :=
  fun n => if String.eqb n name then None else fs n.

(** [os.path.exists(name)] *)
Definition fs_exists (name : string) (fs : filesystem) : bool :=
  match fs name with
  | Some _ => true
  | None => false
  end.


(** What the downloader does: the effects already known, and [os.remove]. *)
Inductive action : Type :=
| Did (e : effect)
| Removed (name : string).

Fixpoint fs_after (trace : list action) (fs : filesystem) : filesystem :=
  match trace with
  | [] => fs
  | Did (FileWrite name data) :: rest => fs_after rest (fs_write name data fs)
  | Removed name :: rest => fs_after rest (fs_remove name fs)
  | _ :: rest => fs_after rest fs
  end.

(** The method, over what it does not decide itself: the option dictionary
    of its URL builder, [_download_crx] (the lines it prints and the bytes
    or [None] it returns; it catches every exception), the float
    formatting of [_format_size], and the files present at the call.
    [os.remove] is only reached for a file that exists. *)
Definition download_and_convert
    (options : dict)
    (_download_crx : string -> list string * option bytes)
    (_format_size : Z -> string)
    (extension_id : string) (output_filename : option string) (cleanup : bool)
    (fs : filesystem) : list action * outcome string :=
  let crx_filename := (extension_id ++ ".crx")%string in
  let attempt : list action * outcome string :=
    match to_cws_url options extension_id [] with
    | Err e => ([], Err e)
    | NoFuel => ([], NoFuel)
    | Ok download_url =>
        let output_filename :=
          match output_filename with
          | None => (extension_id ++ ".zip")%string
          | Some EmptyString => (extension_id ++ ".zip")%string
          | Some name => name
          end in
        let started :=
          [Did (Print ("Extension ID: " ++ extension_id));
           Did (Print ("Download URL: " ++ download_url));
           Did (Print ("Downloading CRX file: " ++ crx_filename))]
          ++ map (fun line => Did (Print line)) (fst (_download_crx download_url)) in
        match snd (_download_crx download_url) with
        | Some ((_ :: _) as crx_data) =>
            match open_wb W crx_filename with
            | Some msg => (started, Err (Builtin (EnvError msg)))
            | None =>
                let saved :=
                  started
                  ++ [Did (FileWrite crx_filename crx_data);
                      Did (Print ("CRX file saved: " ++ crx_filename ++ " ("
                                    ++ _format_size (Py.len crx_data) ++ ")"));
                      Did (Print ("Converting to ZIP: " ++ output_filename))]
                  ++ map Did (fst (crx_to_zip crx_data (Some output_filename))) in
                match snd (crx_to_zip crx_data (Some output_filename)) with
                | Return zip_file =>
                    (saved
                     ++ (if cleanup then
                           [Did (Print ("Cleaning up CRX file: " ++ crx_filename));
                            Removed crx_filename;
                            Did (Print "CRX file deleted")]
                         else [])
                     ++ [Did (Print (newline ++ "âœ… Success! Extension downloaded and converted to: "
                                       ++ zip_file))],
                     Ok zip_file)
                | Raise e => (saved, Err (Builtin e))
                | OutOfFuel => (saved, NoFuel)
                end
            end
        | _ => (started, Err (Builtin (ValueError "Failed to download CRX file")))
        end
    end in
  match snd attempt with
  | Ok zip_file => attempt
  | NoFuel => attempt
  | Err e =>
      if fs_exists crx_filename (fs_after (fst attempt) fs) then
        (fst attempt
         ++ [Did (Print ("Cleaning up CRX file after error: " ++ crx_filename));
             Removed crx_filename],
         Err e)
      else (fst attempt, Err e)
  end.

(** ** Notions for the further properties *)

(** The name [download_and_convert] gives to the ZIP file. *)
Definition output_name (extension_id : string) (output_filename : option string) : string :=
  match output_filename with
  | None => (extension_id ++ ".zip")%string
  | Some EmptyString => (extension_id ++ ".zip")%string
  | Some name => name
  end.

(** [s] is 32 letters from [a] to [p], with or without one final newline. *)
Definition is_extension_id (s : string) : Prop :=
  exists core,
    String.length core = 32%nat
    /\ (forall c, In c (list_ascii_of_string core) -> in_a_to_p c = true)
    /\ (s = core \/ s = (core ++ newline)%string).

(** The keyword arguments [to_cws_url] reads. *)
Definition is_url_option (key : string) : bool :=
  String.eqb key "os" || String.eqb key "arch" || String.eqb key "nacl_arch"
  || String.eqb key "prodversion".

(** The value [kwargs] gives to [key], if any: the last one counts. *)
Fixpoint kwargs_get (key : string) (kwargs : list (string * string)) : option string :=
  match kwargs with
  | [] => None
  | (k, v) :: rest =>
      match kwargs_get key rest with
      | Some later => Some later
      | None => if String.eqb k key then Some v else None
      end
  end.

(** The option dictionary set up on a 64-bit Linux machine. *)
Definition linux_options : dict :=
  [("os"%string, PyStr "linux"); ("arch"%string, PyStr "x86-64");
   ("nacl_arch"%string, PyStr "x86-64");
   ("prodversion"%string, PyStr "9999.0.9999.0"); ("xid"%string, PyNone)].

Definition sample_id : string := "gppongmhjkpfnbhagpmjfkannfbllamg".

(** A download that prints nothing and delivers [data]. *)
Definition delivers (data : option bytes) : string -> list string * option bytes :=
  fun _ => ([], data).

Definition no_size_format : Z -> string := fun _ => EmptyString.

Definition empty_fs : filesystem := fun _ => None.

(** ** Facts about the primitives *)

Arguments Py.fmt : simpl never.

Lemma bytes_eqb_eq (a b : bytes) : Py.bytes_eqb a b = true <-> a = b.
Proof.
  revert b; induction a as [|x a IH]; intros [|y b]; simpl; split;
    try congruence; try reflexivity.
  - intros H. apply andb_true_iff in H as [Hx Hab].
    apply Byte.byte_dec_bl in Hx. apply IH in Hab. congruence.
  - intros H. inversion H; subst. apply andb_true_iff. split.
    + now apply Byte.byte_dec_lb.
    + now apply IH.
Qed.

Lemma bytes_eqb_neq (a b : bytes) : Py.bytes_eqb a b = false <-> a <> b.
Proof.
  split.
  - intros H E. apply bytes_eqb_eq in E. congruence.
  - intros H. destruct (Py.bytes_eqb a b) eqn:E; [|reflexivity].
    apply bytes_eqb_eq in E. contradiction.
Qed.

Lemma startswith_begins (b sub : bytes) :
  Py.startswith b sub = true <-> begins_with sub b.
Proof. unfold Py.startswith, begins_with. apply bytes_eqb_eq. Qed.

Lemma startswith_not_begins (b sub : bytes) :
  Py.startswith b sub = false <-> ~ begins_with sub b.
Proof. unfold Py.startswith, begins_with. apply bytes_eqb_neq. Qed.

Lemma find_from_spec (sub b : bytes) (i : Z) :
  (Py.find_from sub b i = -1 /\ forall k, ~ occurs_at sub b k)
  \/ (exists k, (k <= List.length b)%nat
                /\ Py.find_from sub b i = i + Z.of_nat k
                /\ first_occurrence sub b k).
Proof.
  revert i; induction b as [|x t IH]; intros i; simpl.
  - destruct (Py.startswith [] sub) eqn:E.
    + right. exists 0%nat. repeat split; [lia | lia | |intros q Hq; lia].
      now apply startswith_begins in E.
    + left. split; [reflexivity|]. intros k. unfold occurs_at.
      rewrite skipn_nil. now apply startswith_not_begins.
  - destruct (Py.startswith (x :: t) sub) eqn:E.
    + right. exists 0%nat. repeat split; [simpl; lia | lia | |intros q Hq; lia].
      now apply startswith_begins in E.
    + apply startswith_not_begins in E.
      destruct (IH (i + 1)) as [[Hf Hno] | (k & Hk & Hf & Hocc & Hmin)].
      * left. split; [exact Hf|]. intros [|k]; [exact E | apply Hno].
      * right. exists (S k). repeat split.
        -- simpl; lia.
        -- rewrite Hf. lia.
        -- exact Hocc.
        -- intros [|q] Hq; [exact E | apply Hmin; lia].
Qed.

Lemma find_spec (b sub : bytes) :
  (Py.find b sub = -1 /\ ~ occurs sub b)
  \/ (exists k, (k <= List.length b)%nat
                /\ Py.find b sub = Z.of_nat k
                /\ first_occurrence sub b k).
Proof.
  unfold Py.find. destruct (find_from_spec sub b 0) as [[Hf Hno] | (k & Hk & Hf & Hocc)].
  - left. split; [exact Hf|]. intros [p Hp]. exact (Hno p Hp).
  - right. exists k. repeat split; try assumption; apply Hocc.
Qed.

Lemma first_occurrence_unique (sig data : bytes) (p q : nat) :
  first_occurrence sig data p -> first_occurrence sig data q -> p = q.
Proof.
  intros [Hp Hpm] [Hq Hqm].
  destruct (Nat.lt_trichotomy p q) as [H | [H | H]]; [|exact H|].
  - exfalso. exact (Hqm p H Hp).
  - exfalso. exact (Hpm q H Hq).
Qed.

Lemma slice_from_nonneg (b : bytes) (i : Z) :
  0 <= i -> Py.slice_from b i = skipn (Z.to_nat i) b.
Proof.
  intros H. unfold Py.slice_from.
  destruct (i <? 0) eqn:E; [apply Z.ltb_lt in E; lia | reflexivity].
Qed.

Lemma slice_from_of_nat (b : bytes) (k : nat) :
  Py.slice_from b (Z.of_nat k) = skipn k b.
Proof. rewrite slice_from_nonneg by lia. now rewrite Nat2Z.id. Qed.

Lemma len_skipn (b : bytes) (k : nat) :
  (k <= List.length b)%nat -> Py.len (skipn k b) = Py.len b - Z.of_nat k.
Proof. intros H. unfold Py.len. rewrite length_skipn. lia. Qed.

Lemma skipn_is_suffix (b : bytes) (k : nat) : is_suffix (skipn k b) b.
Proof. exists (firstn k b). symmetry. apply firstn_skipn. Qed.

Lemma is_suffix_refl (b : bytes) : is_suffix b b.
Proof. now exists []. Qed.

Lemma is_suffix_trans (a b c : bytes) : is_suffix a b -> is_suffix b c -> is_suffix a c.
Proof.
  intros [d1 H1] [d2 H2]. exists (d2 ++ d1)%list. subst. now rewrite app_assoc.
Qed.

Lemma is_suffix_length (z raw : bytes) :
  is_suffix z raw -> (List.length z <= List.length raw)%nat.
Proof. intros [d ->]. rewrite length_app. lia. Qed.

Arguments String.append : simpl never.
Arguments Py.len : simpl never.
Arguments Py.slice_from : simpl never.
Arguments Py.slice_to : simpl never.
Arguments Py.slice : simpl never.
Arguments Py.find : simpl never.

Lemma begins_with_cons (sig z : bytes) :
  sig <> [] -> begins_with sig z -> exists x t, z = x :: t.
Proof.
  unfold begins_with. destruct z as [|x t]; [|now eauto].
  rewrite firstn_nil. intros Hs E. now symmetry in E.
Qed.

Lemma slice_to_4_begins (sig z : bytes) :
  List.length sig = 4%nat -> (Py.slice_to z 4 = sig <-> begins_with sig z).
Proof. intros H. unfold Py.slice_to, begins_with. rewrite H. reflexivity. Qed.

Lemma begins_with_len (sig z : bytes) :
  begins_with sig z -> Z.of_nat (List.length sig) <= Py.len z.
Proof.
  unfold begins_with, Py.len. intros E.
  assert (L : List.length (firstn (List.length sig) z) = List.length sig) by now rewrite E.
  rewrite length_firstn in L. lia.
Qed.

Lemma index_in_range (b : bytes) (i : Z) :
  0 <= i < Py.len b -> exists v, Py.index b i = Return v /\ 0 <= v < 256.
Proof.
  intros H. unfold Py.index, Py.len in *.
  destruct (nth_error b (Z.to_nat i)) as [x|] eqn:E.
  - exists (Z.of_N (Byte.to_N x)). split; [reflexivity|].
    pose proof (Byte.to_N_bounded x). lia.
  - apply nth_error_None in E. lia.
Qed.

Lemma unpack_slice (b : bytes) (i : Z) :
  0 <= i -> i + 4 <= Py.len b ->
  exists v, Py.unpack_le_u32 (Py.slice b i (i + 4)) = Return v /\ 0 <= v < 4294967296.
Proof.
  intros Hi Hl. unfold Py.slice.
  replace (i + 4 - i) with 4 by lia.
  assert (L : List.length (firstn (Z.to_nat 4) (skipn (Z.to_nat i) b)) = 4%nat).
  { rewrite length_firstn, length_skipn. unfold Py.len in Hl. lia. }
  destruct (firstn (Z.to_nat 4) (skipn (Z.to_nat i) b))
    as [|b0 [|b1 [|b2 [|b3 [|b4 l]]]]]; try discriminate L.
  eexists. split; [reflexivity|].
  pose proof (Byte.to_N_bounded b0). pose proof (Byte.to_N_bounded b1).
  pose proof (Byte.to_N_bounded b2). pose proof (Byte.to_N_bounded b3). lia.
Qed.

(** *** The signature scan *)

Lemma find_zip_in_data_spec (data : bytes) :
  (exists k, scan_selects data k
             /\ _find_zip_in_data data = ([Print (found_line k)], Return (Some (skipn k data))))
  \/ (~ occurs PK34 data /\ ~ occurs PK56 data /\ ~ occurs PK78 data
      /\ _find_zip_in_data data = ([], Return None)).
Proof.
  unfold _find_zip_in_data, zip_signatures. simpl.
  destruct (find_spec data PK34) as [[E1 N1] | (k & _ & E & F)].
  2:{ left. exists k. split; [now left|]. rewrite E.
      replace (Z.of_nat k =? -1) with false by (symmetry; apply Z.eqb_neq; lia).
      simpl. now rewrite slice_from_of_nat. }
  rewrite E1. simpl.
  destruct (find_spec data PK56) as [[E2 N2] | (k & _ & E & F)].
  2:{ left. exists k. split; [right; left; split; assumption|]. rewrite E.
      replace (Z.of_nat k =? -1) with false by (symmetry; apply Z.eqb_neq; lia).
      simpl. now rewrite slice_from_of_nat. }
  rewrite E2. simpl.
  destruct (find_spec data PK78) as [[E3 N3] | (k & _ & E & F)].
  2:{ left. exists k. split; [right; right; repeat split; solve [assumption | apply F]|]. rewrite E.
      replace (Z.of_nat k =? -1) with false by (symmetry; apply Z.eqb_neq; lia).
      simpl. now rewrite slice_from_of_nat. }
  rewrite E3. simpl. right. now repeat split.
Qed.

Lemma scan_selects_signature (data : bytes) (k : nat) :
  scan_selects data k -> begins_with_zip_signature (skipn k data).
Proof.
  intros [[H _] | [(_ & H & _) | (_ & _ & H & _)]].
  - now left.
  - right. now left.
  - right. now right.
Qed.

Lemma scan_selects_le (data : bytes) (k : nat) :
  scan_selects data k -> (k + 4 <= List.length data)%nat.
Proof.
  intros H. apply scan_selects_signature in H.
  assert (L : 4 <= Py.len (skipn k data)).
  { destruct H as [H | [H | H]]; apply begins_with_len in H; exact H. }
  unfold Py.len in L. rewrite length_skipn in L. lia.
Qed.

Lemma scan_none_absurd (data : bytes) (k : nat) :
  scan_selects data k ->
  ~ occurs PK34 data -> ~ occurs PK56 data -> ~ occurs PK78 data -> False.
Proof.
  intros [F | [(_ & F) | (_ & _ & F)]] N1 N2 N3;
    [apply N1 | apply N2 | apply N3]; exists k; apply F.
Qed.

Lemma scan_selects_unique (data : bytes) (k k' : nat) :
  scan_selects data k -> scan_selects data k' -> k = k'.
Proof.
  intros [F | [(N & F) | (N & N' & F)]] [G | [(M & G) | (M & M' & G)]];
    try (eapply first_occurrence_unique; eassumption);
    exfalso;
    repeat match goal with
           | H : first_occurrence _ _ _ |- _ => destruct H as [H _]
           end;
    unfold occurs in *; eauto.
Qed.

Lemma zip_signature_not_magic (z : bytes) :
  begins_with_zip_signature z -> ~ begins_with Cr24 z.
Proof.
  unfold begins_with_zip_signature, begins_with. simpl.
  intros [H | [H | H]] C; rewrite H in C; discriminate C.
Qed.

Lemma find_zip_offset_spec (crx_data : bytes) :
  (exists k, scan_selects crx_data k
             /\ _find_zip_offset crx_data = ([Print (found_line k)], Return (Z.of_nat k)))
  \/ (~ occurs PK34 crx_data /\ ~ occurs PK56 crx_data /\ ~ occurs PK78 crx_data
      /\ _find_zip_offset crx_data
         = ([], Raise (ValueError "No ZIP signature found in CRX file"))).
Proof.
  unfold _find_zip_offset.
  destruct (find_zip_in_data_spec crx_data) as [(k & Hk & E) | (N1 & N2 & N3 & E)];
    rewrite E; simpl.
  - left. exists k. split; [exact Hk|].
    pose proof (scan_selects_le _ _ Hk) as Hle.
    destruct (skipn k crx_data) as [|x t] eqn:Es.
    + exfalso. assert (L : List.length (skipn k crx_data) = 0%nat) by now rewrite Es.
      rewrite length_skipn in L. lia.
    + simpl. rewrite <- Es. rewrite len_skipn by lia.
      do 2 f_equal. lia.
  - right. now repeat split.
Qed.

(** *** The two header parsers *)

Lemma parse_crx3_small (crx_data : bytes) :
  Py.len crx_data < 12 ->
  _parse_crx3_header crx_data = ([], Raise (ValueError "CRX3 file too small")).
Proof.
  intros H. unfold _parse_crx3_header.
  apply Z.ltb_lt in H. now rewrite H.
Qed.

Lemma parse_crx3_trusted (crx_data : bytes) (H : Z) :
  12 <= Py.len crx_data ->
  Py.unpack_le_u32 (Py.slice crx_data 8 12) = Return H ->
  H <= 10000 ->
  _parse_crx3_header crx_data
  = ([Print ("CRX3 - Header length: " ++ Py.fmt H)], Return (12 + H)).
Proof.
  intros Hl Hu Hc. unfold _parse_crx3_header.
  replace (Py.len crx_data <? 12) with false by (symmetry; apply Z.ltb_ge; lia).
  rewrite Hu. simpl.
  replace (10000 <? H) with false by (symmetry; apply Z.ltb_ge; lia).
  reflexivity.
Qed.

Lemma parse_crx3_fallback (crx_data : bytes) (H : Z) :
  12 <= Py.len crx_data ->
  Py.unpack_le_u32 (Py.slice crx_data 8 12) = Return H ->
  10000 < H ->
  _parse_crx3_header crx_data
  = (Print ("CRX3 - Header length: " ++ Py.fmt H)
       :: Print "Warning: Unusual header length, searching for ZIP signature..."
       :: fst (_find_zip_offset crx_data),
     snd (_find_zip_offset crx_data)).
Proof.
  intros Hl Hu Hc. unfold _parse_crx3_header.
  replace (Py.len crx_data <? 12) with false by (symmetry; apply Z.ltb_ge; lia).
  rewrite Hu. simpl.
  replace (10000 <? H) with true by (symmetry; apply Z.ltb_lt; lia).
  reflexivity.
Qed.

Lemma parse_crx2_small (crx_data : bytes) :
  Py.len crx_data < 16 ->
  _parse_crx2_header crx_data = ([], Raise (ValueError "CRX2 file too small")).
Proof.
  intros H. unfold _parse_crx2_header.
  apply Z.ltb_lt in H. now rewrite H.
Qed.

Lemma parse_crx2_trusted (crx_data : bytes) (K S : Z) :
  16 <= Py.len crx_data ->
  Py.unpack_le_u32 (Py.slice crx_data 8 12) = Return K ->
  Py.unpack_le_u32 (Py.slice crx_data 12 16) = Return S ->
  K <= 10000 -> S <= 10000 ->
  _parse_crx2_header crx_data
  = ([Print ("CRX2 - Public key length: " ++ Py.fmt K);
      Print ("CRX2 - Signature length: " ++ Py.fmt S)], Return (16 + K + S)).
Proof.
  intros Hl HK HS HcK HcS. unfold _parse_crx2_header.
  replace (Py.len crx_data <? 16) with false by (symmetry; apply Z.ltb_ge; lia).
  rewrite HK, HS. simpl.
  replace (10000 <? K) with false by (symmetry; apply Z.ltb_ge; lia).
  replace (10000 <? S) with false by (symmetry; apply Z.ltb_ge; lia).
  reflexivity.
Qed.

Lemma parse_crx2_fallback (crx_data : bytes) (K S : Z) :
  16 <= Py.len crx_data ->
  Py.unpack_le_u32 (Py.slice crx_data 8 12) = Return K ->
  Py.unpack_le_u32 (Py.slice crx_data 12 16) = Return S ->
  10000 < K \/ 10000 < S ->
  _parse_crx2_header crx_data
  = (Print ("CRX2 - Public key length: " ++ Py.fmt K)
       :: Print ("CRX2 - Signature length: " ++ Py.fmt S)
       :: Print "Warning: Unusual key/signature lengths, searching for ZIP signature..."
       :: fst (_find_zip_offset crx_data),
     snd (_find_zip_offset crx_data)).
Proof.
  intros Hl HK HS Hc. unfold _parse_crx2_header.
  replace (Py.len crx_data <? 16) with false by (symmetry; apply Z.ltb_ge; lia).
  rewrite HK, HS. simpl.
  replace ((10000 <? K) || (10000 <? S)) with true.
  - reflexivity.
  - symmetry. apply orb_true_iff. destruct Hc; [left | right]; apply Z.ltb_lt; lia.
Qed.

(** *** The branches of [crx_to_zip] *)

Lemma default_filename_idem (name : option string) :
  default_filename (Some (default_filename name)) = default_filename name.
Proof. destruct name as [[|c s]|]; reflexivity. Qed.

Lemma cond_zip (raw : bytes) :
  (4 <=? Py.len raw) && Py.bytes_eqb (Py.slice_to raw 4) PK34 = true
  <-> begins_with PK34 raw.
Proof.
  rewrite andb_true_iff, bytes_eqb_eq, Z.leb_le, (slice_to_4_begins PK34) by reflexivity.
  split; [now intros [_ H] | intros H; split; [|exact H]].
  apply begins_with_len in H. exact H.
Qed.

Lemma cond_zip_false (raw : bytes) :
  ~ begins_with PK34 raw ->
  (4 <=? Py.len raw) && Py.bytes_eqb (Py.slice_to raw 4) PK34 = false.
Proof.
  intros H. apply not_true_is_false. intros C. apply H. now apply cond_zip.
Qed.

Lemma cond_magic (raw : bytes) :
  (Py.len raw <? 8) || negb (Py.bytes_eqb (Py.slice_to raw 4) Cr24) = true
  <-> Py.len raw < 8 \/ ~ begins_with Cr24 raw.
Proof.
  rewrite orb_true_iff, negb_true_iff, bytes_eqb_neq, Z.ltb_lt,
    (slice_to_4_begins Cr24) by reflexivity.
  reflexivity.
Qed.

Lemma cond_magic_false (raw : bytes) :
  8 <= Py.len raw -> begins_with Cr24 raw ->
  (Py.len raw <? 8) || negb (Py.bytes_eqb (Py.slice_to raw 4) Cr24) = false.
Proof.
  intros Hl Hm. apply not_true_is_false. intros C.
  apply cond_magic in C as [C | C]; [lia | contradiction].
Qed.

Lemma cond_nested (z : bytes) :
  (4 <=? Py.len z) && Py.bytes_eqb (Py.slice_to z 4) Cr24 = true
  <-> begins_with Cr24 z.
Proof.
  rewrite andb_true_iff, bytes_eqb_eq, Z.leb_le, (slice_to_4_begins Cr24) by reflexivity.
  split; [now intros [_ H] | intros H; split; [|exact H]].
  apply begins_with_len in H. exact H.
Qed.

Lemma cond_nested_false (z : bytes) :
  ~ begins_with Cr24 z ->
  (4 <=? Py.len z) && Py.bytes_eqb (Py.slice_to z 4) Cr24 = false.
Proof.
  intros H. apply not_true_is_false. intros C. apply H. now apply cond_nested.
Qed.

Lemma magic_not_zip (raw : bytes) : begins_with Cr24 raw -> ~ begins_with PK34 raw.
Proof. unfold begins_with. simpl. intros H C. rewrite H in C. discriminate C. Qed.

Lemma after_nested_try (pre : list effect) (m : M string) :
  try_except (pre ++ fst m, snd m)
    (fun e => raise (ValueError (wrap_prefix ++ str_exn e)))
  = after_nested pre m.
Proof.
  unfold after_nested. destruct m as [out [a | e |]]; cbn [try_except fst snd raise];
    rewrite ?app_nil_r; reflexivity.
Qed.

Lemma has_magic_true (raw : bytes) :
  8 <= Py.len raw -> begins_with Cr24 raw -> has_magic raw = true.
Proof.
  intros Hl Hm. unfold has_magic. apply andb_true_iff. split.
  - apply Z.leb_le. exact Hl.
  - apply bytes_eqb_eq. now apply (slice_to_4_begins Cr24).
Qed.

Lemma has_magic_false (raw : bytes) :
  Py.len raw < 8 \/ ~ begins_with Cr24 raw -> has_magic raw = false.
Proof.
  intros H. unfold has_magic. apply andb_false_iff. destruct H as [H | H].
  - left. apply Z.leb_gt. exact H.
  - right. apply bytes_eqb_neq. now rewrite (slice_to_4_begins Cr24).
Qed.

Section Branches.

Variable self : bytes -> option string -> M string.
Variable crx_data : bytes.
Variable output_filename : option string.

(** Step 1: the input is already a ZIP. *)
Lemma body_already_zip :
  begins_with PK34 crx_data ->
  crx_to_zip_body self crx_data output_filename
  = after_nested [Print "Input is already a ZIP file"]
      (finish false (default_filename output_filename) crx_data).
Proof.
  intros H. unfold crx_to_zip_body.
  apply cond_zip in H. rewrite H.
  exact (after_nested_try [Print "Input is already a ZIP file"] (finish false _ _)).
Qed.

(** Step 2: no usable magic; the scan decides. *)
Lemma body_scan :
  ~ begins_with PK34 crx_data ->
  Py.len crx_data < 8 \/ ~ begins_with Cr24 crx_data ->
  (exists k, scan_selects crx_data k
             /\ crx_to_zip_body self crx_data output_filename
                = after_nested [Print (found_line k)]
                    (finish false (default_filename output_filename) (skipn k crx_data)))
  \/ (~ occurs PK34 crx_data /\ ~ occurs PK56 crx_data /\ ~ occurs PK78 crx_data
      /\ crx_to_zip_body self crx_data output_filename
         = ([], Raise (ValueError
                         (wrap_prefix ++ "Invalid CRX file: Does not start with Cr24")))).
Proof.
  intros Hz Hm. unfold crx_to_zip_body.
  rewrite (cond_zip_false _ Hz). apply cond_magic in Hm. rewrite Hm.
  destruct (find_zip_in_data_spec crx_data) as [(k & Hk & E) | (N1 & N2 & N3 & E)];
    rewrite E.
  - left. exists k. split; [exact Hk|].
    pose proof (scan_selects_signature _ _ Hk) as Hs.
    assert (Hc : exists x t, skipn k crx_data = x :: t).
    { destruct Hs as [Hs | [Hs | Hs]];
        (eapply begins_with_cons; [|exact Hs]); discriminate. }
    destruct Hc as (x & t & Hc). rewrite Hc.
    exact (after_nested_try [Print (found_line k)] (finish false _ _)).
  - right. repeat split; try assumption.
Qed.

Hypothesis Hmagic : begins_with Cr24 crx_data.
Hypothesis Hlen8 : 8 <= Py.len crx_data.

(** Step 3: a version other than 2 and 3. *)
Lemma body_bad_version (v : Z) :
  Py.index crx_data 4 = Return v -> v <> 2 -> v <> 3 ->
  crx_to_zip_body self crx_data output_filename
  = ([], Raise (ValueError
                  (wrap_prefix ++ ("Unexpected CRX format version: " ++ Py.fmt v)))).
Proof.
  intros Hv H2 H3. unfold crx_to_zip_body.
  rewrite (cond_zip_false _ (magic_not_zip _ Hmagic)), (cond_magic_false _ Hlen8 Hmagic).
  rewrite Hv. simpl.
  apply Z.eqb_neq in H2, H3. rewrite H2, H3. reflexivity.
Qed.

(** Steps 4 to 8, once the header parser has produced its result. *)
Lemma body_versioned (v : Z) :
  Py.index crx_data 4 = Return v -> v = 2 \/ v = 3 ->
  crx_to_zip_body self crx_data output_filename
  = try_except
      (print ("CRX Version: " ++ Py.fmt v) ;;
       zip_start_offset <-
         (if v =? 2 then _parse_crx2_header crx_data
          else _parse_crx3_header crx_data) ;;
       if Py.len crx_data <=? zip_start_offset then
         raise (ValueError "CRX file appears to be corrupted")
       else
         if (v =? 3) && (4 <=? Py.len (Py.slice_from crx_data zip_start_offset))
            && Py.bytes_eqb (Py.slice_to (Py.slice_from crx_data zip_start_offset) 4) Cr24
         then
           print nested_line ;;
           self (Py.slice_from crx_data zip_start_offset) (Some (default_filename output_filename))
         else
           write_file (default_filename output_filename) (Py.slice_from crx_data zip_start_offset) ;;
           zip_report (default_filename output_filename) (Py.slice_from crx_data zip_start_offset) ;;
           ret (default_filename output_filename))
      (fun e => raise (ValueError (wrap_prefix ++ str_exn e))).
Proof.
  intros Hv Hv23. unfold crx_to_zip_body.
  rewrite (cond_zip_false _ (magic_not_zip _ Hmagic)), (cond_magic_false _ Hlen8 Hmagic).
  rewrite Hv.
  destruct Hv23; subst v; reflexivity.
Qed.

End Branches.

Ltac run_py :=
  cbn [bind fst snd print ret raise lift try_except app
       negb orb andb str_exn Z.eqb Pos.eqb].
Ltac leb_false := symmetry; apply Z.leb_gt; lia.
Ltac leb_true := symmetry; apply Z.leb_le; lia.

Section HeaderBranches.

Variable self : bytes -> option string -> M string.
Variable crx_data : bytes.
Variable output_filename : option string.

Hypothesis Hmagic : begins_with Cr24 crx_data.
Hypothesis Hlen8 : 8 <= Py.len crx_data.

Section Version3.

Hypothesis Hv : Py.index crx_data 4 = Return 3.

Lemma body_crx3_small :
  Py.len crx_data < 12 ->
  crx_to_zip_body self crx_data output_filename
  = ([Print ("CRX Version: " ++ Py.fmt 3)],
     Raise (ValueError (wrap_prefix ++ "CRX3 file too small"))).
Proof.
  intros Hs. rewrite (body_versioned _ _ _ Hmagic Hlen8 3 Hv) by now right.
  run_py. rewrite parse_crx3_small by exact Hs. reflexivity.
Qed.

Variable H : Z.
Hypothesis Hlen12 : 12 <= Py.len crx_data.
Hypothesis Hu : Py.unpack_le_u32 (Py.slice crx_data 8 12) = Return H.

Lemma body_crx3_corrupted :
  H <= 10000 -> Py.len crx_data <= 12 + H ->
  crx_to_zip_body self crx_data output_filename
  = ([Print ("CRX Version: " ++ Py.fmt 3);
      Print ("CRX3 - Header length: " ++ Py.fmt H)],
     Raise (ValueError (wrap_prefix ++ "CRX file appears to be corrupted"))).
Proof.
  intros Hc Ho. rewrite (body_versioned _ _ _ Hmagic Hlen8 3 Hv) by now right.
  run_py. rewrite (parse_crx3_trusted _ H) by assumption. run_py.
  replace (Py.len crx_data <=? 12 + H) with true by leb_true.
  reflexivity.
Qed.

Lemma body_crx3_payload :
  H <= 10000 -> 12 + H < Py.len crx_data ->
  ~ begins_with Cr24 (Py.slice_from crx_data (12 + H)) ->
  crx_to_zip_body self crx_data output_filename
  = after_nested
      [Print ("CRX Version: " ++ Py.fmt 3);
       Print ("CRX3 - Header length: " ++ Py.fmt H)]
      (finish true (default_filename output_filename) (Py.slice_from crx_data (12 + H))).
Proof.
  intros Hc Ho Hn. rewrite (body_versioned _ _ _ Hmagic Hlen8 3 Hv) by now right.
  run_py. rewrite (parse_crx3_trusted _ H) by assumption. run_py.
  replace (Py.len crx_data <=? 12 + H) with false by leb_false.
  rewrite (cond_nested_false _ Hn).
  exact (after_nested_try
           [Print ("CRX Version: " ++ Py.fmt 3);
            Print ("CRX3 - Header length: " ++ Py.fmt H)]
           (finish true _ _)).
Qed.

Lemma body_crx3_nested :
  H <= 10000 -> 12 + H < Py.len crx_data ->
  begins_with Cr24 (Py.slice_from crx_data (12 + H)) ->
  crx_to_zip_body self crx_data output_filename
  = after_nested
      [Print ("CRX Version: " ++ Py.fmt 3);
       Print ("CRX3 - Header length: " ++ Py.fmt H);
       Print nested_line]
      (self (Py.slice_from crx_data (12 + H))
            (Some (default_filename output_filename))).
Proof.
  intros Hc Ho Hn. rewrite (body_versioned _ _ _ Hmagic Hlen8 3 Hv) by now right.
  run_py. rewrite (parse_crx3_trusted _ H) by assumption. run_py.
  replace (Py.len crx_data <=? 12 + H) with false by leb_false.
  apply cond_nested in Hn. rewrite Hn. run_py.
  unfold after_nested.
  destruct (self _ _) as [out [a | e |]]; run_py; try reflexivity.
  now rewrite app_nil_r.
Qed.

Lemma body_crx3_fallback :
  10000 < H ->
  (exists k, scan_selects crx_data k
     /\ crx_to_zip_body self crx_data output_filename
        = after_nested
            [Print ("CRX Version: " ++ Py.fmt 3);
             Print ("CRX3 - Header length: " ++ Py.fmt H);
             Print "Warning: Unusual header length, searching for ZIP signature...";
             Print (found_line k)]
            (finish true (default_filename output_filename) (skipn k crx_data)))
  \/ (~ occurs PK34 crx_data /\ ~ occurs PK56 crx_data /\ ~ occurs PK78 crx_data
      /\ crx_to_zip_body self crx_data output_filename
         = ([Print ("CRX Version: " ++ Py.fmt 3);
             Print ("CRX3 - Header length: " ++ Py.fmt H);
             Print "Warning: Unusual header length, searching for ZIP signature..."],
            Raise (ValueError (wrap_prefix ++ "No ZIP signature found in CRX file")))).
Proof.
  intros Hc. rewrite (body_versioned _ _ _ Hmagic Hlen8 3 Hv) by now right.
  run_py. rewrite (parse_crx3_fallback _ H) by assumption.
  destruct (find_zip_offset_spec crx_data) as [(k & Hk & E) | (N1 & N2 & N3 & E)];
    rewrite E; run_py.
  - left. exists k. split; [exact Hk|].
    pose proof (scan_selects_le _ _ Hk) as Hle.
    replace (Py.len crx_data <=? Z.of_nat k) with false
      by (symmetry; apply Z.leb_gt; unfold Py.len; lia).
    rewrite slice_from_of_nat.
    rewrite (cond_nested_false (skipn k crx_data))
      by (apply zip_signature_not_magic, scan_selects_signature, Hk).
    exact (after_nested_try
             [Print ("CRX Version: " ++ Py.fmt 3);
              Print ("CRX3 - Header length: " ++ Py.fmt H);
              Print "Warning: Unusual header length, searching for ZIP signature...";
              Print (found_line k)]
             (finish true _ _)).
  - right. now repeat split.
Qed.

End Version3.

Section Version2.

Hypothesis Hv : Py.index crx_data 4 = Return 2.

Lemma body_crx2_small :
  Py.len crx_data < 16 ->
  crx_to_zip_body self crx_data output_filename
  = ([Print ("CRX Version: " ++ Py.fmt 2)],
     Raise (ValueError (wrap_prefix ++ "CRX2 file too small"))).
Proof.
  intros Hs. rewrite (body_versioned _ _ _ Hmagic Hlen8 2 Hv) by now left.
  run_py. rewrite parse_crx2_small by exact Hs. reflexivity.
Qed.

Variables K S : Z.
Hypothesis Hlen16 : 16 <= Py.len crx_data.
Hypothesis HuK : Py.unpack_le_u32 (Py.slice crx_data 8 12) = Return K.
Hypothesis HuS : Py.unpack_le_u32 (Py.slice crx_data 12 16) = Return S.

Lemma body_crx2_corrupted :
  K <= 10000 -> S <= 10000 -> Py.len crx_data <= 16 + K + S ->
  crx_to_zip_body self crx_data output_filename
  = ([Print ("CRX Version: " ++ Py.fmt 2);
      Print ("CRX2 - Public key length: " ++ Py.fmt K);
      Print ("CRX2 - Signature length: " ++ Py.fmt S)],
     Raise (ValueError (wrap_prefix ++ "CRX file appears to be corrupted"))).
Proof.
  intros HcK HcS Ho. rewrite (body_versioned _ _ _ Hmagic Hlen8 2 Hv) by now left.
  run_py. rewrite (parse_crx2_trusted _ K S) by assumption. run_py.
  replace (Py.len crx_data <=? 16 + K + S) with true by leb_true.
  reflexivity.
Qed.

Lemma body_crx2_payload :
  K <= 10000 -> S <= 10000 -> 16 + K + S < Py.len crx_data ->
  crx_to_zip_body self crx_data output_filename
  = after_nested
      [Print ("CRX Version: " ++ Py.fmt 2);
       Print ("CRX2 - Public key length: " ++ Py.fmt K);
       Print ("CRX2 - Signature length: " ++ Py.fmt S)]
      (finish true (default_filename output_filename)
         (Py.slice_from crx_data (16 + K + S))).
Proof.
  intros HcK HcS Ho. rewrite (body_versioned _ _ _ Hmagic Hlen8 2 Hv) by now left.
  run_py. rewrite (parse_crx2_trusted _ K S) by assumption. run_py.
  replace (Py.len crx_data <=? 16 + K + S) with false by leb_false.
  exact (after_nested_try
           [Print ("CRX Version: " ++ Py.fmt 2);
            Print ("CRX2 - Public key length: " ++ Py.fmt K);
            Print ("CRX2 - Signature length: " ++ Py.fmt S)]
           (finish true _ _)).
Qed.

Lemma body_crx2_fallback :
  10000 < K \/ 10000 < S ->
  (exists k, scan_selects crx_data k
     /\ crx_to_zip_body self crx_data output_filename
        = after_nested
            [Print ("CRX Version: " ++ Py.fmt 2);
             Print ("CRX2 - Public key length: " ++ Py.fmt K);
             Print ("CRX2 - Signature length: " ++ Py.fmt S);
             Print "Warning: Unusual key/signature lengths, searching for ZIP signature...";
             Print (found_line k)]
            (finish true (default_filename output_filename) (skipn k crx_data)))
  \/ (~ occurs PK34 crx_data /\ ~ occurs PK56 crx_data /\ ~ occurs PK78 crx_data
      /\ crx_to_zip_body self crx_data output_filename
         = ([Print ("CRX Version: " ++ Py.fmt 2);
             Print ("CRX2 - Public key length: " ++ Py.fmt K);
             Print ("CRX2 - Signature length: " ++ Py.fmt S);
             Print "Warning: Unusual key/signature lengths, searching for ZIP signature..."],
            Raise (ValueError (wrap_prefix ++ "No ZIP signature found in CRX file")))).
Proof.
  intros Hc. rewrite (body_versioned _ _ _ Hmagic Hlen8 2 Hv) by now left.
  run_py. rewrite (parse_crx2_fallback _ K S) by assumption.
  destruct (find_zip_offset_spec crx_data) as [(k & Hk & E) | (N1 & N2 & N3 & E)];
    rewrite E; run_py.
  - left. exists k. split; [exact Hk|].
    pose proof (scan_selects_le _ _ Hk) as Hle.
    replace (Py.len crx_data <=? Z.of_nat k) with false
      by (symmetry; apply Z.leb_gt; unfold Py.len; lia).
    rewrite slice_from_of_nat.
    exact (after_nested_try
             [Print ("CRX Version: " ++ Py.fmt 2);
              Print ("CRX2 - Public key length: " ++ Py.fmt K);
              Print ("CRX2 - Signature length: " ++ Py.fmt S);
              Print "Warning: Unusual key/signature lengths, searching for ZIP signature...";
              Print (found_line k)]
             (finish true _ _)).
  - right. now repeat split.
Qed.

End Version2.

End HeaderBranches.

(** *** One layer of [crx_to_zip], case by case *)

Lemma begins_with_dec (sig z : bytes) : {begins_with sig z} + {~ begins_with sig z}.
Proof.
  destruct (Py.startswith z sig) eqn:E.
  - left. now apply startswith_begins.
  - right. now apply startswith_not_begins.
Qed.

(** *** Effects of the last steps *)

Lemma writes_app (a b : list effect) : writes (a ++ b) = (writes a ++ writes b)%list.
Proof. apply filter_app. Qed.

Lemma nested_count_app (a b : list effect) :
  nested_count (a ++ b) = (nested_count a + nested_count b)%nat.
Proof. unfold nested_count. now rewrite filter_app, length_app. Qed.

Lemma file_content_app (name : string) (a b : list effect) :
  file_content name (a ++ b)
  = match file_content name b with
    | Some later => Some later
    | None => file_content name a
    end.
Proof.
  induction a as [|e a IH]; simpl.
  - now destruct (file_content name b).
  - destruct e as [line | n d | n]; try exact IH.
    rewrite IH. destruct (file_content name b); [reflexivity|].
    now destruct (file_content name a).
Qed.

Lemma file_content_no_writes (name : string) (out : list effect) :
  writes out = [] -> file_content name out = None.
Proof.
  induction out as [|e out IH]; [reflexivity|].
  destruct e as [line | n d | n]; simpl; try exact IH.
  unfold writes. simpl. discriminate.
Qed.

Lemma writes_prints (lines : list string) : writes (map Print lines) = [].
Proof. induction lines as [|l lines IH]; [reflexivity | exact IH]. Qed.

Lemma nested_count_prints (lines : list string) :
  Forall (fun l => String.eqb l nested_line = false) lines ->
  nested_count (map Print lines) = 0%nat.
Proof.
  induction 1 as [|l lines Hl _ IH]; [reflexivity|].
  unfold nested_count in *. simpl. now rewrite Hl.
Qed.

Lemma print_all_spec (lines : list string) :
  print_all lines = (map Print lines, Return tt).
Proof.
  induction lines as [|l lines IH]; [reflexivity|].
  simpl. now rewrite IH.
Qed.

Lemma zip_lines_not_nested (z : bytes) :
  Forall (fun l => String.eqb l nested_line = false) (zip_lines z).
Proof.
  unfold zip_lines. destruct (zipfile_namelist W z) as [file_list | | msg].
  - constructor; [reflexivity|]. constructor; [reflexivity|].
    apply Forall_app. split.
    + apply Forall_forall. intros l Hl. apply in_map_iff in Hl as (n & <- & _).
      reflexivity.
    + destruct (10 <? Z.of_nat (List.length file_list)); repeat constructor.
  - repeat constructor.
  - constructor.
Qed.

Lemma zip_report_passes (name : string) (z : bytes) :
  zip_check_passes z ->
  zip_report name z = (map Print (zip_lines z) ++ [SizeReport name], Return tt).
Proof.
  intros Hp. unfold zip_report, zip_lines.
  destruct (zipfile_namelist W z) as [file_list | | msg] eqn:Ez.
  - rewrite print_all_spec.
    destruct (10 <? Z.of_nat (List.length file_list));
      cbn [bind print ret fst snd app map]; rewrite map_app, <- ?app_assoc;
      cbn [map app]; rewrite ?app_nil_r; reflexivity.
  - reflexivity.
  - exfalso. exact (Hp msg Ez).
Qed.

Lemma zip_report_raises (name : string) (z : bytes) (msg : string) :
  zipfile_namelist W z = ZipRaises msg ->
  zip_report name z = ([], Raise (EnvError msg)).
Proof. intros Ez. unfold zip_report. now rewrite Ez. Qed.

Lemma report_quiet (checked : bool) (name : string) (z : bytes) :
  writes (report checked name z) = [] /\ nested_count (report checked name z) = 0%nat.
Proof.
  unfold report. destruct checked; [|now split]. split.
  - rewrite writes_app, writes_prints. reflexivity.
  - rewrite nested_count_app, nested_count_prints by apply zip_lines_not_nested.
    reflexivity.
Qed.

Lemma finish_unopened (checked : bool) (name : string) (z : bytes) (msg : string) :
  open_wb W name = Some msg ->
  finish checked name z = ([], Raise (EnvError msg)).
Proof. intros Ho. unfold finish, write_file. now rewrite Ho. Qed.

Lemma finish_zip_raises (name : string) (z : bytes) (msg : string) :
  open_wb W name = None -> zipfile_namelist W z = ZipRaises msg ->
  finish true name z = ([FileWrite name z], Raise (EnvError msg)).
Proof.
  intros Ho Ez. unfold finish, write_file. rewrite Ho.
  cbn [bind fst snd]. now rewrite (zip_report_raises name z msg Ez).
Qed.

Lemma finish_returns (checked : bool) (name : string) (z : bytes) :
  open_wb W name = None -> (checked = true -> zip_check_passes z) ->
  finish checked name z = (FileWrite name z :: report checked name z, Return name).
Proof.
  intros Ho Hp. unfold finish, write_file, report. rewrite Ho.
  destruct checked; [|reflexivity].
  cbn [bind fst snd]. rewrite (zip_report_passes name z (Hp eq_refl)).
  cbn [bind fst snd ret app]. now rewrite app_nil_r.
Qed.

(** The three ways the last steps can end. *)
Lemma finish_cases (checked : bool) (name : string) (z : bytes) :
  (exists msg, open_wb W name = Some msg
               /\ finish checked name z = ([], Raise (EnvError msg)))
  \/ (exists msg, open_wb W name = None /\ checked = true
                  /\ zipfile_namelist W z = ZipRaises msg
                  /\ finish checked name z = ([FileWrite name z], Raise (EnvError msg)))
  \/ (open_wb W name = None /\ (checked = true -> zip_check_passes z)
      /\ finish checked name z
         = (FileWrite name z :: report checked name z, Return name)).
Proof.
  destruct (open_wb W name) as [msg|] eqn:Ho.
  { left. exists msg. split; [reflexivity | now apply finish_unopened]. }
  right. destruct checked.
  - destruct (zipfile_namelist W z) as [file_list | | msg] eqn:Ez.
    + right. assert (Hp : zip_check_passes z) by (intros m C; congruence).
      split; [reflexivity|]. split; [intros _; exact Hp|]. now apply finish_returns.
    + right. assert (Hp : zip_check_passes z) by (intros m C; congruence).
      split; [reflexivity|]. split; [intros _; exact Hp|]. now apply finish_returns.
    + left. exists msg. split; [reflexivity|]. split; [reflexivity|].
      split; [reflexivity|]. now apply finish_zip_raises.
  - right. split; [reflexivity|]. split; [discriminate|]. now apply finish_returns.
Qed.

Lemma file_content_written (name : string) (z : bytes) (out : list effect) :
  writes out = [] -> file_content name (FileWrite name z :: out) = Some z.
Proof.
  intros Hw. simpl. rewrite (file_content_no_writes name out Hw).
  now rewrite String.eqb_refl.
Qed.

(** What the caller finds after the last steps. *)
Lemma decoded_finish (checked : bool) (name : string) (z : bytes) :
  decoded (finish checked name z) = Some z
  \/ decoded (finish checked name z) = None.
Proof.
  destruct (finish_cases checked name z)
    as [(msg & _ & E) | [(msg & _ & _ & _ & E) | (_ & _ & E)]]; rewrite E.
  - now right.
  - now right.
  - left. apply file_content_written. apply report_quiet.
Qed.

Lemma decoded_after (pre : list effect) (m : M string) :
  writes pre = [] -> decoded (after_nested pre m) = decoded m.
Proof.
  intros Hw. destruct m as [out [name | e |]]; try reflexivity.
  unfold after_nested, decoded. cbn [fst snd].
  rewrite file_content_app, (file_content_no_writes name pre Hw).
  now destruct (file_content name out).
Qed.

Lemma scan_cases (data : bytes) :
  (exists k, scan_selects data k)
  \/ (~ occurs PK34 data /\ ~ occurs PK56 data /\ ~ occurs PK78 data).
Proof.
  destruct (find_zip_in_data_spec data) as [(k & Hk & _) | (N1 & N2 & N3 & _)].
  - left. now exists k.
  - right. now repeat split.
Qed.

Section Scans.

Variable self : bytes -> option string -> M string.
Variable crx_data : bytes.
Variable output_filename : option string.

Lemma body_scan_found (k : nat) :
  ~ begins_with PK34 crx_data ->
  Py.len crx_data < 8 \/ ~ begins_with Cr24 crx_data ->
  scan_selects crx_data k ->
  crx_to_zip_body self crx_data output_filename
  = after_nested [Print (found_line k)]
      (finish false (default_filename output_filename) (skipn k crx_data)).
Proof.
  intros Hz Hm Hk.
  destruct (body_scan self crx_data output_filename Hz Hm)
    as [(k' & Hk' & E) | (N1 & N2 & N3 & _)].
  - now rewrite (scan_selects_unique _ _ _ Hk Hk').
  - exfalso. exact (scan_none_absurd _ _ Hk N1 N2 N3).
Qed.

Lemma body_scan_none :
  ~ begins_with PK34 crx_data ->
  Py.len crx_data < 8 \/ ~ begins_with Cr24 crx_data ->
  ~ occurs PK34 crx_data -> ~ occurs PK56 crx_data -> ~ occurs PK78 crx_data ->
  crx_to_zip_body self crx_data output_filename
  = ([], Raise (ValueError
                  (wrap_prefix ++ "Invalid CRX file: Does not start with Cr24"))).
Proof.
  intros Hz Hm N1 N2 N3.
  destruct (body_scan self crx_data output_filename Hz Hm)
    as [(k' & Hk' & _) | (_ & _ & _ & E)]; [|exact E].
  exfalso. exact (scan_none_absurd _ _ Hk' N1 N2 N3).
Qed.

Hypothesis Hmagic : begins_with Cr24 crx_data.
Hypothesis Hlen8 : 8 <= Py.len crx_data.

Lemma body_crx3_fallback_found (H : Z) (k : nat) :
  Py.index crx_data 4 = Return 3 -> 12 <= Py.len crx_data ->
  Py.unpack_le_u32 (Py.slice crx_data 8 12) = Return H -> 10000 < H ->
  scan_selects crx_data k ->
  crx_to_zip_body self crx_data output_filename
  = after_nested
      [Print ("CRX Version: " ++ Py.fmt 3);
       Print ("CRX3 - Header length: " ++ Py.fmt H);
       Print "Warning: Unusual header length, searching for ZIP signature...";
       Print (found_line k)]
      (finish true (default_filename output_filename) (skipn k crx_data)).
Proof.
  intros Hv Hl Hu Hc Hk.
  destruct (body_crx3_fallback self crx_data output_filename Hmagic Hlen8 Hv H Hl Hu Hc)
    as [(k' & Hk' & E) | (N1 & N2 & N3 & _)].
  - now rewrite (scan_selects_unique _ _ _ Hk Hk').
  - exfalso. exact (scan_none_absurd _ _ Hk N1 N2 N3).
Qed.

Lemma body_crx3_fallback_none (H : Z) :
  Py.index crx_data 4 = Return 3 -> 12 <= Py.len crx_data ->
  Py.unpack_le_u32 (Py.slice crx_data 8 12) = Return H -> 10000 < H ->
  ~ occurs PK34 crx_data -> ~ occurs PK56 crx_data -> ~ occurs PK78 crx_data ->
  crx_to_zip_body self crx_data output_filename
  = ([Print ("CRX Version: " ++ Py.fmt 3);
      Print ("CRX3 - Header length: " ++ Py.fmt H);
      Print "Warning: Unusual header length, searching for ZIP signature..."],
     Raise (ValueError (wrap_prefix ++ "No ZIP signature found in CRX file"))).
Proof.
  intros Hv Hl Hu Hc N1 N2 N3.
  destruct (body_crx3_fallback self crx_data output_filename Hmagic Hlen8 Hv H Hl Hu Hc)
    as [(k' & Hk' & _) | (_ & _ & _ & E)]; [|exact E].
  exfalso. exact (scan_none_absurd _ _ Hk' N1 N2 N3).
Qed.

Lemma body_crx2_fallback_found (K S : Z) (k : nat) :
  Py.index crx_data 4 = Return 2 -> 16 <= Py.len crx_data ->
  Py.unpack_le_u32 (Py.slice crx_data 8 12) = Return K ->
  Py.unpack_le_u32 (Py.slice crx_data 12 16) = Return S ->
  10000 < K \/ 10000 < S ->
  scan_selects crx_data k ->
  crx_to_zip_body self crx_data output_filename
  = after_nested
      [Print ("CRX Version: " ++ Py.fmt 2);
       Print ("CRX2 - Public key length: " ++ Py.fmt K);
       Print ("CRX2 - Signature length: " ++ Py.fmt S);
       Print "Warning: Unusual key/signature lengths, searching for ZIP signature...";
       Print (found_line k)]
      (finish true (default_filename output_filename) (skipn k crx_data)).
Proof.
  intros Hv Hl HuK HuS Hc Hk.
  destruct (body_crx2_fallback self crx_data output_filename Hmagic Hlen8 Hv K S
              Hl HuK HuS Hc) as [(k' & Hk' & E) | (N1 & N2 & N3 & _)].
  - now rewrite (scan_selects_unique _ _ _ Hk Hk').
  - exfalso. exact (scan_none_absurd _ _ Hk N1 N2 N3).
Qed.

Lemma body_crx2_fallback_none (K S : Z) :
  Py.index crx_data 4 = Return 2 -> 16 <= Py.len crx_data ->
  Py.unpack_le_u32 (Py.slice crx_data 8 12) = Return K ->
  Py.unpack_le_u32 (Py.slice crx_data 12 16) = Return S ->
  10000 < K \/ 10000 < S ->
  ~ occurs PK34 crx_data -> ~ occurs PK56 crx_data -> ~ occurs PK78 crx_data ->
  crx_to_zip_body self crx_data output_filename
  = ([Print ("CRX Version: " ++ Py.fmt 2);
      Print ("CRX2 - Public key length: " ++ Py.fmt K);
      Print ("CRX2 - Signature length: " ++ Py.fmt S);
      Print "Warning: Unusual key/signature lengths, searching for ZIP signature..."],
     Raise (ValueError (wrap_prefix ++ "No ZIP signature found in CRX file"))).
Proof.
  intros Hv Hl HuK HuS Hc N1 N2 N3.
  destruct (body_crx2_fallback self crx_data output_filename Hmagic Hlen8 Hv K S
              Hl HuK HuS Hc) as [(k' & Hk' & _) | (_ & _ & _ & E)]; [|exact E].
  exfalso. exact (scan_none_absurd _ _ Hk' N1 N2 N3).
Qed.

End Scans.
Ltac layer_writes_by magic tac :=
  intros output_filename; eexists; split;
  [ intros self; rewrite magic; tac | split; reflexivity ].

Ltac layer_raises_by tac :=
  intros output_filename; eexists; split;
  [ intros self; tac | split; reflexivity ].

Lemma body_cases (raw : bytes) :
  (exists z, terminal_payload raw z /\ layer_writes raw z)
  \/ (exists base, base_message base /\ layer_raises raw base)
  \/ (exists H,
         header_offset raw (12 + H) /\ 0 <= H /\ 12 + H < Py.len raw
         /\ Py.index raw 4 = Return 3
         /\ begins_with Cr24 (Py.slice_from raw (12 + H))
         /\ layer_recurses raw H).
Proof.
  destruct (begins_with_dec PK34 raw) as [Hz | Hz].
  { left. exists raw. split; [now left|].
    assert (Hf : has_magic raw = false).
    { apply has_magic_false. right. intros C. exact (magic_not_zip raw C Hz). }
    layer_writes_by Hf ltac:(now apply body_already_zip). }
  assert (Hm : (Py.len raw < 8 \/ ~ begins_with Cr24 raw)
               \/ (8 <= Py.len raw /\ begins_with Cr24 raw)).
  { destruct (begins_with_dec Cr24 raw); [|now left; right].
    destruct (Z_lt_le_dec (Py.len raw) 8); [left; now left | right; now split]. }
  destruct Hm as [Hm | [Hl8 Hm]].
  { destruct (scan_cases raw) as [(k & Hk) | (N1 & N2 & N3)].
    - left. exists (skipn k raw). split; [right; left; now exists k|].
      layer_writes_by (has_magic_false raw Hm)
        ltac:(now apply (body_scan_found self raw _ k)).
    - right. left. exists "Invalid CRX file: Does not start with Cr24"%string.
      split; [now left|].
      layer_raises_by ltac:(now apply body_scan_none). }
  pose proof (has_magic_true raw Hl8 Hm) as Ht.
  destruct (index_in_range raw 4) as (v & Hv & Hvr); [lia|].
  destruct (Z.eq_dec v 3) as [-> | Hn3].
  - (* version 3 *)
    destruct (Z_lt_le_dec (Py.len raw) 12) as [Hs | Hl12].
    { right. left. exists "CRX3 file too small"%string.
      split; [now (right; right; right; left)|].
      layer_raises_by ltac:(now apply (body_crx3_small self raw _ Hm Hl8 Hv)). }
    destruct (unpack_slice raw 8) as (H & Hu & HHr); [lia | lia |].
    change (8 + 4) with 12 in Hu.
    assert (Hhdr : H <= 10000 -> header_offset raw (12 + H)).
    { intros Hc. split; [exact Hm|split; [exact Hl8|right]].
      split; [exact Hv|split; [exact Hl12|]]. exists H. now repeat split. }
    destruct (Z_le_gt_dec H 10000) as [Hc | Hc].
    + destruct (Z_lt_le_dec (12 + H) (Py.len raw)) as [Ho | Ho].
      * destruct (begins_with_dec Cr24 (Py.slice_from raw (12 + H))) as [Hn | Hn].
        -- right. right. exists H.
           split; [now apply Hhdr|].
           split; [lia|split; [lia|split; [exact Hv|split; [exact Hn|]]]].
           intros self output_filename.
           now apply (body_crx3_nested self raw _ Hm Hl8 Hv H).
        -- left. exists (Py.slice_from raw (12 + H)). split.
           { right. right. exists (12 + H).
             split; [now apply Hhdr|split; [lia|reflexivity]]. }
           layer_writes_by Ht
             ltac:(now apply (body_crx3_payload self raw _ Hm Hl8 Hv H)).
      * right. left. exists "CRX file appears to be corrupted"%string.
        split; [now (right; right; right; right; left)|].
        layer_raises_by ltac:(now apply (body_crx3_corrupted self raw _ Hm Hl8 Hv H)).
    + assert (Hc' : 10000 < H) by lia.
      destruct (scan_cases raw) as [(k & Hk) | (N1 & N2 & N3)].
      * left. exists (skipn k raw). split; [right; left; now exists k|].
        layer_writes_by Ht
          ltac:(now apply (body_crx3_fallback_found self raw _ Hm Hl8 H k)).
      * right. left. exists "No ZIP signature found in CRX file"%string.
        split; [now (right; right; right; right; right)|].
        layer_raises_by
          ltac:(now apply (body_crx3_fallback_none self raw _ Hm Hl8 H)).
  - destruct (Z.eq_dec v 2) as [-> | Hn2].
    2:{ right. left. exists ("Unexpected CRX format version: " ++ Py.fmt v)%string.
        split; [right; left; now exists v|].
        layer_raises_by ltac:(now apply (body_bad_version self raw _ Hm Hl8 v)). }
    (* version 2 *)
    destruct (Z_lt_le_dec (Py.len raw) 16) as [Hs | Hl16].
    { right. left. exists "CRX2 file too small"%string.
      split; [now (right; right; left)|].
      layer_raises_by ltac:(now apply (body_crx2_small self raw _ Hm Hl8 Hv)). }
    destruct (unpack_slice raw 8) as (K & HuK & HKr); [lia | lia |].
    destruct (unpack_slice raw 12) as (S & HuS & HSr); [lia | lia |].
    change (8 + 4) with 12 in HuK. change (12 + 4) with 16 in HuS.
    assert (Hc : (K <= 10000 /\ S <= 10000) \/ (10000 < K \/ 10000 < S)) by lia.
    destruct Hc as [[HcK HcS] | Hc].
    + destruct (Z_lt_le_dec (16 + K + S) (Py.len raw)) as [Ho | Ho].
      * left. exists (Py.slice_from raw (16 + K + S)). split.
        { right. right. exists (16 + K + S).
          split; [|split; [lia|reflexivity]].
          split; [exact Hm|split; [exact Hl8|left]].
          split; [exact Hv|split; [exact Hl16|]]. exists K, S. now repeat split. }
        layer_writes_by Ht
          ltac:(now apply (body_crx2_payload self raw _ Hm Hl8 Hv K S)).
      * right. left. exists "CRX file appears to be corrupted"%string.
        split; [now (right; right; right; right; left)|].
        layer_raises_by
          ltac:(now apply (body_crx2_corrupted self raw _ Hm Hl8 Hv K S)).
    + destruct (scan_cases raw) as [(k & Hk) | (N1 & N2 & N3)].
      * left. exists (skipn k raw). split; [right; left; now exists k|].
        layer_writes_by Ht
          ltac:(now apply (body_crx2_fallback_found self raw _ Hm Hl8 K S k)).
      * right. left. exists "No ZIP signature found in CRX file"%string.
        split; [now (right; right; right; right; right)|].
        layer_raises_by
          ltac:(now apply (body_crx2_fallback_none self raw _ Hm Hl8 K S)).
Qed.

(** *** The recursion *)

Lemma bytes_length_ind (P : bytes -> Prop) :
  (forall raw, (forall p, (List.length p < List.length raw)%nat -> P p) -> P raw) ->
  forall raw, P raw.
Proof.
  intros step raw.
  assert (G : forall n p, (List.length p < n)%nat -> P p).
  { induction n as [|n IH]; intros p Hp; [lia|].
    apply step. intros q Hq. apply IH. lia. }
  apply (G (S (List.length raw))). lia.
Qed.

Lemma length_slice_from (raw : bytes) (off : Z) :
  0 <= off <= Py.len raw ->
  Z.of_nat (List.length (Py.slice_from raw off)) = Py.len raw - off.
Proof.
  intros H. rewrite slice_from_nonneg by lia. rewrite length_skipn.
  unfold Py.len in *. lia.
Qed.

Lemma slice_from_is_suffix (raw : bytes) (off : Z) :
  0 <= off -> is_suffix (Py.slice_from raw off) raw.
Proof. intros H. rewrite slice_from_nonneg by lia. apply skipn_is_suffix. Qed.

Lemma rec_fuel_irrelevant (fuel fuel' room : nat) (raw : bytes) (name : option string) :
  (List.length raw < fuel)%nat -> (List.length raw < fuel')%nat ->
  crx_to_zip_rec fuel room raw name = crx_to_zip_rec fuel' room raw name.
Proof.
  revert fuel' room raw name.
  induction fuel as [|fuel IH]; intros fuel' room raw name Hf Hf'; [lia|].
  destruct fuel' as [|fuel']; [lia|]. simpl.
  destruct (body_cases raw)
    as [(z & _ & L) | [(base & _ & L) | (H & _ & H0 & Ho & _ & _ & L)]].
  - destruct (L name) as (pre & E & _). now rewrite !E.
  - destruct (L name) as (out & E & _). now rewrite !E.
  - rewrite !L. f_equal. destruct room as [|room]; [reflexivity|].
    pose proof (length_slice_from raw (12 + H)) as Hlen. unfold Py.len in *.
    apply IH; lia.
Qed.

Lemma fuel_irrelevant (fuel fuel' : nat) (raw : bytes) (name : option string) :
  (List.length raw < fuel)%nat -> (List.length raw < fuel')%nat ->
  crx_to_zip_fuel fuel raw name = crx_to_zip_fuel fuel' raw name.
Proof. apply rec_fuel_irrelevant. Qed.

(** With room for [room] nested calls the method satisfies the recursive
    equation of the source. *)
Lemma crx_to_zip_at_unfold (room : nat) (raw : bytes) (name : option string) :
  crx_to_zip_at room raw name = crx_to_zip_body (nested_call room) raw name.
Proof.
  unfold crx_to_zip_at. simpl.
  destruct (body_cases raw)
    as [(z & _ & L) | [(base & _ & L) | (H & _ & H0 & Ho & _ & _ & L)]].
  - destruct (L name) as (pre & E & _). now rewrite !E.
  - destruct (L name) as (out & E & _). now rewrite !E.
  - rewrite !L. f_equal. destruct room as [|room]; [reflexivity|].
    unfold nested_call, crx_to_zip_at.
    pose proof (length_slice_from raw (12 + H)) as Hlen. unfold Py.len in *.
    apply rec_fuel_irrelevant; lia.
Qed.

Lemma crx_to_zip_unfold (raw : bytes) (name : option string) :
  crx_to_zip raw name = crx_to_zip_body (nested_call (stack_room W)) raw name.
Proof. exact (crx_to_zip_at_unfold (stack_room W) raw name). Qed.

(** The three kinds of layer, for the method itself. *)
Lemma crx_to_zip_at_cases (room : nat) (raw : bytes) :
  (exists z, terminal_payload raw z
             /\ forall name, exists pre,
                 crx_to_zip_at room raw name
                 = after_nested pre (finish (has_magic raw) (default_filename name) z)
                 /\ writes pre = [] /\ nested_count pre = 0%nat)
  \/ (exists base, base_message base
                   /\ forall name, exists out,
                       crx_to_zip_at room raw name
                       = (out, Raise (ValueError (wrap_prefix ++ base)))
                       /\ writes out = [] /\ nested_count out = 0%nat)
  \/ (exists H,
         header_offset raw (12 + H) /\ 0 <= H /\ 12 + H < Py.len raw
         /\ begins_with Cr24 (Py.slice_from raw (12 + H))
         /\ forall name,
             crx_to_zip_at room raw name
             = after_nested
                 [Print ("CRX Version: " ++ Py.fmt 3);
                  Print ("CRX3 - Header length: " ++ Py.fmt H);
                  Print nested_line]
                 (nested_call room (Py.slice_from raw (12 + H))
                    (Some (default_filename name)))).
Proof.
  destruct (body_cases raw)
    as [(z & T & L) | [(base & B & L) | (H & Hh & H0 & Ho & _ & Hn & L)]].
  - left. exists z. split; [exact T|]. intros name.
    destruct (L name) as (pre & E & F). exists pre.
    rewrite crx_to_zip_at_unfold, E. now split.
  - right. left. exists base. split; [exact B|]. intros name.
    destruct (L name) as (out & E & C). exists out.
    rewrite crx_to_zip_at_unfold, E. now split.
  - right. right. exists H.
    split; [exact Hh|split; [exact H0|split; [exact Ho|split; [exact Hn|]]]].
    intros name. rewrite crx_to_zip_at_unfold at 1. apply L.
Qed.

Lemma nested_payload_shorter (raw : bytes) (off : Z) :
  12 <= off < Py.len raw ->
  (List.length (Py.slice_from raw off) + 12 <= List.length raw)%nat.
Proof.
  intros H. pose proof (length_slice_from raw off) as L. unfold Py.len in *. lia.
Qed.

Lemma nested_prints_quiet (H : Z) :
  writes [Print ("CRX Version: " ++ Py.fmt 3);
          Print ("CRX3 - Header length: " ++ Py.fmt H);
          Print nested_line] = [].
Proof. reflexivity. Qed.

(** ** The decoder: header-driven extraction *)

Lemma decoded_finished (pre : list effect) (checked : bool) (name : string) (z : bytes) :
  writes pre = [] -> open_wb W name = None ->
  (checked = true -> zip_check_passes z) ->
  decoded (after_nested pre (finish checked name z)) = Some z.
Proof.
  intros Hw Ho Hp. rewrite (decoded_after pre _ Hw), (finish_returns _ _ _ Ho Hp).
  apply file_content_written. apply report_quiet.
Qed.

Lemma decoded_finish_inv (pre : list effect) (checked : bool) (name : string)
    (z z' : bytes) :
  writes pre = [] ->
  decoded (after_nested pre (finish checked name z)) = Some z' ->
  z' = z /\ open_wb W name = None /\ (checked = true -> zip_check_passes z).
Proof.
  intros Hw. rewrite (decoded_after pre _ Hw).
  destruct (finish_cases checked name z)
    as [(msg & _ & E) | [(msg & _ & _ & _ & E) | (Ho & Hp & E)]]; rewrite E;
    try discriminate.
  unfold decoded. rewrite file_content_written by apply report_quiet.
  intros C. injection C as <-. now split.
Qed.

Lemma raised_after_finish (pre out : list effect) (checked : bool) (name : string)
    (z : bytes) (e : exn) :
  after_nested pre (finish checked name z) = (out, Raise e) ->
  exists msg,
    e = ValueError (wrap_prefix ++ msg)
    /\ ((open_wb W name = Some msg /\ out = pre)
        \/ (checked = true /\ open_wb W name = None
            /\ zipfile_namelist W z = ZipRaises msg
            /\ out = (pre ++ [FileWrite name z])%list)).
Proof.
  destruct (finish_cases checked name z)
    as [(msg & Ho & E) | [(msg & Ho & Hc & Ez & E) | (_ & _ & E)]]; rewrite E;
    unfold after_nested; cbn [fst snd str_exn]; intros C.
  - injection C as <- <-. exists msg. split; [reflexivity|]. left.
    split; [exact Ho | now rewrite app_nil_r].
  - injection C as <- <-. exists msg. split; [reflexivity|]. right. now repeat split.
  - discriminate C.
Qed.

Lemma decode_already_zip (raw : bytes) : begins_with PK34 raw -> decode raw = Some raw.
Proof.
  intros Hz. unfold decode. rewrite crx_to_zip_unfold.
  rewrite (body_already_zip _ raw None Hz).
  apply decoded_finished; [reflexivity | apply open_default | discriminate].
Qed.



(** C3. An input whose first four bytes are [PK\x03\x04] is returned
    unchanged, whatever follows them; the call succeeds. *)
Theorem zip_input_returned_unchanged (raw : bytes) :
  Py.slice_to raw 4 = PK34 -> decode raw = Some raw.
Proof.
  intros Hz. apply (slice_to_4_begins PK34) in Hz; [|reflexivity].
  unfold decode. rewrite crx_to_zip_unfold.
  rewrite (body_already_zip _ raw None Hz).
  apply decoded_finished; [reflexivity | apply open_default | discriminate].
Qed.

(** ** The decoder: signature scan *)

Lemma first_occurrence_at_0 (sig data : bytes) :
  begins_with sig data -> first_occurrence sig data 0.
Proof. intros H. split; [exact H | intros q Hq; lia]. Qed.

(** When the scan runs and settles on position [k], the layer finishes
    with [raw[k:]]. *)
Lemma scan_fallback_layer (raw : bytes) (k : nat) :
  scan_fallback_runs raw -> scan_selects raw k ->
  forall self name, exists pre,
    crx_to_zip_body self raw name
    = after_nested pre (finish (has_magic raw) (default_filename name) (skipn k raw))
    /\ writes pre = [] /\ nested_count pre = 0%nat.
Proof.
  intros Hrun Hk self name.
  destruct Hrun as [(Hz & Hm) | [(Hm & Hl8 & Hv & Hl & K & S & HuK & HuS & Hc)
                                | (Hm & Hl8 & Hv & Hl & H & Hu & Hc)]].
  - rewrite (has_magic_false raw Hm).
    rewrite (body_scan_found self raw name k Hz Hm Hk).
    eexists. split; [reflexivity | split; reflexivity].
  - rewrite (has_magic_true raw Hl8 Hm).
    rewrite (body_crx2_fallback_found self raw name Hm Hl8 K S k Hv Hl HuK HuS Hc Hk).
    eexists. split; [reflexivity | split; reflexivity].
  - rewrite (has_magic_true raw Hl8 Hm).
    rewrite (body_crx3_fallback_found self raw name Hm Hl8 H k Hv Hl Hu Hc Hk).
    eexists. split; [reflexivity | split; reflexivity].
Qed.

Lemma has_magic_spec (raw : bytes) :
  has_magic raw = true -> 8 <= Py.len raw /\ begins_with Cr24 raw.
Proof.
  unfold has_magic. intros H. apply andb_true_iff in H as [Hl Hm].
  apply Z.leb_le in Hl. apply bytes_eqb_eq in Hm.
  split; [exact Hl|]. now apply (slice_to_4_begins Cr24).
Qed.

Lemma decode_scan_fallback (raw : bytes) (k : nat) :
  scan_fallback_runs raw -> scan_selects raw k ->
  Py.len raw < 8 \/ ~ begins_with Cr24 raw \/ zip_check_passes (skipn k raw) ->
  decode raw = Some (skipn k raw).
Proof.
  intros Hrun Hk Hp. unfold decode. rewrite crx_to_zip_unfold.
  destruct (scan_fallback_layer raw k Hrun Hk (nested_call (stack_room W)) None)
    as (pre & E & Hw & _).
  rewrite E. apply decoded_finished; [exact Hw | apply open_default |].
  intros Ht. apply has_magic_spec in Ht as [Hl Hm].
  destruct Hp as [Hp | [Hp | Hp]]; [lia | contradiction | exact Hp].
Qed.

Lemma decode_scan_fallback_inv (raw z : bytes) (k : nat) :
  scan_fallback_runs raw -> scan_selects raw k ->
  decode raw = Some z -> z = skipn k raw.
Proof.
  intros Hrun Hk. unfold decode. rewrite crx_to_zip_unfold.
  destruct (scan_fallback_layer raw k Hrun Hk (nested_call (stack_room W)) None)
    as (pre & E & Hw & _).
  rewrite E. intros Hd. now apply decoded_finish_inv in Hd.
Qed.

(** C4, as the code has it.  When the signature-scan fallback runs, the
    three signatures are tried in the order [PK\x03\x04], [PK\x05\x06],
    [PK\x07\x08], and the result starts at the first occurrence of the
    first signature that occurs at all: at the first [PK\x03\x04] if there
    is one, even when another signature occurs before it; otherwise at the
    first [PK\x05\x06]; otherwise at the first [PK\x07\x08].  When the
    scan was reached through an oversized header length, the file is
    checked with [zipfile] after the write, and the call succeeds provided
    that check raises nothing but [BadZipFile]. *)
Theorem scan_fallback_signature_priority (raw : bytes) (p : nat) :
  scan_fallback_runs raw ->
  Py.len raw < 8 \/ ~ begins_with Cr24 raw \/ zip_check_passes (skipn p raw) ->
  (first_occurrence PK34 raw p -> decode raw = Some (skipn p raw))
  /\ (~ occurs PK34 raw -> first_occurrence PK56 raw p ->
      decode raw = Some (skipn p raw))
  /\ (~ occurs PK34 raw -> ~ occurs PK56 raw -> first_occurrence PK78 raw p ->
      decode raw = Some (skipn p raw)).
Proof.
  intros Hrun Hp. repeat split; intros; apply decode_scan_fallback; try assumption.
  - now left.
  - right; left. split; assumption.
  - right; right. split; [assumption | split; assumption].
Qed.

Lemma eocd_then_local_runs_scan : scan_fallback_runs eocd_then_local.
Proof.
  left. split.
  - unfold begins_with. simpl. discriminate.
  - right. unfold begins_with. simpl. discriminate.
Qed.

Lemma eocd_then_local_first_local : first_occurrence PK34 eocd_then_local 4.
Proof.
  split; [reflexivity|].
  intros q Hq C. unfold occurs_at, begins_with in C.
  destruct q as [|[|[|[|q]]]]; [discriminate C .. | lia].
Qed.

Lemma decode_scan_fallback_none (raw : bytes) :
  scan_fallback_runs raw ->
  ~ occurs PK34 raw -> ~ occurs PK56 raw -> ~ occurs PK78 raw ->
  decode raw = None.
Proof.
  intros Hrun N1 N2 N3. unfold decode. rewrite crx_to_zip_unfold.
  destruct Hrun as [(Hz & Hm) | [(Hm & Hl8 & Hv & Hl & K & S & HuK & HuS & Hc)
                                | (Hm & Hl8 & Hv & Hl & H & Hu & Hc)]].
  - now rewrite (body_scan_none _ raw None Hz Hm N1 N2 N3).
  - now rewrite (body_crx2_fallback_none _ raw None Hm Hl8 K S
                   Hv Hl HuK HuS Hc N1 N2 N3).
  - now rewrite (body_crx3_fallback_none _ raw None Hm Hl8 H
                   Hv Hl Hu Hc N1 N2 N3).
Qed.

(** ** The decoder: what every successful result looks like *)

Lemma header_sliced_suffix (c raw z : bytes) :
  is_suffix c raw -> header_sliced c z -> header_sliced raw z.
Proof.
  intros Hs (c' & off & Hs' & Hh & Ho & E).
  exists c', off. split; [eapply is_suffix_trans; eassumption|].
  split; [exact Hh | split; [exact Ho | exact E]].
Qed.

Lemma decoded_exhausted (data : bytes) (name : option string) :
  decoded (stack_exhausted data name) = None.
Proof. reflexivity. Qed.

Lemma decoded_shape_at (raw : bytes) :
  forall room name z,
    decoded (crx_to_zip_at room raw name) = Some z ->
    is_suffix z raw /\ (begins_with_zip_signature z \/ header_sliced raw z).
Proof.
  induction raw as [raw IH] using bytes_length_ind. intros room name z Hd.
  destruct (crx_to_zip_at_cases room raw)
    as [(z' & T & L) | [(base & _ & L) | (H & _ & H0 & Ho & _ & L)]].
  - destruct (L name) as (pre & E & Hw & _).
    rewrite E in Hd. apply decoded_finish_inv in Hd as [-> _]; [|exact Hw].
    destruct T as [(Hz & ->) | [(k & Hk & ->) | (off & Hh & Hoff & ->)]].
    + split; [apply is_suffix_refl | left; now left].
    + split; [apply skipn_is_suffix | left; now apply scan_selects_signature].
    + split; [apply slice_from_is_suffix; lia|].
      right. exists raw, off. split; [apply is_suffix_refl|].
      split; [exact Hh | split; [exact Hoff | reflexivity]].
  - destruct (L name) as (out & E & _). rewrite E in Hd. discriminate Hd.
  - rewrite L, decoded_after in Hd by reflexivity.
    destruct room as [|room]; [discriminate Hd|].
    assert (Hs : is_suffix (Py.slice_from raw (12 + H)) raw)
      by (apply slice_from_is_suffix; lia).
    apply IH in Hd.
    + destruct Hd as [Hz Hc]. split; [eapply is_suffix_trans; eassumption|].
      destruct Hc as [Hc | Hc]; [now left | right].
      eapply header_sliced_suffix; eassumption.
    + pose proof (nested_payload_shorter raw (12 + H)). lia.
Qed.

Lemma decoded_shape (raw : bytes) :
  forall name z,
    decoded (crx_to_zip raw name) = Some z ->
    is_suffix z raw /\ (begins_with_zip_signature z \/ header_sliced raw z).
Proof. intros name z. apply (decoded_shape_at raw (stack_room W)). Qed.

(** C9. Whatever [decode] returns is a suffix of its input, reached through
    any number of nested containers, and so is no longer than the input. *)
Theorem decoded_is_suffix_of_input (raw z : bytes) :
  decode raw = Some z -> is_suffix z raw /\ Py.len z <= Py.len raw.
Proof.
  intros Hd. apply decoded_shape in Hd as [Hs _].
  split; [exact Hs|]. apply is_suffix_length in Hs. unfold Py.len. lia.
Qed.

(** C5, as the code has it.  A successful result begins with one of the
    three ZIP signatures, or else it is the payload that a trusted CRX2 or
    CRX3 header (of the input or of a container nested in it) places at its
    computed offset; that payload is written as it is, without a look at
    its first bytes.  The signature is certain when the input is already a
    ZIP and when the signature scan ran. *)
Theorem decoded_signature_or_header_payload (raw z : bytes) :
  decode raw = Some z ->
  (begins_with_zip_signature z \/ header_sliced raw z)
  /\ (begins_with PK34 raw \/ scan_fallback_runs raw -> begins_with_zip_signature z).
Proof.
  intros Hd. split; [apply decoded_shape in Hd; apply Hd|].
  intros [Hz | Hrun].
  - rewrite (decode_already_zip raw Hz) in Hd.
    injection Hd as <-. now left.
  - destruct (scan_cases raw) as [(k & Hk) | (N1 & N2 & N3)].
    + rewrite (decode_scan_fallback_inv raw z k Hrun Hk Hd).
      now apply scan_selects_signature.
    + rewrite (decode_scan_fallback_none raw Hrun N1 N2 N3) in Hd. discriminate Hd.
Qed.

(** C8, as the code has it.  Decoding a successful result again returns it
    unchanged when the result begins with the signature the scan would
    settle on: with [PK\x03\x04]; or with [PK\x05\x06] and no [PK\x03\x04]
    anywhere in it; or with [PK\x07\x08] and neither of the other two
    anywhere in it. *)
Theorem redecoding_is_identity (raw z : bytes) :
  decode raw = Some z ->
  begins_with PK34 z
  \/ (begins_with PK56 z /\ ~ occurs PK34 z)
  \/ (begins_with PK78 z /\ ~ occurs PK34 z /\ ~ occurs PK56 z) ->
  decode z = Some z.
Proof.
  intros _ [Hz | Hc].
  { now apply decode_already_zip. }
  assert (Hsig : begins_with_zip_signature z)
    by (destruct Hc as [[H _] | [H _]]; [right; now left | right; now right]).
  assert (Hno : ~ occurs PK34 z) by (destruct Hc as [[_ H] | (_ & H & _)]; exact H).
  assert (Hnm : ~ begins_with Cr24 z) by now apply zip_signature_not_magic.
  assert (Hrun : scan_fallback_runs z).
  { left. split.
    - intros C. apply Hno. now exists 0%nat.
    - now right. }
  change (Some z) with (Some (skipn 0 z)).
  apply decode_scan_fallback; [exact Hrun| |right; now left].
  destruct Hc as [[H N] | (H & N & N')].
  - right; left. split; [exact N | now apply first_occurrence_at_0].
  - right; right. split; [exact N | split; [exact N' | now apply first_occurrence_at_0]].
Qed.

(** ** Termination *)

Lemma crx_to_zip_at_never_out_of_fuel (raw : bytes) :
  forall room name, snd (crx_to_zip_at room raw name) <> OutOfFuel.
Proof.
  induction raw as [raw IH] using bytes_length_ind. intros room name.
  destruct (crx_to_zip_at_cases room raw)
    as [(z' & _ & L) | [(base & _ & L) | (H & _ & H0 & Ho & _ & L)]].
  - destruct (L name) as (pre & E & _). rewrite E. unfold after_nested. cbn [snd].
    destruct (finish_cases (has_magic raw) (default_filename name) z')
      as [(msg & _ & F) | [(msg & _ & _ & _ & F) | (_ & _ & F)]]; rewrite F;
      discriminate.
  - destruct (L name) as (out & E & _). rewrite E. discriminate.
  - rewrite L. unfold after_nested. cbn [snd].
    destruct room as [|room]; [discriminate|].
    pose proof (nested_payload_shorter raw (12 + H)) as Hlt.
    specialize (IH (Py.slice_from raw (12 + H)) ltac:(lia) room
                   (Some (default_filename name))).
    cbn [nested_call].
    destruct (snd (crx_to_zip_at room (Py.slice_from raw (12 + H))
                     (Some (default_filename name))));
      congruence.
Qed.

Lemma crx_to_zip_never_out_of_fuel (raw : bytes) :
  forall name, snd (crx_to_zip raw name) <> OutOfFuel.
Proof. intros name. apply (crx_to_zip_at_never_out_of_fuel raw (stack_room W)). Qed.

(** C7. [crx_to_zip] terminates on every buffer.  The body calls itself
    only on a payload [raw[off:]] that begins with [Cr24], at an offset
    with [12 <= off < len(raw)]; such a payload is strictly shorter than
    [raw]; hence any fuel above the length of the buffer yields the same
    run, and that run ends by returning or raising. *)
Theorem crx_to_zip_terminates (raw : bytes) (name : option string) :
  (forall self1 self2 : bytes -> option string -> M string,
      (forall off n, 12 <= off < Py.len raw ->
                     begins_with Cr24 (Py.slice_from raw off) ->
                     self1 (Py.slice_from raw off) n = self2 (Py.slice_from raw off) n) ->
      crx_to_zip_body self1 raw name = crx_to_zip_body self2 raw name)
  /\ (forall off, 12 <= off < Py.len raw ->
                  (List.length (Py.slice_from raw off) < List.length raw)%nat)
  /\ (forall fuel, (List.length raw < fuel)%nat ->
                   crx_to_zip_fuel fuel raw name = crx_to_zip raw name)
  /\ snd (crx_to_zip raw name) <> OutOfFuel.
Proof.
  split; [|split; [|split]].
  - intros self1 self2 Hagree.
    destruct (body_cases raw)
      as [(z & _ & L) | [(base & _ & L) | (H & _ & H0 & Ho & _ & Hn & L)]].
    + destruct (L name) as (pre & E & _). now rewrite !E.
    + destruct (L name) as (out & E & _). now rewrite !E.
    + rewrite !L. f_equal. apply Hagree; [lia | exact Hn].
  - intros off Hoff. pose proof (nested_payload_shorter raw off Hoff). lia.
  - intros fuel Hf. unfold crx_to_zip. apply fuel_irrelevant; lia.
  - apply crx_to_zip_never_out_of_fuel.
Qed.

(** ** Failures *)

Lemma nested_count_after_announcement (H : Z) (out : list effect) :
  nested_count ([Print ("CRX Version: " ++ Py.fmt 3);
                 Print ("CRX3 - Header length: " ++ Py.fmt H);
                 Print nested_line] ++ out)
  = S (nested_count out).
Proof. reflexivity. Qed.

Lemma crx_to_zip_at_raises (raw : bytes) :
  forall room name out e,
    crx_to_zip_at room raw name = (out, Raise e) -> raised_at room out e.
Proof.
  induction raw as [raw IH] using bytes_length_ind. intros room name out e Hr.
  destruct (crx_to_zip_at_cases room raw)
    as [(z' & _ & L) | [(base & B & L) | (H & _ & H0 & Ho & _ & L)]].
  - destruct (L name) as (pre & E & Hw & Hc). rewrite E in Hr.
    apply raised_after_finish in Hr as (msg & -> & Hout).
    exists msg. left.
    assert (Hn : nested_count out = 0%nat).
    { destruct Hout as [[_ ->] | (_ & _ & _ & ->)]; [exact Hc|].
      rewrite nested_count_app, Hc. reflexivity. }
    rewrite Hn. split; [|split; [reflexivity | lia]].
    right. destruct Hout as [[Ho _] | (_ & _ & Ez & _)].
    + left. now exists (default_filename name).
    + right. now exists z'.
  - destruct (L name) as (out' & E & _ & C). rewrite E in Hr.
    injection Hr as <- <-. exists base. left. rewrite C.
    split; [now left | split; [reflexivity | lia]].
  - rewrite L in Hr. unfold after_nested in Hr.
    destruct room as [|room].
    + cbn [nested_call stack_exhausted fst snd] in Hr.
      apply pair_equal_spec in Hr as [<- He]. injection He as <-.
      exists (str_exn (snd (stack_overflow W (Py.slice_from raw (12 + H))
                              (Some (default_filename name))))).
      right. split; [now eexists _, _|]. split; [reflexivity|].
      rewrite nested_count_after_announcement. lia.
    + cbn [nested_call] in Hr.
      pose proof (nested_payload_shorter raw (12 + H)) as Hlt.
      destruct (crx_to_zip_at room (Py.slice_from raw (12 + H))
                  (Some (default_filename name)))
        as [out' r'] eqn:Einner.
      cbn [fst snd] in Hr.
      destruct r' as [a | e' |]; try discriminate Hr.
      apply pair_equal_spec in Hr as [<- He]. injection He as <-.
      apply IH in Einner; [|lia]. unfold raised_at in *.
      rewrite nested_count_after_announcement.
      destruct Einner as (base & [(B & -> & Hle) | (B & -> & Hlt')]);
        exists base; [left | right].
      * split; [exact B|]. split; [|lia].
        cbn [str_exn]. rewrite !Nat.add_1_r. reflexivity.
      * split; [exact B|]. split; [|lia].
        cbn [str_exn]. rewrite !Nat.add_1_r. reflexivity.
Qed.

(** C10. Every failure of [crx_to_zip] reaches the caller as a
    [ValueError], whichever check failed and whoever raised first: the
    code itself, [open], [zipfile], or the interpreter out of stack.  Its
    message is the original message behind the prefix
    ['Error converting CRX to ZIP: '] repeated once per call on the stack:
    an error raised after [d] nested-container steps carries [d + 1]
    prefixes, and the error of a nested call that found no room on the
    stack carries one prefix for each call above it.  Only the message
    text tells the kinds apart. *)
Theorem failures_are_wrapped_value_errors
    (raw : bytes) (name : option string) (out : list effect) (e : exn) :
  crx_to_zip raw name = (out, Raise e) ->
  exists base,
    ((base_message base \/ library_message base)
     /\ e = ValueError (wrapped (nested_count out + 1) base)
     /\ (nested_count out <= stack_room W)%nat)
    \/ ((exists data name', base = str_exn (snd (stack_overflow W data name')))
        /\ e = ValueError (wrapped (stack_room W + 1) base)
        /\ (stack_room W < nested_count out)%nat).
Proof. intros Hr. exact (crx_to_zip_at_raises raw (stack_room W) name out e Hr). Qed.

(** ** Nested containers *)

Lemma to_N_byte_of_Z (z : Z) : Z.of_N (Byte.to_N (byte_of_Z z)) = z mod 256.
Proof.
  unfold byte_of_Z. pose proof (Z.mod_pos_bound z 256 ltac:(lia)) as Hb.
  destruct (Byte.of_N (Z.to_N (z mod 256))) as [b|] eqn:E.
  - apply Byte.to_of_N in E. rewrite E. lia.
  - apply Byte.of_N_None_iff in E. lia.
Qed.

Lemma unpack_le32 (n : Z) :
  0 <= n < 4294967296 -> Py.unpack_le_u32 (le32 n) = Return n.
Proof.
  intros Hn. unfold le32, Py.unpack_le_u32. rewrite !to_N_byte_of_Z. f_equal.
  Z.div_mod_to_equations. lia.
Qed.

Section Container.

Variables header payload : bytes.
Hypothesis Hceil : Py.len header <= 10000.
Hypothesis Hpayload : payload <> [].

Lemma container_magic : begins_with Cr24 (crx3_container header payload).
Proof. reflexivity. Qed.

Lemma container_len : Py.len (crx3_container header payload) = 12 + Py.len header + Py.len payload.
Proof.
  unfold crx3_container, Py.len. rewrite !length_app. simpl List.length. lia.
Qed.

Lemma container_version : Py.index (crx3_container header payload) 4 = Return 3.
Proof. reflexivity. Qed.

Lemma container_header_length :
  Py.unpack_le_u32 (Py.slice (crx3_container header payload) 8 12) = Return (Py.len header).
Proof.
  change (Py.slice (crx3_container header payload) 8 12) with (le32 (Py.len header)).
  apply unpack_le32. unfold Py.len in *. lia.
Qed.

Lemma container_payload : Py.slice_from (crx3_container header payload) (12 + Py.len header) = payload.
Proof.
  rewrite slice_from_nonneg by (unfold Py.len; lia).
  unfold crx3_container.
  change (Cr24 ++ [Byte.x03; Byte.x00; Byte.x00; Byte.x00] ++ le32 (Py.len header)
            ++ header ++ payload)
    with ((Cr24 ++ [Byte.x03; Byte.x00; Byte.x00; Byte.x00] ++ le32 (Py.len header))
            ++ header ++ payload)%list.
  rewrite app_assoc.
  replace (Z.to_nat (12 + Py.len header))
    with (List.length ((Cr24 ++ [Byte.x03; Byte.x00; Byte.x00; Byte.x00]
                             ++ le32 (Py.len header)) ++ header)%list).
  - rewrite skipn_app, skipn_all, Nat.sub_diag. reflexivity.
  - rewrite length_app. simpl List.length. unfold Py.len. lia.
Qed.

Lemma container_payload_inside : 12 + Py.len header < Py.len (crx3_container header payload).
Proof.
  rewrite container_len. destruct payload; [contradiction|].
  unfold Py.len. simpl List.length. lia.
Qed.

End Container.

Lemma nested_crx3_head (headers : list bytes) (inner : bytes) :
  begins_with PK34 inner ->
  nested_crx3 headers inner <> []
  /\ (headers = [] -> ~ begins_with Cr24 (nested_crx3 headers inner))
  /\ (headers <> [] -> begins_with Cr24 (nested_crx3 headers inner)).
Proof.
  intros Hz. destruct headers as [|h hs]; simpl.
  - split; [|split].
    + intros ->. discriminate Hz.
    + intros _. apply zip_signature_not_magic. now left.
    + intros C. now contradiction C.
  - split; [discriminate|split; [discriminate|]]. intros _. reflexivity.
Qed.

Lemma nested_crx3_decoded_at (headers : list bytes) (inner : bytes) :
  Forall (fun h => Py.len h <= 10000) headers ->
  begins_with PK34 inner ->
  forall room name,
    (List.length headers <= S room)%nat ->
    (headers <> [] -> zip_check_passes inner) ->
    open_wb W (default_filename name) = None ->
    decoded (crx_to_zip_at room (nested_crx3 headers inner) name) = Some inner.
Proof.
  intros Hall Hz. induction Hall as [|h hs Hh Hall IH]; intros room name Hd Hp Hopen.
  - simpl. rewrite crx_to_zip_at_unfold, (body_already_zip _ _ _ Hz).
    apply decoded_finished; [reflexivity | exact Hopen | discriminate].
  - simpl nested_crx3.
    destruct (nested_crx3_head hs inner Hz) as (Hne & Hnil & Hcons).
    pose proof (container_len h (nested_crx3 hs inner)) as Hlen.
    pose proof (container_payload_inside h (nested_crx3 hs inner) Hne) as Hin.
    pose proof (container_payload h (nested_crx3 hs inner)) as Hpay.
    assert (Hl8 : 8 <= Py.len (crx3_container h (nested_crx3 hs inner)))
      by (unfold Py.len in *; lia).
    assert (Hl12 : 12 <= Py.len (crx3_container h (nested_crx3 hs inner)))
      by (unfold Py.len in *; lia).
    rewrite crx_to_zip_at_unfold.
    destruct hs as [|h' hs'].
    + rewrite (body_crx3_payload _ _ name
                 (container_magic h _) Hl8 (container_version h _) (Py.len h) Hl12
                 (container_header_length h _ Hh) Hh Hin)
        by (rewrite Hpay; now apply Hnil).
      rewrite Hpay.
      apply decoded_finished; [reflexivity | exact Hopen |].
      intros _. apply Hp. discriminate.
    + rewrite (body_crx3_nested _ _ name
                 (container_magic h _) Hl8 (container_version h _) (Py.len h) Hl12
                 (container_header_length h _ Hh) Hh Hin)
        by (rewrite Hpay; now apply Hcons).
      rewrite decoded_after by reflexivity. rewrite Hpay.
      destruct room as [|room]; [simpl in Hd; lia|].
      cbn [nested_call]. apply IH.
      * simpl in *. lia.
      * intros _. apply Hp. discriminate.
      * now rewrite default_filename_idem.
Qed.

Lemma nested_crx3_overflow_at (headers : list bytes) (inner : bytes) :
  Forall (fun h => Py.len h <= 10000) headers ->
  begins_with PK34 inner ->
  forall room name,
    (S room < List.length headers)%nat ->
    exists out,
      crx_to_zip_at room (nested_crx3 headers inner) name
      = (out,
         Raise (ValueError
                  (wrapped (S room)
                     (str_exn
                        (snd (stack_overflow W
                                (nested_crx3 (skipn (S room) headers) inner)
                                (Some (default_filename name)))))))).
Proof.
  intros Hall Hz. induction Hall as [|h hs Hh Hall IH]; intros room name Hd.
  - simpl in Hd. lia.
  - destruct hs as [|h' hs']; [simpl in Hd; lia|].
    simpl nested_crx3.
    destruct (nested_crx3_head (h' :: hs') inner Hz) as (Hne & Hnil & Hcons).
    pose proof (container_len h (nested_crx3 (h' :: hs') inner)) as Hlen.
    pose proof (container_payload_inside h (nested_crx3 (h' :: hs') inner) Hne) as Hin.
    pose proof (container_payload h (nested_crx3 (h' :: hs') inner)) as Hpay.
    assert (Hl8 : 8 <= Py.len (crx3_container h (nested_crx3 (h' :: hs') inner)))
      by (unfold Py.len in *; lia).
    assert (Hl12 : 12 <= Py.len (crx3_container h (nested_crx3 (h' :: hs') inner)))
      by (unfold Py.len in *; lia).
    rewrite crx_to_zip_at_unfold.
    rewrite (body_crx3_nested _ _ name
               (container_magic h _) Hl8 (container_version h _) (Py.len h) Hl12
               (container_header_length h _ Hh) Hh Hin)
      by (rewrite Hpay; apply Hcons; discriminate).
    rewrite Hpay. unfold after_nested.
    destruct room as [|room].
    + eexists. reflexivity.
    + destruct (IH room (Some (default_filename name))) as (out & E);
        [simpl in *; lia|].
      rewrite default_filename_idem in E.
      cbn [nested_call]. rewrite E. eexists. reflexivity.
Qed.

(** C6, as the code has it.  A CRX3-in-CRX3 input of depth [d], each
    header within the 10000 byte ceiling, around a payload that begins with
    [PK\x03\x04], is unwrapped layer by layer down to that payload as long
    as the stack has room for the [d - 1] nested calls and the [zipfile]
    check of the payload (run when [d >= 1]) raises nothing but
    [BadZipFile].  The code counts no levels and has no error for nesting
    that is too deep: beyond the room on the stack the call fails with the
    interpreter's error, wrapped once per call. *)
Theorem nested_crx3_fully_unwrapped (headers : list bytes) (inner : bytes) :
  Forall (fun h => Py.len h <= 10000) headers ->
  begins_with PK34 inner ->
  ((List.length headers <= S (stack_room W))%nat ->
   (headers <> [] -> zip_check_passes inner) ->
   decode (nested_crx3 headers inner) = Some inner)
  /\ ((S (stack_room W) < List.length headers)%nat ->
      exists out,
        crx_to_zip (nested_crx3 headers inner) None
        = (out,
           Raise (ValueError
                    (wrapped (S (stack_room W))
                       (str_exn
                          (snd (stack_overflow W
                                  (nested_crx3 (skipn (S (stack_room W)) headers) inner)
                                  (Some "extension.zip"%string)))))))).
Proof.
  intros Hall Hz. split.
  - intros Hd Hp.
    apply (nested_crx3_decoded_at headers inner Hall Hz (stack_room W) None Hd Hp).
    apply open_default.
  - intros Hd.
    exact (nested_crx3_overflow_at headers inner Hall Hz (stack_room W) None Hd).
Qed.

(** ** Further properties of [crx_to_zip] *)

(** *** The output file *)

Lemma writes_after (pre : list effect) (m : M string) :
  writes pre = [] -> writes (fst (after_nested pre m)) = writes (fst m).
Proof. intros Hw. unfold after_nested. cbn [fst]. now rewrite writes_app, Hw. Qed.

Lemma body_name (self : bytes -> option string -> M string) (raw : bytes)
    (name : option string) :
  crx_to_zip_body self raw name
  = crx_to_zip_body self raw (Some (default_filename name)).
Proof. unfold crx_to_zip_body. now rewrite default_filename_idem. Qed.

Lemma crx_to_zip_at_writes (raw : bytes) :
  forall room name out r,
    crx_to_zip_at room raw name = (out, r) ->
    match r with
    | Return path =>
        path = default_filename name /\ exists z, writes out = [FileWrite path z]
    | Raise e =>
        (nested_count out <= room)%nat ->
        writes out = []
        \/ exists z msg, writes out = [FileWrite (default_filename name) z]
                         /\ zipfile_namelist W z = ZipRaises msg
    | OutOfFuel => False
    end.
Proof.
  induction raw as [raw IH] using bytes_length_ind. intros room name out r Hr.
  destruct (crx_to_zip_at_cases room raw)
    as [(z' & _ & L) | [(base & _ & L) | (H & _ & H0 & Ho & _ & L)]].
  - destruct (L name) as (pre & E & Hw & _). rewrite E in Hr.
    unfold after_nested in Hr. apply pair_equal_spec in Hr as [<- <-].
    rewrite writes_app, Hw.
    destruct (finish_cases (has_magic raw) (default_filename name) z')
      as [(msg & _ & F) | [(msg & _ & _ & Ez & F) | (_ & _ & F)]];
      rewrite F; cbn [fst snd app].
    + intros _. now left.
    + intros _. right. now exists z', msg.
    + split; [reflexivity|]. exists z'.
      unfold writes. cbn [filter is_write]. f_equal. apply report_quiet.
  - destruct (L name) as (out' & E & Hw & _). rewrite E in Hr.
    apply pair_equal_spec in Hr as [<- <-]. intros _. now left.
  - rewrite L in Hr.
    unfold after_nested in Hr. apply pair_equal_spec in Hr as [<- <-].
    rewrite nested_count_after_announcement, writes_app, nested_prints_quiet.
    cbn [app].
    destruct room as [|room].
    + cbn [nested_call stack_exhausted snd]. intros C. lia.
    + cbn [nested_call].
      pose proof (nested_payload_shorter raw (12 + H)) as Hlt.
      destruct (crx_to_zip_at room (Py.slice_from raw (12 + H))
                  (Some (default_filename name)))
        as [out' r'] eqn:Einner.
      cbn [fst snd].
      apply IH in Einner; [|lia]. rewrite default_filename_idem in Einner.
      destruct r' as [path | e' |]; [exact Einner | | exact Einner].
      intros C. apply Einner. lia.
Qed.

(** X1. A call that returns has written exactly one file, the one whose
    name it returns, and that name is [output_filename], or
    ["extension.zip"] when none was given.  A call that raises, the stack
    not being exhausted, has written no file at all, unless it is the
    [zipfile] check that raised: then the output file is already written. *)
Theorem crx_to_zip_writes_once_or_never
    (raw : bytes) (name : option string) (out : list effect) (r : result string) :
  crx_to_zip raw name = (out, r) ->
  match r with
  | Return path =>
      path = default_filename name /\ exists z, writes out = [FileWrite path z]
  | Raise e =>
      (nested_count out <= stack_room W)%nat ->
      writes out = []
      \/ exists z msg, writes out = [FileWrite (default_filename name) z]
                       /\ zipfile_namelist W z = ZipRaises msg
  | OutOfFuel => False
  end.
Proof. exact (crx_to_zip_at_writes raw (stack_room W) name out r). Qed.

Lemma decoded_finish_open (checked : bool) (name name' : string) (z : bytes) :
  open_wb W name = None -> open_wb W name' = None ->
  decoded (finish checked name z) = decoded (finish checked name' z).
Proof.
  intros Ho Ho'.
  destruct (finish_cases checked name z)
    as [(msg & C & _) | [(msg & _ & Hc & Ez & F) | (_ & Hp & F)]].
  - congruence.
  - subst checked. rewrite F, (finish_zip_raises name' z msg Ho' Ez). reflexivity.
  - rewrite F, (finish_returns checked name' z Ho' Hp).
    unfold decoded. now rewrite !file_content_written by apply report_quiet.
Qed.

Lemma decoded_name_irrelevant_at (raw : bytes) :
  forall room name name',
    open_wb W (default_filename name) = None ->
    open_wb W (default_filename name') = None ->
    decoded (crx_to_zip_at room raw name) = decoded (crx_to_zip_at room raw name').
Proof.
  induction raw as [raw IH] using bytes_length_ind. intros room name name' Ho Ho'.
  destruct (crx_to_zip_at_cases room raw)
    as [(z & _ & L) | [(base & _ & L) | (H & _ & H0 & Hoff & _ & L)]].
  - destruct (L name) as (pre & E & Hw & _). destruct (L name') as (pre' & E' & Hw' & _).
    rewrite E, E', !decoded_after by assumption.
    now apply decoded_finish_open.
  - destruct (L name) as (out & E & _). destruct (L name') as (out' & E' & _).
    now rewrite E, E'.
  - rewrite (L name), (L name'), !decoded_after by reflexivity.
    destruct room as [|room]; [reflexivity|]. cbn [nested_call].
    apply IH.
    + pose proof (nested_payload_shorter raw (12 + H)). lia.
    + now rewrite default_filename_idem.
    + now rewrite default_filename_idem.
Qed.


Lemma decoded_more_room (raw : bytes) :
  forall room name z,
    decoded (crx_to_zip_at room raw name) = Some z ->
    decoded (crx_to_zip_at (S room) raw name) = Some z.
Proof.
  induction raw as [raw IH] using bytes_length_ind. intros room name z.
  rewrite !crx_to_zip_at_unfold.
  destruct (body_cases raw)
    as [(z' & _ & L) | [(base & _ & L) | (H & _ & H0 & Ho & _ & _ & L)]].
  - destruct (L name) as (pre & E & _). now rewrite !E.
  - destruct (L name) as (out & E & _). now rewrite !E.
  - rewrite !L, !decoded_after by reflexivity.
    destruct room as [|room]; [discriminate|].
    cbn [nested_call]. apply IH.
    pose proof (nested_payload_shorter raw (12 + H)). lia.
Qed.

(** X3. Unwrapping composes: for a version 3 container with a trusted
    header of length [H] whose payload begins with [Cr24], whatever
    decoding the container returns is what decoding the payload
    [raw[12+H:]] on its own returns. *)
Theorem decode_nested_is_decode_of_payload (raw z : bytes) (H : Z) :
  begins_with Cr24 raw ->
  Py.index raw 4 = Return 3 ->
  12 <= Py.len raw ->
  Py.unpack_le_u32 (Py.slice raw 8 12) = Return H ->
  H <= 10000 ->
  12 + H < Py.len raw ->
  begins_with Cr24 (Py.slice_from raw (12 + H)) ->
  decode raw = Some z ->
  decode (Py.slice_from raw (12 + H)) = Some z.
Proof.
  intros Hm Hv Hl Hu Hc Ho Hn. unfold decode at 1. rewrite crx_to_zip_unfold.
  rewrite (body_crx3_nested _ raw None Hm ltac:(lia) Hv H Hl Hu Hc Ho Hn).
  rewrite decoded_after by reflexivity.
  destruct (stack_room W) as [|room] eqn:Er; [discriminate|].
  cbn [nested_call]. intros Hd. apply decoded_more_room in Hd.
  unfold decode. change (crx_to_zip (Py.slice_from raw (12 + H)) None)
    with (crx_to_zip_at (stack_room W) (Py.slice_from raw (12 + H)) None).
  rewrite Er, <- Hd.
  apply decoded_name_irrelevant_at; apply open_default.
Qed.

(** X4. A successful result is never empty, and no input of fewer than
    four bytes decodes. *)
Theorem decoded_is_not_empty (raw z : bytes) :
  decode raw = Some z -> z <> [] /\ 4 <= Py.len raw.
Proof.
  intros Hd. apply decoded_shape in Hd as [Hs Hc].
  assert (Hz : 1 <= Py.len z).
  { destruct Hc as [[Hc | [Hc | Hc]] | (c & off & _ & _ & Hoff & ->)].
    - apply begins_with_len in Hc. simpl in Hc. lia.
    - apply begins_with_len in Hc. simpl in Hc. lia.
    - apply begins_with_len in Hc. simpl in Hc. lia.
    - pose proof (length_slice_from c off ltac:(lia)) as L. unfold Py.len in *. lia. }
  split.
  - intros ->. unfold Py.len in Hz. simpl in Hz. lia.
  - destruct Hc as [Hc | (c & off & Hsc & Hh & Hoff & ->)].
    + assert (4 <= Py.len z)
        by (destruct Hc as [Hc | [Hc | Hc]]; apply begins_with_len in Hc; exact Hc).
      apply is_suffix_length in Hs. unfold Py.len in *. lia.
    + destruct Hh as (_ & Hl8 & _). apply is_suffix_length in Hsc.
      unfold Py.len in *. lia.
Qed.





(** *** Failures, one by one *)

Lemma occurs_needs_four (sig raw : bytes) :
  List.length sig = 4%nat -> occurs sig raw -> 4 <= Py.len raw.
Proof.
  intros Hs [p Hp]. unfold occurs_at in Hp. apply begins_with_len in Hp.
  rewrite Hs in Hp. unfold Py.len in *. rewrite length_skipn in Hp. lia.
Qed.

Lemma find_absent (sig data : bytes) : Py.find data sig = -1 -> ~ occurs sig data.
Proof.
  intros E. destruct (find_spec data sig) as [[_ N] | (k & _ & F & _)]; [exact N | lia].
Qed.

(** X6. A buffer that is shorter than 8 bytes or lacks the [Cr24] magic, and
    in which none of the three ZIP signatures occurs, is rejected at once:
    nothing is printed or written, and the error is the wrapped
    ['Invalid CRX file: Does not start with Cr24']; this is also the
    message for a buffer of 4 to 7 bytes that does begin with [Cr24]. *)
Theorem no_magic_no_signature_rejected (raw : bytes) (name : option string) :
  Py.len raw < 8 \/ ~ begins_with Cr24 raw ->
  ~ occurs PK34 raw -> ~ occurs PK56 raw -> ~ occurs PK78 raw ->
  crx_to_zip raw name
  = ([], Raise (ValueError
                  "Error converting CRX to ZIP: Invalid CRX file: Does not start with Cr24")).
Proof.
  intros Hm N1 N2 N3. rewrite crx_to_zip_unfold.
  apply body_scan_none; try assumption.
  intros C. apply N1. now exists 0%nat.
Qed.

(** X7. Every buffer of fewer than four bytes, the empty one included, is
    rejected with that same error and no effect. *)
Theorem shorter_than_a_signature_rejected (raw : bytes) (name : option string) :
  Py.len raw < 4 ->
  crx_to_zip raw name
  = ([], Raise (ValueError
                  "Error converting CRX to ZIP: Invalid CRX file: Does not start with Cr24")).
Proof.
  intros Hs. rewrite crx_to_zip_unfold. apply body_scan_none.
  - intros C. apply begins_with_len in C. simpl in C. lia.
  - left. lia.
  - intros C. apply (occurs_needs_four PK34 raw eq_refl) in C. lia.
  - intros C. apply (occurs_needs_four PK56 raw eq_refl) in C. lia.
  - intros C. apply (occurs_needs_four PK78 raw eq_refl) in C. lia.
Qed.

(** X8. With the magic in place and at least 8 bytes, a version byte other
    than 2 and 3 is rejected before anything is printed or written; the
    message names the byte in decimal.  Bytes 5 to 7 play no part. *)
Theorem unsupported_version_rejected (raw : bytes) (name : option string) (v : Z) :
  begins_with Cr24 raw -> 8 <= Py.len raw ->
  Py.index raw 4 = Return v -> v <> 2 -> v <> 3 ->
  crx_to_zip raw name
  = ([], Raise (ValueError
                  ("Error converting CRX to ZIP: Unexpected CRX format version: "
                     ++ Py.fmt v))).
Proof.
  intros Hm Hl Hv H2 H3. rewrite crx_to_zip_unfold.
  now apply body_bad_version.
Qed.

(** X9. A container cut off inside its fixed header is rejected by the
    header parser: version 2 with fewer than 16 bytes, version 3 with fewer
    than 12.  Only the version line has been printed by then. *)
Theorem truncated_header_rejected (raw : bytes) (name : option string) :
  begins_with Cr24 raw -> 8 <= Py.len raw ->
  (Py.index raw 4 = Return 2 -> Py.len raw < 16 ->
   crx_to_zip raw name
   = ([Print "CRX Version: 2"],
      Raise (ValueError "Error converting CRX to ZIP: CRX2 file too small")))
  /\ (Py.index raw 4 = Return 3 -> Py.len raw < 12 ->
      crx_to_zip raw name
      = ([Print "CRX Version: 3"],
         Raise (ValueError "Error converting CRX to ZIP: CRX3 file too small"))).
Proof.
  intros Hm Hl. split; intros Hv Hs; rewrite crx_to_zip_unfold.
  - now apply body_crx2_small.
  - now apply body_crx3_small.
Qed.

(** X10. A trusted header whose computed offset reaches or passes the end
    of the buffer leaves no payload: the call raises the wrapped
    ['CRX file appears to be corrupted'].  A file that consists of its
    header only is the plainest case. *)
Theorem no_payload_rejected (raw : bytes) (name : option string) (off : Z) :
  header_offset raw off -> Py.len raw <= off ->
  snd (crx_to_zip raw name)
  = Raise (ValueError "Error converting CRX to ZIP: CRX file appears to be corrupted").
Proof.
  intros (Hm & Hl8 & Hh) Ho. rewrite crx_to_zip_unfold.
  destruct Hh as [(Hv & Hl & K & S & HuK & HuS & HcK & HcS & ->)
                 | (Hv & Hl & H & Hu & Hc & ->)].
  - now rewrite (body_crx2_corrupted _ raw name Hm Hl8 Hv K S Hl HuK HuS HcK HcS Ho).
  - now rewrite (body_crx3_corrupted _ raw name Hm Hl8 Hv H Hl Hu Hc Ho).
Qed.

Lemma header_only_crx3 : header_offset (crx3_container [Byte.x01; Byte.x02] []) (12 + 2).
Proof.
  split; [reflexivity|]. split; [vm_compute; congruence|]. right.
  split; [reflexivity|]. split; [vm_compute; congruence|].
  exists 2. split; [reflexivity|]. split; [lia | reflexivity].
Qed.

(** X11. When a version 2 or 3 header carries a length above the ceiling
    and no ZIP signature occurs in the buffer, the call raises the wrapped
    ['No ZIP signature found in CRX file']. *)
Theorem oversized_header_without_signature_rejected (raw : bytes) (name : option string) :
  begins_with Cr24 raw -> 8 <= Py.len raw ->
  scan_fallback_runs raw ->
  ~ occurs PK34 raw -> ~ occurs PK56 raw -> ~ occurs PK78 raw ->
  snd (crx_to_zip raw name)
  = Raise (ValueError "Error converting CRX to ZIP: No ZIP signature found in CRX file").
Proof.
  intros Hmagic Hlen Hrun N1 N2 N3. rewrite crx_to_zip_unfold.
  destruct Hrun as [(Hz & Hm) | [(Hm & Hl8 & Hv & Hl & K & S & HuK & HuS & Hc)
                                | (Hm & Hl8 & Hv & Hl & H & Hu & Hc)]].
  - exfalso. destruct Hm as [Hm | Hm]; [lia | contradiction].
  - now rewrite (body_crx2_fallback_none _ raw name Hm Hl8 K S
                   Hv Hl HuK HuS Hc N1 N2 N3).
  - now rewrite (body_crx3_fallback_none _ raw name Hm Hl8 H
                   Hv Hl Hu Hc N1 N2 N3).
Qed.

Lemma oversized_runs_scan :
  scan_fallback_runs
    (Cr24 ++ [Byte.x03; Byte.x00; Byte.x00; Byte.x00; Byte.xff; Byte.xff; Byte.x00; Byte.x00]
          ++ [Byte.x50; Byte.x4b; Byte.x00]).
Proof.
  right; right. split; [reflexivity|]. split; [vm_compute; congruence|].
  split; [reflexivity|]. split; [vm_compute; congruence|].
  exists 65535. split; [reflexivity | lia].
Qed.

(** *** The helpers on their own *)

(** X12. [_find_zip_in_data] returns [None] exactly when none of the three
    signatures occurs in the data; what it returns otherwise is a suffix of
    the data that begins with one of them.  It never raises. *)
Theorem find_zip_in_data_result (data : bytes) :
  (snd (_find_zip_in_data data) = Return None
   <-> ~ occurs PK34 data /\ ~ occurs PK56 data /\ ~ occurs PK78 data)
  /\ (forall z, snd (_find_zip_in_data data) = Return (Some z) ->
                begins_with_zip_signature z /\ is_suffix z data)
  /\ (forall e, snd (_find_zip_in_data data) <> Raise e).
Proof.
  destruct (find_zip_in_data_spec data) as [(k & Hk & E) | (N1 & N2 & N3 & E)];
    rewrite E; cbn [snd].
  - split; [split|split].
    + discriminate.
    + intros (N1 & N2 & N3). exfalso. exact (scan_none_absurd _ _ Hk N1 N2 N3).
    + intros z Hz. injection Hz as <-.
      split; [now apply scan_selects_signature | apply skipn_is_suffix].
    + discriminate.
  - split; [split|split].
    + intros _. now repeat split.
    + reflexivity.
    + discriminate.
    + discriminate.
Qed.

Lemma find_zip_offset_shape (data : bytes) :
  match snd (_find_zip_offset data) with
  | Return off =>
      0 <= off /\ off + 4 <= Py.len data
      /\ begins_with_zip_signature (Py.slice_from data off)
  | Raise e =>
      e = ValueError "No ZIP signature found in CRX file"
      /\ ~ occurs PK34 data /\ ~ occurs PK56 data /\ ~ occurs PK78 data
  | OutOfFuel => False
  end.
Proof.
  destruct (find_zip_offset_spec data) as [(k & Hk & E) | (N1 & N2 & N3 & E)];
    rewrite E; cbn [snd].
  - pose proof (scan_selects_le _ _ Hk). rewrite slice_from_of_nat.
    split; [lia|]. split; [unfold Py.len; lia|]. now apply scan_selects_signature.
  - now repeat split.
Qed.

(** X13. [_find_zip_offset] either returns an offset inside the buffer with
    a ZIP signature, hence at least four bytes, at that offset, or raises
    [ValueError('No ZIP signature found in CRX file')], and it raises only
    when no signature occurs. *)
Theorem find_zip_offset_result (data : bytes) :
  match snd (_find_zip_offset data) with
  | Return off =>
      0 <= off /\ off + 4 <= Py.len data
      /\ begins_with_zip_signature (Py.slice_from data off)
  | Raise e =>
      e = ValueError "No ZIP signature found in CRX file"
      /\ ~ occurs PK34 data /\ ~ occurs PK56 data /\ ~ occurs PK78 data
  | OutOfFuel => False
  end.
Proof. exact (find_zip_offset_shape data). Qed.

(** X14. The offset [_parse_crx3_header] returns is either [12 + H] for a
    header length [H] between 0 and 10000, or the position of a ZIP
    signature in the buffer; it is never negative.  The parser raises only
    [ValueError]: for fewer than 12 bytes, or when the scan finds nothing;
    the 4-byte slice it unpacks is always complete. *)
Theorem parse_crx3_header_result (data : bytes) :
  match snd (_parse_crx3_header data) with
  | Return off =>
      12 <= Py.len data
      /\ (12 <= off <= 10012
          \/ (0 <= off /\ off + 4 <= Py.len data
              /\ begins_with_zip_signature (Py.slice_from data off)))
  | Raise e =>
      (e = ValueError "CRX3 file too small" /\ Py.len data < 12)
      \/ e = ValueError "No ZIP signature found in CRX file"
  | OutOfFuel => False
  end.
Proof.
  destruct (Z_lt_le_dec (Py.len data) 12) as [Hs | Hl].
  { rewrite parse_crx3_small by exact Hs. left. now split. }
  destruct (unpack_slice data 8) as (H & Hu & HHr); [lia | lia |].
  change (8 + 4) with 12 in Hu.
  destruct (Z_le_gt_dec H 10000) as [Hc | Hc].
  - rewrite (parse_crx3_trusted data H) by assumption. cbn [snd].
    split; [exact Hl | left; lia].
  - rewrite (parse_crx3_fallback data H) by (assumption || lia). cbn [snd].
    pose proof (find_zip_offset_shape data) as R.
    destruct (snd (_find_zip_offset data)) as [off | e |].
    + split; [exact Hl | right; exact R].
    + right. apply R.
    + exact R.
Qed.

(** X15. The same for [_parse_crx2_header]: the offset is [16 + K + S] for
    two lengths between 0 and 10000, or the position of a ZIP signature;
    the parser raises only [ValueError], for fewer than 16 bytes or when
    the scan finds nothing. *)
Theorem parse_crx2_header_result (data : bytes) :
  match snd (_parse_crx2_header data) with
  | Return off =>
      16 <= Py.len data
      /\ (16 <= off <= 20016
          \/ (0 <= off /\ off + 4 <= Py.len data
              /\ begins_with_zip_signature (Py.slice_from data off)))
  | Raise e =>
      (e = ValueError "CRX2 file too small" /\ Py.len data < 16)
      \/ e = ValueError "No ZIP signature found in CRX file"
  | OutOfFuel => False
  end.
Proof.
  destruct (Z_lt_le_dec (Py.len data) 16) as [Hs | Hl].
  { rewrite parse_crx2_small by exact Hs. left. now split. }
  destruct (unpack_slice data 8) as (K & HuK & HKr); [lia | lia |].
  destruct (unpack_slice data 12) as (S & HuS & HSr); [lia | lia |].
  change (8 + 4) with 12 in HuK. change (12 + 4) with 16 in HuS.
  assert (Hc : (K <= 10000 /\ S <= 10000) \/ (10000 < K \/ 10000 < S)) by lia.
  destruct Hc as [[HcK HcS] | Hc].
  - rewrite (parse_crx2_trusted data K S) by assumption. cbn [snd].
    split; [exact Hl | left; lia].
  - rewrite (parse_crx2_fallback data K S) by assumption. cbn [snd].
    pose proof (find_zip_offset_shape data) as R.
    destruct (snd (_find_zip_offset data)) as [off | e |].
    + split; [exact Hl | right; exact R].
    + right. apply R.
    + exact R.
Qed.

(** *** Decoding again, and decoding what was packed *)

Lemma occurs_in_suffix (sig raw : bytes) (k : nat) :
  occurs sig (skipn k raw) -> occurs sig raw.
Proof.
  intros [p Hp]. exists (k + p)%nat. unfold occurs_at in *.
  now rewrite skipn_skipn, Nat.add_comm in Hp.
Qed.


Lemma decode_selected_at_0 (z : bytes) : scan_selects z 0 -> decode z = Some z.
Proof.
  intros Hk. destruct (begins_with_dec PK34 z) as [Hz | Hz].
  { now apply decode_already_zip. }
  assert (Hn : ~ begins_with Cr24 z)
    by (apply zip_signature_not_magic; exact (scan_selects_signature z 0 Hk)).
  change (Some z) with (Some (skipn 0 z)).
  apply decode_scan_fallback; [|exact Hk|right; now left].
  left. split; [exact Hz|]. now right.
Qed.

Lemma scan_selects_suffix (raw : bytes) (k : nat) :
  scan_selects raw k -> scan_selects (skipn k raw) 0.
Proof.
  intros [F | [(N & F) | (N & N' & F)]].
  - left. apply first_occurrence_at_0. apply F.
  - right; left. split.
    + intros C. apply N. eapply occurs_in_suffix, C.
    + apply first_occurrence_at_0. apply F.
  - right; right. split; [|split].
    + intros C. apply N. eapply occurs_in_suffix, C.
    + intros C. apply N'. eapply occurs_in_suffix, C.
    + apply first_occurrence_at_0. apply F.
Qed.

(** X16. What the signature scan produces is a fixed point: when the
    fallback ran and the call succeeded, decoding the result again returns
    it unchanged. *)
Theorem scan_result_decodes_to_itself (raw z : bytes) :
  scan_fallback_runs raw -> decode raw = Some z -> decode z = Some z.
Proof.
  intros Hrun Hd.
  destruct (scan_cases raw) as [(k & Hk) | (N1 & N2 & N3)].
  - rewrite (decode_scan_fallback_inv raw z k Hrun Hk Hd).
    apply decode_selected_at_0, scan_selects_suffix, Hk.
  - rewrite (decode_scan_fallback_none raw Hrun N1 N2 N3) in Hd. discriminate Hd.
Qed.

(** X17. Packing then decoding, version 3: a CRX3 file built from a header
    of at most 10000 bytes and a payload that is not empty and does not
    begin with [Cr24] decodes to that payload, whatever the header
    contains, provided the [zipfile] check of the payload raises nothing
    but [BadZipFile]. *)
Theorem crx3_container_roundtrip (header payload : bytes) :
  Py.len header <= 10000 -> payload <> [] -> ~ begins_with Cr24 payload ->
  zip_check_passes payload ->
  decode (crx3_container header payload) = Some payload.
Proof.
  intros Hh Hne Hn Hp.
  pose proof (container_len header payload) as Hlen.
  pose proof (container_payload_inside header payload Hne) as Hin.
  pose proof (container_payload header payload) as Hpay.
  unfold decode. rewrite crx_to_zip_unfold.
  rewrite (body_crx3_payload _ _ None
             (container_magic header payload) ltac:(unfold Py.len in *; lia)
             (container_version header payload) (Py.len header)
             ltac:(unfold Py.len in *; lia)
             (container_header_length header payload Hh) Hh Hin)
    by (now rewrite Hpay).
  rewrite Hpay.
  apply decoded_finished; [reflexivity | apply open_default | intros _; exact Hp].
Qed.

Lemma crx2_container_facts (key sig payload : bytes) :
  Py.len key <= 10000 -> Py.len sig <= 10000 ->
  begins_with Cr24 (crx2_container key sig payload)
  /\ Py.index (crx2_container key sig payload) 4 = Return 2
  /\ Py.len (crx2_container key sig payload)
     = 16 + Py.len key + Py.len sig + Py.len payload
  /\ Py.unpack_le_u32 (Py.slice (crx2_container key sig payload) 8 12)
     = Return (Py.len key)
  /\ Py.unpack_le_u32 (Py.slice (crx2_container key sig payload) 12 16)
     = Return (Py.len sig)
  /\ Py.slice_from (crx2_container key sig payload) (16 + Py.len key + Py.len sig)
     = payload.
Proof.
  intros Hk Hs.
  split; [reflexivity|]. split; [reflexivity|]. split; [|split; [|split]].
  - unfold crx2_container, Py.len. rewrite !length_app. simpl List.length. lia.
  - change (Py.slice (crx2_container key sig payload) 8 12) with (le32 (Py.len key)).
    apply unpack_le32. unfold Py.len in *. lia.
  - change (Py.slice (crx2_container key sig payload) 12 16) with (le32 (Py.len sig)).
    apply unpack_le32. unfold Py.len in *. lia.
  - rewrite slice_from_nonneg by (unfold Py.len; lia).
    unfold crx2_container.
    change (Cr24 ++ [Byte.x02; Byte.x00; Byte.x00; Byte.x00]
              ++ le32 (Py.len key) ++ le32 (Py.len sig) ++ key ++ sig ++ payload)
      with ((Cr24 ++ [Byte.x02; Byte.x00; Byte.x00; Byte.x00]
                  ++ le32 (Py.len key) ++ le32 (Py.len sig))
              ++ key ++ sig ++ payload)%list.
    rewrite !app_assoc.
    replace (Z.to_nat (16 + Py.len key + Py.len sig))
      with (List.length (((Cr24 ++ [Byte.x02; Byte.x00; Byte.x00; Byte.x00]
                                ++ le32 (Py.len key) ++ le32 (Py.len sig))
                            ++ key) ++ sig)%list).
    + rewrite skipn_app, skipn_all, Nat.sub_diag. reflexivity.
    + rewrite !length_app. simpl List.length. unfold Py.len. lia.
Qed.


(** X18. Packing then decoding, version 2: a CRX2 file built from a key and
    a signature of at most 10000 bytes each and a payload that is not empty
    decodes to that payload, also when the payload is itself a CRX file
    (version 2 containers are never unwrapped further), provided the
    [zipfile] check of the payload raises nothing but [BadZipFile]. *)
Theorem crx2_container_roundtrip (key sig payload : bytes) :
  Py.len key <= 10000 -> Py.len sig <= 10000 -> payload <> [] ->
  zip_check_passes payload ->
  decode (crx2_container key sig payload) = Some payload.
Proof.
  intros Hk Hs Hne Hpass.
  destruct (crx2_container_facts key sig payload Hk Hs)
    as (Hm & Hv & Hlen & HuK & HuS & Hpay).
  assert (Hp : 1 <= Py.len payload).
  { destruct payload; [contradiction|]. unfold Py.len. simpl List.length. lia. }
  unfold decode. rewrite crx_to_zip_unfold.
  rewrite (body_crx2_payload _ _ None Hm ltac:(unfold Py.len in *; lia) Hv
             (Py.len key) (Py.len sig) ltac:(unfold Py.len in *; lia) HuK HuS Hk Hs)
    by (unfold Py.len in *; lia).
  rewrite Hpay.
  apply decoded_finished; [reflexivity | apply open_default | intros _; exact Hpass].
Qed.

(** ** The URL builder *)

Lemma match_a_to_p_spec (n : nat) (s rest : string) :
  match_a_to_p n s = Some rest
  <-> exists core, String.length core = n
                   /\ (forall c, In c (list_ascii_of_string core) -> in_a_to_p c = true)
                   /\ s = (core ++ rest)%string.
Proof.
  revert s; induction n as [|n IH]; intros s; simpl.
  - split.
    + intros E. injection E as ->. exists EmptyString. now repeat split.
    + intros (core & L & _ & ->). destruct core; [reflexivity | discriminate L].
  - destruct s as [|c s].
    + split; [discriminate|]. intros (core & L & _ & E).
      destruct core; [discriminate L | discriminate E].
    + destruct (in_a_to_p c) eqn:Ec.
      * rewrite IH. split.
        -- intros (core & L & A & ->). exists (String c core).
           split; [simpl; now rewrite L|]. split; [|reflexivity].
           intros c' [<- | Hc]; [exact Ec | now apply A].
        -- intros (core & L & A & E). destruct core as [|c' core]; [discriminate L|].
           simpl in E. injection E as <- ->. exists core.
           split; [simpl in L; lia|]. split; [|reflexivity].
           intros c' Hc. apply A. now right.
      * split; [discriminate|]. intros (core & L & A & E).
        destruct core as [|c' core]; [discriminate L|].
        simpl in E. injection E as <- ->.
        rewrite A in Ec by now left. discriminate Ec.
Qed.

Lemma append_empty_r (s : string) : (s ++ "")%string = s.
Proof.
  induction s as [|c s IH]; [reflexivity|].
  change (String c (s ++ "") = String c s). now rewrite IH.
Qed.


Lemma re_match_extension_id_spec (s : string) :
  re_match_extension_id s = true <-> is_extension_id s.
Proof.
  unfold re_match_extension_id, is_extension_id. split.
  - destruct (match_a_to_p 32 s) as [rest|] eqn:E; [|discriminate].
    apply match_a_to_p_spec in E as (core & L & A & ->).
    intros H. apply orb_true_iff in H as [H | H]; apply String.eqb_eq in H; subst rest;
      exists core; split; try assumption; split; try assumption.
    + left. now rewrite append_empty_r.
    + now right.
  - intros (core & L & A & [-> | ->]).
    + assert (E : match_a_to_p 32 core = Some EmptyString).
      { apply match_a_to_p_spec. exists core. split; [exact L|]. split; [exact A|].
        now rewrite append_empty_r. }
      now rewrite E.
    + assert (E : match_a_to_p 32 (core ++ newline) = Some newline).
      { apply match_a_to_p_spec. exists core. now repeat split. }
      now rewrite E.
Qed.

Lemma dict_get_update (key : string) (kwargs : list (string * string)) :
  forall d, dict_get key (dict_update d kwargs)
            = match kwargs_get key kwargs with
              | Some v => Some (PyStr v)
              | None => dict_get key d
              end.
Proof.
  unfold dict_update. induction kwargs as [|[k v] rest IH]; intros d; simpl; [reflexivity|].
  rewrite IH. destruct (kwargs_get key rest); [reflexivity|].
  unfold dict_set. simpl. now destruct (String.eqb k key).
Qed.

Lemma kwargs_get_filter (key : string) (kwargs : list (string * string)) :
  is_url_option key = true ->
  kwargs_get key (filter (fun kv => is_url_option (fst kv)) kwargs) = kwargs_get key kwargs.
Proof.
  intros Hk. induction kwargs as [|[k v] rest IH]; simpl; [reflexivity|].
  destruct (is_url_option k) eqn:Ek; simpl; rewrite IH; [reflexivity|].
  destruct (kwargs_get key rest); [reflexivity|].
  destruct (String.eqb k key) eqn:E; [|reflexivity].
  apply String.eqb_eq in E. subst k. congruence.
Qed.

Lemma to_cws_url_reads (options : dict) (extension_id : string)
    (kw kw' : list (string * string)) :
  (forall key, is_url_option key = true -> kwargs_get key kw = kwargs_get key kw') ->
  to_cws_url options extension_id kw = to_cws_url options extension_id kw'.
Proof.
  intros Hsame. unfold to_cws_url.
  destruct (negb (re_match_extension_id extension_id)); [reflexivity|].
  unfold add_option, dict_set. cbn [dict_get String.eqb Ascii.eqb Bool.eqb].
  rewrite !dict_get_update.
  now rewrite (Hsame "os"%string eq_refl), (Hsame "arch"%string eq_refl),
    (Hsame "nacl_arch"%string eq_refl), (Hsame "prodversion"%string eq_refl).
Qed.

(** X19. Keyword arguments other than [os], [arch], [nacl_arch] and
    [prodversion] have no effect on [to_cws_url]; in particular a keyword
    [xid] cannot replace the extension ID given as first argument. *)
Theorem to_cws_url_ignores_other_kwargs
    (options : dict) (extension_id : string) (kwargs : list (string * string)) :
  to_cws_url options extension_id kwargs
  = to_cws_url options extension_id
      (filter (fun kv => is_url_option (fst kv)) kwargs).
Proof.
  apply to_cws_url_reads. intros key Hk. symmetry. now apply kwargs_get_filter.
Qed.

Lemma platform_info_shape (platform_system platform_machine : string) :
  exists os arch,
    _detect_platform_info platform_system platform_machine
    = [("os"%string, PyStr os); ("arch"%string, PyStr arch);
       ("nacl_arch"%string, PyStr arch)]
    /\ In os ["mac"; "win"; "linux"]%string
    /\ In arch ["arm"; "x86-64"; "x86-32"]%string
    /\ (lower platform_system <> "darwin"%string ->
        lower platform_system <> "windows"%string -> os = "linux"%string).
Proof.
  unfold _detect_platform_info.
  set (os := if String.eqb (lower platform_system) "darwin" then _ else _).
  set (arch := if contains "arm" (lower platform_machine) then _ else _).
  exists os, arch. split; [reflexivity|]. split; [|split].
  - subst os. destruct (String.eqb (lower platform_system) "darwin");
      [simpl; tauto|].
    destruct (String.eqb (lower platform_system) "windows"); [simpl; tauto|].
    destruct (String.eqb (lower platform_system) "linux"); simpl; tauto.
  - subst arch. destruct (contains "arm" (lower platform_machine)); [simpl; tauto|].
    destruct (contains "64" (lower platform_machine)
              || contains "amd64" (lower platform_machine)
              || contains "x86_64" (lower platform_machine)); simpl; tauto.
  - intros Hd Hw. subst os.
    apply String.eqb_neq in Hd, Hw. rewrite Hd, Hw.
    now destruct (String.eqb (lower platform_system) "linux").
Qed.

(** X20. Whatever [platform.system()] and [platform.machine()] report,
    [_detect_platform_info] answers with an [os] among [mac], [win],
    [linux], an [arch] among [arm], [x86-64], [x86-32], and a [nacl_arch]
    equal to [arch]; every system other than Darwin and Windows, in any
    letter case, counts as [linux]. *)
Theorem detect_platform_info_values (platform_system platform_machine : string) :
  exists os arch,
    _detect_platform_info platform_system platform_machine
    = [("os"%string, PyStr os); ("arch"%string, PyStr arch);
       ("nacl_arch"%string, PyStr arch)]
    /\ In os ["mac"; "win"; "linux"]%string
    /\ In arch ["arm"; "x86-64"; "x86-32"]%string
    /\ (lower platform_system <> "darwin"%string ->
        lower platform_system <> "windows"%string -> os = "linux"%string).
Proof. apply platform_info_shape. Qed.

Lemma default_options_shape (platform_system platform_machine : string) :
  exists os arch,
    In os ["mac"; "win"; "linux"]%string
    /\ In arch ["arm"; "x86-64"; "x86-32"]%string
    /\ default_options (_detect_platform_info platform_system platform_machine)
       = Ok [("os"%string, PyStr os); ("arch"%string, PyStr arch);
             ("nacl_arch"%string, PyStr arch);
             ("prodversion"%string, PyStr "9999.0.9999.0");
             ("xid"%string, PyNone)].
Proof.
  destruct (platform_info_shape platform_system platform_machine)
    as (os & arch & E & Hos & Harch & _).
  exists os, arch. split; [exact Hos|]. split; [exact Harch|]. now rewrite E.
Qed.

Lemma to_cws_url_invalid (options : dict) (extension_id : string)
    (kwargs : list (string * string)) :
  ~ is_extension_id extension_id ->
  to_cws_url options extension_id kwargs
  = Err (Builtin (ValueError ("Invalid extension ID format: " ++ extension_id))).
Proof.
  intros Hn. unfold to_cws_url.
  destruct (re_match_extension_id extension_id) eqn:E; [|reflexivity].
  apply re_match_extension_id_spec in E. contradiction.
Qed.

Lemma option_after_update (options : dict) (kwargs : list (string * string))
    (key v : string) :
  dict_get key options = Some (PyStr v) ->
  exists v', dict_get key (dict_update options kwargs) = Some (PyStr v').
Proof.
  intros H. rewrite dict_get_update. destruct (kwargs_get key kwargs) as [w|]; eauto.
Qed.

Lemma to_cws_url_valid (os arch nacl prodversion : string) (xid : pyval)
    (extension_id : string) (kwargs : list (string * string)) :
  is_extension_id extension_id ->
  exists url,
    to_cws_url [("os"%string, PyStr os); ("arch"%string, PyStr arch);
                ("nacl_arch"%string, PyStr nacl);
                ("prodversion"%string, PyStr prodversion); ("xid"%string, xid)]
      extension_id kwargs = Ok url.
Proof.
  intros Hid. apply re_match_extension_id_spec in Hid.
  unfold to_cws_url. rewrite Hid. cbn [negb].
  unfold add_option, dict_set. cbn [dict_get String.eqb Ascii.eqb Bool.eqb].
  set (d := [("os"%string, PyStr os); ("arch"%string, PyStr arch);
             ("nacl_arch"%string, PyStr nacl);
             ("prodversion"%string, PyStr prodversion); ("xid"%string, xid)]).
  destruct (option_after_update d kwargs "os" os eq_refl) as (v1 & ->).
  destruct (option_after_update d kwargs "arch" arch eq_refl) as (v2 & ->).
  destruct (option_after_update d kwargs "nacl_arch" nacl eq_refl) as (v3 & ->).
  destruct (option_after_update d kwargs "prodversion" prodversion eq_refl) as (v4 & ->).
  cbn [and_then]. eexists. reflexivity.
Qed.

(** X21. With the options [__init__] sets up, [to_cws_url] returns a URL
    exactly for an ID made of 32 letters from [a] to [p], with or without
    one newline after them (the pattern ends in [$]); for every other ID,
    whatever the keyword arguments, it raises
    [ValueError('Invalid extension ID format: ' + id)].  No [KeyError] or
    [TypeError] arises from its dictionary reads. *)
Theorem to_cws_url_accepts_exactly_ids (platform_system platform_machine : string) :
  exists options,
    default_options (_detect_platform_info platform_system platform_machine) = Ok options
    /\ forall extension_id kwargs,
        (is_extension_id extension_id ->
         exists url, to_cws_url options extension_id kwargs = Ok url)
        /\ (~ is_extension_id extension_id ->
            to_cws_url options extension_id kwargs
            = Err (Builtin (ValueError
                              ("Invalid extension ID format: " ++ extension_id)))).
Proof.
  destruct (default_options_shape platform_system platform_machine)
    as (os & arch & _ & _ & E).
  eexists. split; [exact E|]. intros extension_id kwargs. split.
  - now apply to_cws_url_valid.
  - now apply to_cws_url_invalid.
Qed.





(** ** The downloader *)

Lemma fs_after_app (a b : list action) :
  forall fs, fs_after (a ++ b) fs = fs_after b (fs_after a fs).
Proof.
  induction a as [|x a IH]; intros fs; [reflexivity|].
  destruct x as [[line | name data | name] | name]; simpl; apply IH.
Qed.

Lemma fs_after_prints (lines : list string) (fs : filesystem) :
  fs_after (map (fun line => Did (Print line)) lines) fs = fs.
Proof. induction lines as [|l lines IH]; [reflexivity | exact IH]. Qed.

Lemma fs_after_effects (out : list effect) :
  forall fs, fs_after (map Did out) fs = fs_after (map Did (writes out)) fs.
Proof.
  induction out as [|e out IH]; intros fs; [reflexivity|].
  destruct e as [line | name data | name]; simpl; apply IH.
Qed.

Lemma file_content_of_writes (name : string) (z : bytes) (out : list effect) :
  writes out = [FileWrite name z] -> file_content name out = Some z.
Proof.
  induction out as [|e out IH]; [discriminate|].
  destruct e as [line | n d | n]; simpl; try exact IH.
  unfold writes in *. simpl. intros E. injection E as -> -> E.
  now rewrite (file_content_no_writes name out E), String.eqb_refl.
Qed.

Lemma to_cws_url_ok_id (options : dict) (extension_id : string)
    (kwargs : list (string * string)) (url : string) :
  to_cws_url options extension_id kwargs = Ok url ->
  re_match_extension_id extension_id = true.
Proof.
  unfold to_cws_url. destruct (re_match_extension_id extension_id); [reflexivity|].
  discriminate.
Qed.

Lemma zip_name_is_not_crx_name (id : string) :
  (id ++ ".zip")%string <> (id ++ ".crx")%string.
Proof.
  induction id as [|c id IH]; [discriminate|].
  intros C. apply IH.
  change (String c (id ++ ".zip") = String c (id ++ ".crx")) in C.
  now injection C.
Qed.

(** A call under a name of the caller's that can be opened does what the
    call under the default name does. *)
Lemma crx_to_zip_named (raw z : bytes) (name : string) :
  name <> EmptyString -> open_wb W name = None ->
  decode raw = Some z ->
  snd (crx_to_zip raw (Some name)) = Return name
  /\ writes (fst (crx_to_zip raw (Some name))) = [FileWrite name z].
Proof.
  intros Hname Ho Hd.
  assert (Hdef : default_filename (Some name) = name)
    by (destruct name; [contradiction | reflexivity]).
  pose proof (decoded_name_irrelevant_at raw (stack_room W) (Some name) None) as Hi.
  rewrite Hdef in Hi. specialize (Hi Ho (open_default W)).
  change (decoded (crx_to_zip raw (Some name)) = decode raw) in Hi.
  rewrite Hd in Hi.
  destruct (crx_to_zip raw (Some name)) as [out r] eqn:E.
  pose proof (crx_to_zip_at_writes raw (stack_room W) (Some name) out r E) as Hw.
  rewrite Hdef in Hw. cbn [fst snd].
  destruct r as [path | e |]; [|discriminate Hi | contradiction].
  destruct Hw as [-> [z' Hz]].
  unfold decoded in Hi. rewrite (file_content_of_writes _ _ _ Hz) in Hi.
  injection Hi as ->. now split.
Qed.

Section Downloader.

Variable options : dict.
Variable _download_crx : string -> list string * option bytes.
Variable _format_size : Z -> string.
Variable extension_id : string.
Variable output_filename : option string.
Variable cleanup : bool.
Variable fs : filesystem.

(** X23. An ID that fails the pattern stops [download_and_convert] before
    any download or write: the [ValueError] of [to_cws_url] is raised, and
    the one thing done on the way out is to delete a file named
    [<id>.crx] if one was already there. *)
Theorem invalid_id_downloads_nothing :
  ~ is_extension_id extension_id ->
  download_and_convert options _download_crx _format_size
    extension_id output_filename cleanup fs
  = ((if fs_exists (extension_id ++ ".crx") fs then
        [Did (Print ("Cleaning up CRX file after error: " ++ extension_id ++ ".crx"));
         Removed (extension_id ++ ".crx")]
      else []),
     Err (Builtin (ValueError ("Invalid extension ID format: " ++ extension_id)))).
Proof.
  intros Hn. unfold download_and_convert.
  rewrite (to_cws_url_invalid options extension_id [] Hn). cbn [fst snd fs_after].
  now destruct (fs_exists (extension_id ++ ".crx") fs).
Qed.

Variable download_url : string.
Hypothesis Hurl : to_cws_url options extension_id [] = Ok download_url.

Lemma fs_after_started (lines : list string) (f : filesystem) :
  fs_after
    ([Did (Print ("Extension ID: " ++ extension_id));
      Did (Print ("Download URL: " ++ download_url));
      Did (Print ("Downloading CRX file: " ++ (extension_id ++ ".crx")))]
       ++ map (fun line => Did (Print line)) lines) f
  = f.
Proof. rewrite fs_after_app. cbn [fs_after]. apply fs_after_prints. Qed.

Lemma fs_remove_absent (name : string) (f : filesystem) (n : string) :
  fs_exists name f = false ->
  f n = if String.eqb n name then None else f n.
Proof.
  unfold fs_exists. intros H. destruct (String.eqb n name) eqn:E; [|reflexivity].
  apply String.eqb_eq in E. subst n. now destruct (f name).
Qed.

(** X24. When [_download_crx] comes back with [None] or with no bytes, the
    call raises [ValueError('Failed to download CRX file')]; afterwards no
    file [<id>.crx] exists and every other file is as it was. *)
Theorem failed_download_leaves_files :
  snd (_download_crx download_url) = None \/ snd (_download_crx download_url) = Some [] ->
  snd (download_and_convert options _download_crx _format_size
         extension_id output_filename cleanup fs)
  = Err (Builtin (ValueError "Failed to download CRX file"))
  /\ forall n,
      fs_after (fst (download_and_convert options _download_crx _format_size
                       extension_id output_filename cleanup fs)) fs n
      = if String.eqb n (extension_id ++ ".crx") then None else fs n.
Proof.
  intros Hdl. unfold download_and_convert. rewrite Hurl.
  assert (E : match snd (_download_crx download_url) with
              | Some (_ :: _) => False
              | _ => True
              end) by (destruct Hdl as [-> | ->]; exact I).
  destruct (snd (_download_crx download_url)) as [[|b data]|]; try contradiction;
    cbn [fst snd]; rewrite fs_after_started;
    destruct (fs_exists (extension_id ++ ".crx") fs) eqn:Ex; cbn [fst snd];
    (split; [reflexivity|]); intros n;
    try (rewrite fs_after_app, fs_after_started; cbn [fs_after]; reflexivity);
    try (rewrite fs_after_started; now apply fs_remove_absent).
Qed.

Variable crx_data : bytes.
Hypothesis Hdata : snd (_download_crx download_url) = Some crx_data.

Lemma output_name_not_empty : output_name extension_id output_filename <> EmptyString.
Proof.
  unfold output_name. destruct output_filename as [[|c name]|]; try discriminate;
    destruct extension_id; discriminate.
Qed.

Lemma decode_nil : decode [] = None.
Proof. reflexivity. Qed.

Lemma crx_name_opens : open_wb W (extension_id ++ ".crx") = None.
Proof. apply open_crx. exact (to_cws_url_ok_id _ _ _ _ Hurl). Qed.

Lemma zip_name_opens : open_wb W (extension_id ++ ".zip") = None.
Proof. apply open_zip. exact (to_cws_url_ok_id _ _ _ _ Hurl). Qed.

Lemma successful_run (z : bytes) :
  decode crx_data = Some z ->
  open_wb W (output_name extension_id output_filename) = None ->
  snd (download_and_convert options _download_crx _format_size
         extension_id output_filename cleanup fs)
  = Ok (output_name extension_id output_filename)
  /\ forall n,
      fs_after (fst (download_and_convert options _download_crx _format_size
                       extension_id output_filename cleanup fs)) fs n
      = if cleanup then
          fs_remove (extension_id ++ ".crx")
            (fs_write (output_name extension_id output_filename) z
               (fs_write (extension_id ++ ".crx") crx_data fs)) n
        else
          fs_write (output_name extension_id output_filename) z
            (fs_write (extension_id ++ ".crx") crx_data fs) n.
Proof.
  intros Hdec Hopen.
  destruct (crx_to_zip_named crx_data z _ output_name_not_empty Hopen Hdec) as [Hr Hw].
  unfold download_and_convert. rewrite Hurl, Hdata, crx_name_opens.
  fold (output_name extension_id output_filename).
  destruct crx_data as [|b data]; [rewrite decode_nil in Hdec; discriminate Hdec|].
  rewrite Hr. cbn [fst snd]. split; [reflexivity|]. intros n.
  rewrite !fs_after_app. cbn [fs_after].
  rewrite fs_after_prints, fs_after_effects, Hw. cbn [map fs_after].
  now destruct cleanup.
Qed.

(** X25. When the download delivers bytes that [crx_to_zip] decodes to
    [z] and the caller leaves the name of the ZIP to the program, the call
    returns [<id>.zip], that file holds [z], the file [<id>.crx] is gone if
    [cleanup] is set and holds the downloaded bytes otherwise, and no other
    file has changed. *)
Theorem successful_download_files (z : bytes) :
  decode crx_data = Some z ->
  output_filename = None ->
  let run := download_and_convert options _download_crx _format_size
               extension_id output_filename cleanup fs in
  snd run = Ok (extension_id ++ ".zip")%string
  /\ fs_after (fst run) fs (extension_id ++ ".zip")%string = Some z
  /\ fs_after (fst run) fs (extension_id ++ ".crx")%string
     = (if cleanup then None else Some crx_data)
  /\ forall n, n <> (extension_id ++ ".zip")%string ->
               n <> (extension_id ++ ".crx")%string ->
               fs_after (fst run) fs n = fs n.
Proof.
  intros Hdec Hout run.
  assert (Ho : output_name extension_id output_filename = (extension_id ++ ".zip")%string)
    by now rewrite Hout.
  destruct (successful_run z Hdec) as [Hr Hfs].
  { rewrite Ho. apply zip_name_opens. }
  rewrite Ho in Hr, Hfs.
  pose proof (zip_name_is_not_crx_name extension_id) as Hdiff.
  apply String.eqb_neq in Hdiff.
  split; [exact Hr|]. split; [|split].
  - subst run. rewrite Hfs. unfold fs_remove, fs_write.
    rewrite Hdiff, String.eqb_refl. now destruct cleanup.
  - subst run. rewrite Hfs. unfold fs_remove, fs_write.
    rewrite String.eqb_refl.
    destruct cleanup; [reflexivity|].
    rewrite String.eqb_sym in Hdiff. now rewrite Hdiff.
  - intros n Hn1 Hn2. subst run. rewrite Hfs. unfold fs_remove, fs_write.
    apply String.eqb_neq in Hn1, Hn2. rewrite Hn1, Hn2. now destruct cleanup.
Qed.

Lemma fs_exists_after (name : string) (out : list effect) :
  forall f, fs_exists name f = true ->
            fs_exists name (fs_after (map Did out) f) = true.
Proof.
  induction out as [|x out IH]; intros f Hf; [exact Hf|].
  destruct x as [line | n d | n]; simpl; try (apply IH; exact Hf).
  apply IH. unfold fs_exists, fs_write in *.
  destruct (String.eqb name n); [reflexivity | exact Hf].
Qed.

Lemma failed_conversion_run (e : exn) :
  output_filename = None ->
  crx_data <> [] ->
  snd (crx_to_zip crx_data (Some (extension_id ++ ".zip")%string)) = Raise e ->
  snd (download_and_convert options _download_crx _format_size
         extension_id output_filename cleanup fs)
  = Err (Builtin e)
  /\ forall n,
      fs_after (fst (download_and_convert options _download_crx _format_size
                       extension_id output_filename cleanup fs)) fs n
      = if String.eqb n (extension_id ++ ".crx") then None
        else fs_after
               (map Did (writes (fst (crx_to_zip crx_data
                                        (Some (extension_id ++ ".zip")%string)))))
               (fs_write (extension_id ++ ".crx") crx_data fs) n.
Proof.
  intros Hout Hne Hr.
  unfold download_and_convert. rewrite Hurl, Hdata, crx_name_opens, Hout.
  destruct crx_data as [|b data]; [contradiction|].
  rewrite Hr. cbn [fst snd].
  match goal with
  | |- context [fs_exists _ (fs_after ?t fs)] =>
      assert (Hfs : forall f,
                 fs_after t f
                 = fs_after
                     (map Did (writes (fst (crx_to_zip (b :: data)
                                              (Some (extension_id ++ ".zip")%string)))))
                     (fs_write (extension_id ++ ".crx") (b :: data) f))
  end.
  { intros f. rewrite !fs_after_app. cbn [fs_after].
    rewrite fs_after_prints, fs_after_effects. reflexivity. }
  rewrite Hfs.
  rewrite fs_exists_after
    by (unfold fs_exists, fs_write; now rewrite String.eqb_refl).
  cbn [fst snd]. split; [reflexivity|]. intros n.
  rewrite fs_after_app, Hfs. cbn [fs_after]. unfold fs_remove. reflexivity.
Qed.

(** X26. When the conversion of the downloaded bytes fails, the caller
    having left the name of the ZIP to the program, the error of
    [crx_to_zip] is raised as it is, and the temporary [<id>.crx] is
    deleted even when [cleanup] is off (the caller asked to keep it).
    Unless the stack was exhausted, no other file has changed, except that
    [<id>.zip] is already written when it is the [zipfile] check that
    raised. *)
Theorem failed_conversion_removes_crx (e : exn) :
  output_filename = None ->
  crx_data <> [] ->
  snd (crx_to_zip crx_data (Some (extension_id ++ ".zip")%string)) = Raise e ->
  let run := download_and_convert options _download_crx _format_size
               extension_id output_filename cleanup fs in
  snd run = Err (Builtin e)
  /\ fs_after (fst run) fs (extension_id ++ ".crx")%string = None
  /\ ((nested_count (fst (crx_to_zip crx_data (Some (extension_id ++ ".zip")%string)))
       <= stack_room W)%nat ->
      (forall n, n <> (extension_id ++ ".zip")%string ->
                 n <> (extension_id ++ ".crx")%string ->
                 fs_after (fst run) fs n = fs n)
      /\ (fs_after (fst run) fs (extension_id ++ ".zip")%string
          = fs (extension_id ++ ".zip")%string
          \/ exists z msg,
               fs_after (fst run) fs (extension_id ++ ".zip")%string = Some z
               /\ zipfile_namelist W z = ZipRaises msg)).
Proof.
  intros Hout Hne Hr run.
  destruct (failed_conversion_run e Hout Hne Hr) as [Hres Hfs].
  pose proof (zip_name_is_not_crx_name extension_id) as Hdiff.
  apply String.eqb_neq in Hdiff.
  split; [exact Hres|]. split.
  { subst run. rewrite Hfs. now rewrite String.eqb_refl. }
  intros Hroom.
  destruct (crx_to_zip crx_data (Some (extension_id ++ ".zip")%string))
    as [out r] eqn:E.
  cbn [fst snd] in *. subst r.
  pose proof (crx_to_zip_at_writes crx_data (stack_room W) _ out (Raise e) E Hroom)
    as Hw.
  assert (Hdef : default_filename (Some (extension_id ++ ".zip")%string)
                 = (extension_id ++ ".zip")%string)
    by (destruct extension_id; reflexivity).
  rewrite Hdef in Hw.
  destruct Hw as [Hw | (z & msg & Hw & Ez)]; rewrite Hw in Hfs; cbn [map fs_after] in Hfs.
  - split.
    + intros n Hn1 Hn2. subst run. rewrite Hfs. unfold fs_write.
      apply String.eqb_neq in Hn2. now rewrite Hn2.
    + left. subst run. rewrite Hfs. unfold fs_write. now rewrite Hdiff.
  - split.
    + intros n Hn1 Hn2. subst run. rewrite Hfs. unfold fs_write.
      apply String.eqb_neq in Hn1, Hn2. now rewrite Hn1, Hn2.
    + right. exists z, msg. split; [|exact Ez].
      subst run. rewrite Hfs. unfold fs_write. now rewrite Hdiff, String.eqb_refl.
Qed.

(** X27. If the caller names the ZIP [<id>.crx] and leaves [cleanup] on,
    a successful call returns that name although the file no longer
    exists: the converted file replaced the download and was then removed
    as the temporary file. *)
Theorem output_named_like_crx_is_deleted (z : bytes) :
  decode crx_data = Some z ->
  output_filename = Some (extension_id ++ ".crx")%string ->
  cleanup = true ->
  let run := download_and_convert options _download_crx _format_size
               extension_id output_filename cleanup fs in
  snd run = Ok (extension_id ++ ".crx")%string
  /\ fs_after (fst run) fs (extension_id ++ ".crx")%string = None.
Proof.
  intros Hdec Hout Hclean run.
  assert (Ho : output_name extension_id output_filename = (extension_id ++ ".crx")%string).
  { rewrite Hout. unfold output_name. destruct extension_id; reflexivity. }
  destruct (successful_run z Hdec) as [Hr Hfs].
  { rewrite Ho. apply crx_name_opens. }
  split.
  - subst run. now rewrite Hr, Ho.
  - subst run. rewrite Hfs, Hclean. unfold fs_remove. now rewrite String.eqb_refl.
Qed.

End Downloader.

End Environment.

(** ** The theorems at work

    Each theorem above that has a hypothesis is applied here to a sample
    input in the environment [sample_env]; the inputs on which a claim of
    the specification fails are evaluated in that environment too. *)





Lemma zip_input_returned_unchanged_witness :
  decode sample_env (PK34 ++ [Byte.xde; Byte.xad; Byte.xbe; Byte.xef])
  = Some (PK34 ++ [Byte.xde; Byte.xad; Byte.xbe; Byte.xef]).
Proof. apply zip_input_returned_unchanged. reflexivity. Defined.

Lemma scan_fallback_signature_priority_witness :
  decode sample_env eocd_then_local = Some (skipn 4 eocd_then_local).
Proof.
  refine (proj1 (scan_fallback_signature_priority sample_env eocd_then_local 4
                   eocd_then_local_runs_scan _) eocd_then_local_first_local).
  right; left. intros C. discriminate C.
Defined.

(** C4 as stated fails on [PK\x05\x06 PK\x03\x04]: the scan runs, the
    earliest signature in the buffer is [PK\x05\x06] at position 0, well
    before the first [PK\x03\x04] at position 4, and yet the result starts
    at position 4. *)
Lemma earliest_signature_does_not_win :
  scan_fallback_runs eocd_then_local
  /\ first_occurrence PK56 eocd_then_local 0
  /\ first_occurrence PK34 eocd_then_local 4
  /\ decode sample_env eocd_then_local = Some PK34
  /\ decode sample_env eocd_then_local <> Some (skipn 0 eocd_then_local).
Proof.
  split; [exact eocd_then_local_runs_scan|].
  split; [apply first_occurrence_at_0; reflexivity|].
  split; [exact eocd_then_local_first_local|].
  split; [reflexivity | discriminate].
Qed.

Lemma decoded_is_suffix_of_input_witness :
  is_suffix (Py.slice_from sample_crx3 17) sample_crx3
  /\ Py.len (Py.slice_from sample_crx3 17) <= Py.len sample_crx3.
Proof. apply (decoded_is_suffix_of_input sample_env). reflexivity. Defined.

Lemma decoded_signature_or_header_payload_witness :
  (begins_with_zip_signature PK34 \/ header_sliced eocd_then_local PK34)
  /\ (begins_with PK34 eocd_then_local \/ scan_fallback_runs eocd_then_local ->
      begins_with_zip_signature PK34).
Proof. apply (decoded_signature_or_header_payload sample_env). reflexivity. Defined.

(** C5 as stated fails on a version 2 container with empty key and
    signature whose payload is the byte [A]: the call succeeds and the
    result is that byte, which begins with no ZIP signature. *)
Lemma header_payload_is_not_checked :
  decode sample_env crx2_plain_payload = Some [Byte.x41]
  /\ ~ begins_with_zip_signature [Byte.x41].
Proof.
  split; [reflexivity|].
  intros [C | [C | C]]; discriminate C.
Qed.

Lemma redecoding_is_identity_witness :
  decode sample_env (Py.slice_from sample_crx3 17) = Some (Py.slice_from sample_crx3 17).
Proof.
  apply (redecoding_is_identity sample_env sample_crx3); [reflexivity|].
  left. reflexivity.
Defined.

(** C8 as stated fails on a version 2 container around
    [PK\x05\x06 PK\x03\x04]: the first decode returns these eight bytes,
    which begin with a ZIP signature, and decoding them again returns only
    the last four. *)
Lemma redecoding_changes_result :
  decode sample_env crx2_eocd_then_local = Some eocd_then_local
  /\ begins_with PK56 eocd_then_local
  /\ decode sample_env eocd_then_local = Some PK34
  /\ decode sample_env eocd_then_local <> Some eocd_then_local.
Proof.
  split; [reflexivity|]. split; [reflexivity|].
  split; [reflexivity | discriminate].
Qed.

Lemma failures_are_wrapped_value_errors_witness :
  exists base,
    ((base_message base \/ library_message sample_env base)
     /\ ValueError
          "Error converting CRX to ZIP: Error converting CRX to ZIP: CRX file appears to be corrupted"
        = ValueError
            (wrapped
               (nested_count
                  [Print "CRX Version: 3"; Print "CRX3 - Header length: 0";
                   Print nested_line;
                   Print "CRX Version: 3"; Print "CRX3 - Header length: 0"] + 1)
               base)
     /\ (nested_count
           [Print "CRX Version: 3"; Print "CRX3 - Header length: 0";
            Print nested_line;
            Print "CRX Version: 3"; Print "CRX3 - Header length: 0"]
         <= stack_room sample_env)%nat)
    \/ ((exists data name',
            base = str_exn (snd (stack_overflow sample_env data name')))
        /\ ValueError
             "Error converting CRX to ZIP: Error converting CRX to ZIP: CRX file appears to be corrupted"
           = ValueError (wrapped (stack_room sample_env + 1) base)
        /\ (stack_room sample_env
            < nested_count
                [Print "CRX Version: 3"; Print "CRX3 - Header length: 0";
                 Print nested_line;
                 Print "CRX Version: 3"; Print "CRX3 - Header length: 0"])%nat).
Proof.
  apply (failures_are_wrapped_value_errors sample_env crx3_in_crx3_empty None).
  reflexivity.
Defined.

Lemma nested_crx3_fully_unwrapped_witness :
  decode sample_env (nested_crx3 [[Byte.x01; Byte.x02]; []; [Byte.x03]] tiny_zip)
  = Some tiny_zip.
Proof.
  refine (proj1 (nested_crx3_fully_unwrapped sample_env
                   [[Byte.x01; Byte.x02]; []; [Byte.x03]] tiny_zip _ _) _ _).
  - repeat constructor; vm_compute; congruence.
  - reflexivity.
  - apply Nat.leb_le. reflexivity.
  - intros _ msg C. vm_compute in C. discriminate C.
Defined.

(** C6 as stated fails at depth 10: ten CRX3 layers around a ZIP decode to
    that ZIP, where the claim expects a failure. *)
Lemma ten_layers_still_unwrapped :
  List.length (repeat ([] : bytes) 10) = 10%nat
  /\ decode sample_env (nested_crx3 (repeat [] 10) tiny_zip) = Some tiny_zip
  /\ forall out e, crx_to_zip sample_env (nested_crx3 (repeat [] 10) tiny_zip) None
                   <> (out, Raise e).
Proof.
  split; [reflexivity|]. split; [vm_compute; reflexivity|].
  intros out e C.
  assert (D : decoded (crx_to_zip sample_env (nested_crx3 (repeat [] 10) tiny_zip) None)
              = None)
    by now rewrite C.
  vm_compute in D. discriminate D.
Qed.

Lemma crx_to_zip_writes_once_or_never_witness :
  "out.zip"%string = default_filename (Some "out.zip"%string)
  /\ exists z,
       writes [Print "CRX Version: 3"; Print "CRX3 - Header length: 5";
               FileWrite "out.zip" (Py.slice_from sample_crx3 17);
               Print "Warning: Created file doesn't appear to be a valid ZIP file";
               SizeReport "out.zip"]
       = [FileWrite "out.zip" z].
Proof.
  apply (crx_to_zip_writes_once_or_never sample_env sample_crx3 (Some "out.zip"%string)
           [Print "CRX Version: 3"; Print "CRX3 - Header length: 5";
            FileWrite "out.zip" (Py.slice_from sample_crx3 17);
            Print "Warning: Created file doesn't appear to be a valid ZIP file";
            SizeReport "out.zip"]
           (Return "out.zip"%string)).
  reflexivity.
Defined.


Lemma decode_nested_is_decode_of_payload_witness :
  decode sample_env (Py.slice_from (crx3_container [Byte.x07] sample_crx3) (12 + 1))
  = Some (Py.slice_from sample_crx3 17).
Proof.
  apply (decode_nested_is_decode_of_payload sample_env
           (crx3_container [Byte.x07] sample_crx3));
    try reflexivity; vm_compute; congruence.
Defined.

Lemma decoded_is_not_empty_witness :
  Py.slice_from sample_crx2 21 <> [] /\ 4 <= Py.len sample_crx2.
Proof. apply (decoded_is_not_empty sample_env). reflexivity. Defined.

Lemma no_magic_no_signature_rejected_witness :
  crx_to_zip sample_env (Cr24 ++ [Byte.x03; Byte.x00; Byte.x00]) None
  = ([], Raise (ValueError
                  "Error converting CRX to ZIP: Invalid CRX file: Does not start with Cr24")).
Proof.
  apply no_magic_no_signature_rejected.
  - left. vm_compute. reflexivity.
  - apply find_absent. reflexivity.
  - apply find_absent. reflexivity.
  - apply find_absent. reflexivity.
Defined.

Lemma shorter_than_a_signature_rejected_witness :
  crx_to_zip sample_env [] None
  = ([], Raise (ValueError
                  "Error converting CRX to ZIP: Invalid CRX file: Does not start with Cr24")).
Proof. apply shorter_than_a_signature_rejected. vm_compute. reflexivity. Defined.

Lemma unsupported_version_rejected_witness :
  crx_to_zip sample_env (Cr24 ++ [Byte.x04; Byte.x00; Byte.x00; Byte.x00] ++ tiny_zip) None
  = ([], Raise (ValueError
                  ("Error converting CRX to ZIP: Unexpected CRX format version: "
                     ++ Py.fmt 4))).
Proof.
  apply unsupported_version_rejected; try reflexivity; try lia.
  vm_compute. congruence.
Defined.

Lemma truncated_header_rejected_witness :
  crx_to_zip sample_env (Cr24 ++ [Byte.x03; Byte.x00; Byte.x00; Byte.x00; Byte.x05]) None
  = ([Print "CRX Version: 3"],
     Raise (ValueError "Error converting CRX to ZIP: CRX3 file too small")).
Proof.
  apply (proj2 (truncated_header_rejected sample_env
                  (Cr24 ++ [Byte.x03; Byte.x00; Byte.x00; Byte.x00; Byte.x05]) None
                  eq_refl ltac:(vm_compute; congruence)));
    [reflexivity | vm_compute; reflexivity].
Defined.

Lemma no_payload_rejected_witness :
  snd (crx_to_zip sample_env (crx3_container [Byte.x01; Byte.x02] []) None)
  = Raise (ValueError "Error converting CRX to ZIP: CRX file appears to be corrupted").
Proof.
  apply (no_payload_rejected sample_env _ None (12 + 2) header_only_crx3).
  vm_compute. congruence.
Defined.

Lemma oversized_header_without_signature_rejected_witness :
  snd (crx_to_zip sample_env
         (Cr24 ++ [Byte.x03; Byte.x00; Byte.x00; Byte.x00; Byte.xff; Byte.xff; Byte.x00; Byte.x00]
               ++ [Byte.x50; Byte.x4b; Byte.x00]) None)
  = Raise (ValueError "Error converting CRX to ZIP: No ZIP signature found in CRX file").
Proof.
  apply oversized_header_without_signature_rejected;
    [reflexivity | vm_compute; congruence | exact oversized_runs_scan
     | apply find_absent; reflexivity ..].
Defined.

Lemma scan_result_decodes_to_itself_witness : decode sample_env PK34 = Some PK34.
Proof.
  apply (scan_result_decodes_to_itself sample_env eocd_then_local PK34
           eocd_then_local_runs_scan).
  reflexivity.
Defined.

Lemma crx3_container_roundtrip_witness :
  decode sample_env (crx3_container [Byte.x0a; Byte.x0b] [Byte.x41; Byte.x42])
  = Some [Byte.x41; Byte.x42].
Proof.
  apply crx3_container_roundtrip;
    [vm_compute; congruence | discriminate | intros C; discriminate C
     | intros msg C; vm_compute in C; discriminate C].
Defined.

Lemma crx2_container_roundtrip_witness :
  decode sample_env (crx2_container [Byte.x01] [Byte.x02; Byte.x03] sample_crx3)
  = Some sample_crx3.
Proof.
  apply crx2_container_roundtrip;
    [vm_compute; congruence .. | discriminate
     | intros msg C; vm_compute in C; discriminate C].
Defined.


Lemma invalid_id_downloads_nothing_witness :
  download_and_convert sample_env linux_options (delivers (Some sample_crx3))
    no_size_format "invalid_id" None true empty_fs
  = ([], Err (Builtin (ValueError "Invalid extension ID format: invalid_id"))).
Proof.
  apply (invalid_id_downloads_nothing sample_env linux_options
           (delivers (Some sample_crx3)) no_size_format "invalid_id" None true empty_fs).
  intros H. apply re_match_extension_id_spec in H. discriminate H.
Defined.

Lemma failed_download_leaves_files_witness :
  snd (download_and_convert sample_env linux_options (delivers None) no_size_format
         sample_id None true empty_fs)
  = Err (Builtin (ValueError "Failed to download CRX file"))
  /\ forall n,
      fs_after (fst (download_and_convert sample_env linux_options (delivers None)
                       no_size_format sample_id None true empty_fs)) empty_fs n
      = if String.eqb n (sample_id ++ ".crx") then None else empty_fs n.
Proof.
  eapply (failed_download_leaves_files sample_env linux_options (delivers None)
            no_size_format sample_id None true empty_fs).
  - reflexivity.
  - left. reflexivity.
Defined.

Lemma successful_download_files_witness :
  let run := download_and_convert sample_env linux_options
               (delivers (Some sample_crx3)) no_size_format sample_id None false
               empty_fs in
  snd run = Ok (sample_id ++ ".zip")%string
  /\ fs_after (fst run) empty_fs (sample_id ++ ".zip")%string
     = Some (Py.slice_from sample_crx3 17)
  /\ fs_after (fst run) empty_fs (sample_id ++ ".crx")%string
     = (if false then None else Some sample_crx3)
  /\ forall n, n <> (sample_id ++ ".zip")%string ->
               n <> (sample_id ++ ".crx")%string ->
               fs_after (fst run) empty_fs n = empty_fs n.
Proof.
  eapply (successful_download_files sample_env linux_options
            (delivers (Some sample_crx3)) no_size_format sample_id None false empty_fs).
  - reflexivity.
  - reflexivity.
  - reflexivity.
  - reflexivity.
Defined.

Lemma failed_conversion_removes_crx_witness :
  let run := download_and_convert sample_env linux_options
               (delivers (Some crx3_needing_version_99)) no_size_format sample_id
               None false empty_fs in
  snd run
  = Err (Builtin (ValueError "Error converting CRX to ZIP: zip file version 9.9"))
  /\ fs_after (fst run) empty_fs (sample_id ++ ".crx")%string = None
  /\ ((nested_count
         (fst (crx_to_zip sample_env crx3_needing_version_99
                 (Some (sample_id ++ ".zip")%string)))
       <= stack_room sample_env)%nat ->
      (forall n, n <> (sample_id ++ ".zip")%string ->
                 n <> (sample_id ++ ".crx")%string ->
                 fs_after (fst run) empty_fs n = empty_fs n)
      /\ (fs_after (fst run) empty_fs (sample_id ++ ".zip")%string
          = empty_fs (sample_id ++ ".zip")%string
          \/ exists z msg,
               fs_after (fst run) empty_fs (sample_id ++ ".zip")%string = Some z
               /\ zipfile_namelist sample_env z = ZipRaises msg)).
Proof.
  eapply (failed_conversion_removes_crx sample_env linux_options
            (delivers (Some crx3_needing_version_99)) no_size_format sample_id
            None false empty_fs).
  - reflexivity.
  - reflexivity.
  - reflexivity.
  - discriminate.
  - reflexivity.
Defined.

Lemma output_named_like_crx_is_deleted_witness :
  let run := download_and_convert sample_env linux_options
               (delivers (Some sample_crx3)) no_size_format sample_id
               (Some (sample_id ++ ".crx")%string) true empty_fs in
  snd run = Ok (sample_id ++ ".crx")%string
  /\ fs_after (fst run) empty_fs (sample_id ++ ".crx")%string = None.
Proof.
  eapply (output_named_like_crx_is_deleted sample_env linux_options
            (delivers (Some sample_crx3)) no_size_format sample_id
            (Some (sample_id ++ ".crx")%string) true empty_fs).
  - reflexivity.
  - reflexivity.
  - reflexivity.
  - reflexivity.
  - reflexivity.
Defined.
